(** * Shopfloor simulator: production line core

    A shallow embedding of the three-station production line of the
    shopfloor simulator (forming press, pick-and-place robot, stud spot
    welder, line coordinator and its metrics collector, order generator,
    runtime configuration and its REST handler), followed by the properties
    of the specification that were checked against it and by further
    properties of the code.

    Conventions of the embedding.
    - Go's [int], [int64] and [time.Duration] are 64-bit two's-complement
      integers: they are carried by [Z] and every arithmetic result is
      passed through [wrap64].
    - Go's [float64] is IEEE-754 binary64, which is exactly Rocq's primitive
      [float]; conversions between integers and floats are written out.
    - Objects reached through Go pointers and shared between several owners
      (part buffers, production orders, the runtime configuration, the three
      machines) live in an explicit [Store]; a pointer is an address in the
      store and a nilable pointer is an [option] of an address.
    - [time.Now()] and the pseudo-random generator are inputs of the model:
      the wall clock is an argument, the generator is a tape of outcomes.
      One call of an [Update] may read the wall clock several times; all
      readings of one call are given the same value.
    - Mutexes are not modelled: every function is run to completion.
    - Output on the console, the OPC UA server, the ERP client and the
      timeseries generators are outside the model; no function below
      depends on them. *)

From Stdlib Require Import Bool ZArith Floats Uint63 String Ascii List Lia.
From Stdlib Require Import DecimalString.
From stdpp Require Import base option list.

Local Open Scope Z_scope.
Local Open Scope bool_scope.

(** Decimal literals such as [0.1] denote the nearest binary64, as in Go. *)
#[local] Set Warnings "-inexact-float".

(* ------------------------------------------------------------------ *)
(** ** Machine integers, time and floats *)

Module Go.

(** 64-bit two's-complement wrap-around of [int], [int64], [Duration]. *)
Definition minInt64 : Z := - 2 ^ 63.
Definition maxInt64 : Z := 2 ^ 63 - 1.

Definition wrap64 (z : Z) : Z := (z + 2 ^ 63) mod 2 ^ 64 - 2 ^ 63.

Definition add (a b : Z) : Z := wrap64 (a + b).
Definition sub (a b : Z) : Z := wrap64 (a - b).
(** [x++] *)
Definition incr (a : Z) : Z := add a 1.

(** [time.Time] as nanoseconds on one time line, counted from the zero
    [Time]; [time.Duration] as a signed number of nanoseconds. *)
Definition Time : Type := Z.
Definition Duration : Type := Z.

Definition Nanosecond : Duration := 1.
Definition Millisecond : Duration := 1000000.
Definition Second : Duration := 1000000000.
Definition Minute : Duration := 60 * Second.

(** [t.Sub(u)]: the difference, saturated to the range of [Duration]. *)
Definition Sub (t u : Time) : Duration :=
  let d := t - u in
  if d <? minInt64 then minInt64
  else if maxInt64 <? d then maxInt64 else d.

(** [t.Add(d)] *)
Definition Add (t : Time) (d : Duration) : Time := t + d.

(** [t.After(u)] *)
Definition After (t u : Time) : bool := u <? t.

(** [time.Since(t)] when [time.Now()] returns [wall]. *)
Definition Since (wall t : Time) : Duration := Sub wall t.

(** [float64(x)] for a 64-bit integer [x]: the nearest binary64. *)
Definition float64 (x : Z) : float :=
  if x =? minInt64 then (-9223372036854775808)%float
  else if x <? 0 then PrimFloat.opp (PrimFloat.of_uint63 (Uint63.of_Z (- x)))
  else PrimFloat.of_uint63 (Uint63.of_Z x).

(** [int64(f)], [int(f)], [time.Duration(f)] for a float [f]: truncation
    toward zero.  Outside the range of [int64], and for NaN, the Go
    specification leaves the result to the implementation; amd64 yields
    the minimum integer, which is what is written here. *)
Definition int64 (f : float) : Z :=
  match Prim2SF f with
  | S754_zero _ => 0
  | S754_finite s m e =>
      let mag := if 0 <=? e then Z.shiftl (Z.pos m) e
                 else Z.shiftr (Z.pos m) (- e) in
      let v := if s then - mag else mag in
      if (v <? minInt64) || (maxInt64 <? v) then minInt64 else v
  | S754_infinity _ | S754_nan => minInt64
  end.

(** [fmt.Sprintf("%04d", n)] *)
Definition pad4 (n : Z) : string :=
  let digits := NilZero.string_of_uint (N.to_uint (Z.to_N (Z.abs n))) in
  let width := if n <? 0 then 3%nat else 4%nat in
  let zeros := string_of_list_ascii
                 (repeat "0"%char (width - String.length digits)%nat) in
  String.append (if n <? 0 then "-"%string else EmptyString)
                (String.append zeros digits).

(** What one call reads from its surroundings: [wall] is the value of
    [time.Now()] during the call, [date t] is
    [t.Format("2006-01-02")] in the location of [t]. *)
Record Clock : Type := mkClock {
  wall : Time;
  date : Time -> string
}.

(** [a * b] *)
Definition mul (a b : Z) : Z := wrap64 (a * b).

(** [a / b] for a divisor that is not zero: the quotient truncated
    toward zero. *)
Definition quo (a b : Z) : Z := wrap64 (Z.quot a b).

Definition Hour : Duration := 60 * Minute.

(** [fmt.Sprintf("%d", n)] *)
Definition itoa (n : Z) : string :=
  String.append (if n <? 0 then "-"%string else EmptyString)
                (NilZero.string_of_uint (N.to_uint (Z.to_N (Z.abs n)))).

(** [fmt.Sprintf("%05d", n)] *)
Definition pad5 (n : Z) : string :=
  let digits := NilZero.string_of_uint (N.to_uint (Z.to_N (Z.abs n))) in
  let width := if n <? 0 then 4%nat else 5%nat in
  let zeros := string_of_list_ascii
                 (repeat "0"%char (width - String.length digits)%nat) in
  String.append (if n <? 0 then "-"%string else EmptyString)
                (String.append zeros digits).

End Go.

(* ------------------------------------------------------------------ *)
(** ** The store of shared objects *)

Module Heap.

Section Objects.
Context {A : Type} `{!Inhabited A}.

(** Allocation returns the fresh address, the length of the heap. *)
Definition alloc (h : list A) (a : A) : nat * list A :=
  (length h, h ++ [a]).

(** [*p].  Every address in use was returned by [alloc]; the value
    given outside the heap only keeps the function total. *)
Definition deref (h : list A) (p : nat) : A := h !!! p.

(** [*p = a] *)
Definition assign (h : list A) (p : nat) (a : A) : list A := <[p := a]> h.
End Objects.

(** [p != nil] for a nilable pointer. *)
Definition notNil {A : Type} (p : option A) : bool :=
  match p with Some _ => true | None => false end.

End Heap.

(* ------------------------------------------------------------------ *)
(** ** package config: the runtime configuration *)

Module config.
Import Go.

(** [fmt.Errorf(format, value)]: the format and the value it reports. *)
Inductive error : Type :=
| Errorf (format : string) (got : float).

(** [RuntimeConfig] without its mutex. *)
Record RuntimeConfig : Type := mkRuntimeConfig {
  cycleTimeScale : float;
  scrapRate : float;
  errorRate : float;
  baseCycleTime : Duration;
  baseSetupTime : Duration
}.

(** The fields of the static [Config] that the line reads. *)
Record Config : Type := mkConfig {
  SimulatorName : string;
  PublishInterval : Duration;
  CycleTime : Duration;
  SetupTime : Duration;
  ScrapRate : float;
  ErrorRate : float
}.

Definition NewRuntimeConfig (cfg : Config) : RuntimeConfig :=
  {| cycleTimeScale := 1;
     scrapRate := ScrapRate cfg;
     errorRate := ErrorRate cfg;
     baseCycleTime := CycleTime cfg;
     baseSetupTime := SetupTime cfg |}.

Definition GetCycleTimeScale (rc : RuntimeConfig) : float := cycleTimeScale rc.
Definition GetBaseCycleTime (rc : RuntimeConfig) : Duration := baseCycleTime rc.

Definition GetEffectiveCycleTime (rc : RuntimeConfig) : Duration :=
  int64 (float64 (baseCycleTime rc) / cycleTimeScale rc)%float.

Definition GetEffectiveSetupTime (rc : RuntimeConfig) : Duration :=
  int64 (float64 (baseSetupTime rc) / cycleTimeScale rc)%float.

Definition GetEffectiveErrorDuration (rc : RuntimeConfig)
    (baseDuration : Duration) : Duration :=
  int64 (float64 baseDuration / cycleTimeScale rc)%float.

Definition GetScrapRate (rc : RuntimeConfig) : float := scrapRate rc.
Definition GetErrorRate (rc : RuntimeConfig) : float := errorRate rc.

(** The setters return the configuration after the call and the error
    ([None] is Go's [nil]). *)
Definition SetCycleTimeScale (rc : RuntimeConfig) (scale : float)
    : RuntimeConfig * option error :=
  if (scale <? 0.1)%float || (10.0 <? scale)%float then
    (rc, Some (Errorf "cycle time scale must be between 0.1 and 10.0, got %f" scale))
  else
    ({| cycleTimeScale := scale;
        scrapRate := scrapRate rc;
        errorRate := errorRate rc;
        baseCycleTime := baseCycleTime rc;
        baseSetupTime := baseSetupTime rc |}, None).

Definition SetScrapRate (rc : RuntimeConfig) (rate : float)
    : RuntimeConfig * option error :=
  if (rate <? 0.0)%float || (0.5 <? rate)%float then
    (rc, Some (Errorf "scrap rate must be between 0.0 and 0.5, got %f" rate))
  else
    ({| cycleTimeScale := cycleTimeScale rc;
        scrapRate := rate;
        errorRate := errorRate rc;
        baseCycleTime := baseCycleTime rc;
        baseSetupTime := baseSetupTime rc |}, None).

Definition SetErrorRate (rc : RuntimeConfig) (rate : float)
    : RuntimeConfig * option error :=
  if (rate <? 0.0)%float || (0.2 <? rate)%float then
    (rc, Some (Errorf "error rate must be between 0.0 and 0.2, got %f" rate))
  else
    ({| cycleTimeScale := cycleTimeScale rc;
        scrapRate := scrapRate rc;
        errorRate := rate;
        baseCycleTime := baseCycleTime rc;
        baseSetupTime := baseSetupTime rc |}, None).

Record RuntimeConfigSnapshot : Type := mkSnapshot {
  snapCycleTimeScale : float;
  snapBaseCycleTime : Duration;
  snapEffectiveCycleTime : Duration;
  snapBaseSetupTime : Duration;
  snapEffectiveSetupTime : Duration;
  snapScrapRate : float;
  snapErrorRate : float
}.

Definition Snapshot (rc : RuntimeConfig) : RuntimeConfigSnapshot :=
  {| snapCycleTimeScale := cycleTimeScale rc;
     snapBaseCycleTime := baseCycleTime rc;
     snapEffectiveCycleTime :=
       int64 (float64 (baseCycleTime rc) / cycleTimeScale rc)%float;
     snapBaseSetupTime := baseSetupTime rc;
     snapEffectiveSetupTime :=
       int64 (float64 (baseSetupTime rc) / cycleTimeScale rc)%float;
     snapScrapRate := scrapRate rc;
     snapErrorRate := errorRate rc |}.

#[global] Instance RuntimeConfig_inhabited : Inhabited RuntimeConfig :=
  populate (mkRuntimeConfig 0 0 0 0 0).

End config.

(* ------------------------------------------------------------------ *)
(** ** package core: shared types *)

Module core.
Import Go.

Inductive MachineState : Type :=
| StateIdle
| StateSetup
| StateRunning
| StatePlannedStop
| StateUnplannedStop.

Definition MachineState_eqb (a b : MachineState) : bool :=
  match a, b with
  | StateIdle, StateIdle
  | StateSetup, StateSetup
  | StateRunning, StateRunning
  | StatePlannedStop, StatePlannedStop
  | StateUnplannedStop, StateUnplannedStop => true
  | _, _ => false
  end.

Definition OrderStatusQueued : string := "QUEUED".
Definition OrderStatusInProgress : string := "IN_PROGRESS".
Definition OrderStatusCompleted : string := "COMPLETED".
Definition OrderStatusCancelled : string := "CANCELLED".

Record ProductionOrder : Type := mkOrder {
  OrderID : string;
  PartNumber : string;
  PartDescription : string;
  Quantity : Z;
  QuantityCompleted : Z;
  QuantityScrap : Z;
  DueDate : Time;
  Customer : string;
  Priority : Z;
  Status : string;
  StartedAt : Time;
  EstimatedCompletion : Time
}.

Definition order_with_QuantityCompleted (o : ProductionOrder) (n : Z) :=
  mkOrder (OrderID o) (PartNumber o) (PartDescription o) (Quantity o)
          n (QuantityScrap o) (DueDate o) (Customer o) (Priority o)
          (Status o) (StartedAt o) (EstimatedCompletion o).

Definition order_with_QuantityScrap (o : ProductionOrder) (n : Z) :=
  mkOrder (OrderID o) (PartNumber o) (PartDescription o) (Quantity o)
          (QuantityCompleted o) n (DueDate o) (Customer o) (Priority o)
          (Status o) (StartedAt o) (EstimatedCompletion o).

Definition order_with_Status (o : ProductionOrder) (s : string) :=
  mkOrder (OrderID o) (PartNumber o) (PartDescription o) (Quantity o)
          (QuantityCompleted o) (QuantityScrap o) (DueDate o) (Customer o)
          (Priority o) s (StartedAt o) (EstimatedCompletion o).

Definition order_with_StartedAt (o : ProductionOrder) (t : Time) :=
  mkOrder (OrderID o) (PartNumber o) (PartDescription o) (Quantity o)
          (QuantityCompleted o) (QuantityScrap o) (DueDate o) (Customer o)
          (Priority o) (Status o) t (EstimatedCompletion o).

(** [PartStatus] is a string type with these constants. *)
Definition PartStatus : Type := string.
Definition PartStatusInForming : PartStatus := "IN_FORMING"%string.
Definition PartStatusAwaitingPickup : PartStatus := "AWAITING_PICKUP"%string.
Definition PartStatusInTransit : PartStatus := "IN_TRANSIT"%string.
Definition PartStatusAwaitingWelding : PartStatus := "AWAITING_WELDING"%string.
Definition PartStatusBeingWelded : PartStatus := "BEING_WELDED"%string.
Definition PartStatusComplete : PartStatus := "COMPLETE"%string.
Definition PartStatusScrap : PartStatus := "SCRAP"%string.

(** A part has a single holder at any time (a buffer or a machine), so a
    [*Part] is carried by value. *)
Record Part : Type := mkPart {
  ID : string;
  PartOrderID : string;
  PartStatusOf : PartStatus;
  Location : string;
  CreatedAt : Time;
  FormingComplete : Time;
  PickingComplete : Time;
  WeldingComplete : Time;
  FormingMachineID : string;
  PickerRobotID : string;
  SpotWelderID : string;
  IsScrap : bool;
  ScrapReason : string
}.

(** [part.Status = s; part.Location = l] *)
Definition part_moved (p : Part) (s : PartStatus) (l : string) : Part :=
  mkPart (ID p) (PartOrderID p) s l (CreatedAt p) (FormingComplete p)
         (PickingComplete p) (WeldingComplete p) (FormingMachineID p)
         (PickerRobotID p) (SpotWelderID p) (IsScrap p) (ScrapReason p).

(** [part.Status = AwaitingWelding; part.PickingComplete = now;
     part.PickerRobotID = name] *)
Definition part_picked (p : Part) (now : Time) (name : string) : Part :=
  mkPart (ID p) (PartOrderID p) PartStatusAwaitingWelding (Location p)
         (CreatedAt p) (FormingComplete p) now (WeldingComplete p)
         (FormingMachineID p) name (SpotWelderID p) (IsScrap p)
         (ScrapReason p).

(** [part.Status = Complete; part.WeldingComplete = now;
     part.SpotWelderID = name] *)
Definition part_welded (p : Part) (now : Time) (name : string) : Part :=
  mkPart (ID p) (PartOrderID p) PartStatusComplete (Location p)
         (CreatedAt p) (FormingComplete p) (PickingComplete p) now
         (FormingMachineID p) (PickerRobotID p) name (IsScrap p)
         (ScrapReason p).

(** [part.IsScrap = true; part.ScrapReason = why; part.Status = Scrap] *)
Definition part_scrapped (p : Part) (why : string) : Part :=
  mkPart (ID p) (PartOrderID p) PartStatusScrap (Location p)
         (CreatedAt p) (FormingComplete p) (PickingComplete p)
         (WeldingComplete p) (FormingMachineID p) (PickerRobotID p)
         (SpotWelderID p) true why.

(** *** PartBuffer *)

Record PartBuffer : Type := mkPartBuffer {
  MaxCapacity : Z;
  Queue : list Part
}.

(** [make([]*Part, 0, capacity)] panics for a negative capacity: no
    buffer is returned then. *)
Definition NewPartBuffer (capacity : Z) : option PartBuffer :=
  if capacity <? 0 then None
  else Some {| MaxCapacity := capacity; Queue := [] |}.

Definition len {A : Type} (l : list A) : Z := Z.of_nat (length l).

Definition Push (pb : PartBuffer) (part : Part) : PartBuffer * bool :=
  if MaxCapacity pb <=? len (Queue pb) then (pb, false)
  else ({| MaxCapacity := MaxCapacity pb; Queue := Queue pb ++ [part] |},
        true).

Definition Pop (pb : PartBuffer) : PartBuffer * option Part :=
  match Queue pb with
  | [] => (pb, None)
  | part :: rest =>
      ({| MaxCapacity := MaxCapacity pb; Queue := rest |}, Some part)
  end.

Definition Peek (pb : PartBuffer) : option Part :=
  match Queue pb with
  | [] => None
  | part :: _ => Some part
  end.

Definition Count (pb : PartBuffer) : Z := len (Queue pb).

Definition IsFull (pb : PartBuffer) : bool :=
  MaxCapacity pb <=? len (Queue pb).

Definition IsEmpty (pb : PartBuffer) : bool := len (Queue pb) =? 0.

Record ErrorInfo : Type := mkErrorInfo {
  Code : string;
  Message : string;
  OccurredAt : Time;
  ExpectedEnd : Time
}.

#[global] Instance PartBuffer_inhabited : Inhabited PartBuffer :=
  populate (mkPartBuffer 0 []).

#[global] Instance ProductionOrder_inhabited : Inhabited ProductionOrder :=
  populate (mkOrder EmptyString EmptyString EmptyString 0 0 0 0
                    EmptyString 0 EmptyString 0 0).

(** *** The store *)

(** Objects that several owners reach through pointers. *)
Record Store : Type := mkStore {
  buffers : list PartBuffer;
  orders : list ProductionOrder;
  runtimes : list config.RuntimeConfig
}.

Definition emptyStore : Store := mkStore [] [] [].

Definition buffer (st : Store) (p : nat) : PartBuffer :=
  Heap.deref (buffers st) p.

Definition set_buffer (st : Store) (p : nat) (pb : PartBuffer) : Store :=
  mkStore (Heap.assign (buffers st) p pb) (orders st) (runtimes st).

Definition alloc_buffer (st : Store) (pb : PartBuffer) : nat * Store :=
  let '(p, h) := Heap.alloc (buffers st) pb in
  (p, mkStore h (orders st) (runtimes st)).

Definition order (st : Store) (p : nat) : ProductionOrder :=
  Heap.deref (orders st) p.

Definition set_order (st : Store) (p : nat) (o : ProductionOrder) : Store :=
  mkStore (buffers st) (Heap.assign (orders st) p o) (runtimes st).

Definition alloc_order (st : Store) (o : ProductionOrder) : nat * Store :=
  let '(p, h) := Heap.alloc (orders st) o in
  (p, mkStore (buffers st) h (runtimes st)).

Definition runtime (st : Store) (p : nat) : config.RuntimeConfig :=
  Heap.deref (runtimes st) p.

Definition set_runtime (st : Store) (p : nat) (rc : config.RuntimeConfig)
    : Store :=
  mkStore (buffers st) (orders st) (Heap.assign (runtimes st) p rc).

Definition alloc_runtime (st : Store) (rc : config.RuntimeConfig)
    : nat * Store :=
  let '(p, h) := Heap.alloc (runtimes st) rc in
  (p, mkStore (buffers st) (orders st) h).

(** [p.Push(part)] on the buffer at address [p]: the buffer is written
    only when the part is accepted. *)
Definition PushAt (st : Store) (p : nat) (part : Part) : Store * bool :=
  match Push (buffer st p) part with
  | (pb, true) => (set_buffer st p pb, true)
  | (_, false) => (st, false)
  end.

(** [rc.Set...(v)] on the runtime configuration at address [rc]: the
    configuration is written only when the setter accepts the value. *)
Definition SetAt (st : Store) (rc : nat)
    (set : config.RuntimeConfig -> float
           -> config.RuntimeConfig * option config.error)
    (v : float) : Store * option config.error :=
  match set (runtime st rc) v with
  | (_, Some err) => (st, Some err)
  | (r, None) => (set_runtime st rc r, None)
  end.

(** *** NoiseGenerator *)

(** The generator [rng] as a tape: the [n]-th call of [rng.Float64()]
    returns [float64s n], the [n]-th call of [rng.Intn(k)] returns
    [intns n mod k].  The caches for coloured noise and drift serve the
    timeseries only and are left out. *)
Record NoiseGenerator : Type := mkNoise {
  float64s : nat -> float;
  intns : nat -> Z;
  nextFloat : nat;
  nextInt : nat
}.

Definition Float64 (ng : NoiseGenerator) : float * NoiseGenerator :=
  (float64s ng (nextFloat ng),
   mkNoise (float64s ng) (intns ng) (S (nextFloat ng)) (nextInt ng)).

(** [rng.Intn(n)], for the positive [n] of its callers. *)
Definition Intn (ng : NoiseGenerator) (n : Z) : Z * NoiseGenerator :=
  (intns ng (nextInt ng) mod n,
   mkNoise (float64s ng) (intns ng) (nextFloat ng) (S (nextInt ng))).

Definition Uniform (ng : NoiseGenerator) (min max : float)
    : float * NoiseGenerator :=
  let '(r, ng) := Float64 ng in ((min + r * (max - min))%float, ng).

Definition UniformInt (ng : NoiseGenerator) (min max : Z)
    : Z * NoiseGenerator :=
  let '(r, ng) := Intn ng (add (sub max min) 1) in (add min r, ng).

Definition Bool (ng : NoiseGenerator) (probability : float)
    : bool * NoiseGenerator :=
  let '(r, ng) := Float64 ng in ((r <? probability)%float, ng).

Definition ShouldTrigger (ng : NoiseGenerator) (probabilityPerCycle : float)
    (tickDuration cycleDuration : Duration) : bool * NoiseGenerator :=
  let scaledProbability :=
    (probabilityPerCycle * float64 tickDuration / float64 cycleDuration)%float in
  let '(r, ng) := Float64 ng in ((r <? scaledProbability)%float, ng).

(** *** MachineConfig *)

Record MachineConfig : Type := mkMachineConfig {
  Name : string;
  CycleTime : Duration;
  SetupTime : Duration;
  ScrapRate : float;
  ErrorRate : float;
  PublishInterval : Duration;
  Runtime : option nat
}.

Definition GetEffectiveCycleTime (mc : MachineConfig) (st : Store)
    : Duration :=
  match Runtime mc with
  | Some rc => config.GetEffectiveCycleTime (runtime st rc)
  | None => CycleTime mc
  end.

Definition GetEffectiveSetupTime (mc : MachineConfig) (st : Store)
    : Duration :=
  match Runtime mc with
  | Some rc => config.GetEffectiveSetupTime (runtime st rc)
  | None => SetupTime mc
  end.

Definition GetEffectiveScrapRate (mc : MachineConfig) (st : Store) : float :=
  match Runtime mc with
  | Some rc => config.GetScrapRate (runtime st rc)
  | None => ScrapRate mc
  end.

Definition GetEffectiveErrorRate (mc : MachineConfig) (st : Store) : float :=
  match Runtime mc with
  | Some rc => config.GetErrorRate (runtime st rc)
  | None => ErrorRate mc
  end.

Definition GetEffectiveErrorDuration (mc : MachineConfig) (st : Store)
    (baseDuration : Duration) : Duration :=
  match Runtime mc with
  | Some rc => config.GetEffectiveErrorDuration (runtime st rc) baseDuration
  | None => baseDuration
  end.

(** *** BaseMachine *)

(** The callbacks are Go closures, [nil] when not registered.  A field
    says whether one is registered; calling it is recorded as an [Event]
    in the machine's log [fired]. *)
Record MachineCallbacks : Type := mkCallbacks {
  OnStateChange : bool;
  OnCycleComplete : bool;
  OnOrderComplete : bool;
  OnError : bool;
  OnPartProduced : bool
}.

Definition noCallbacks : MachineCallbacks :=
  mkCallbacks false false false false false.

Inductive Event : Type :=
| StateChange (from to : MachineState)
| CycleComplete (isScrap : bool)
| OrderComplete (order : nat)
| ErrorRaised (err : ErrorInfo).

(** [CurrentShift] is only stored and is left out. *)
Record BaseMachine : Type := mkBaseMachine {
  config : MachineConfig;
  callbacks : MachineCallbacks;
  state : MachineState;
  StateEnteredAt : Time;
  CycleStartedAt : Time;
  CurrentOrder : option nat;
  OrderQueue : list nat;
  GoodParts : Z;
  ScrapParts : Z;
  CurrentError : option ErrorInfo;
  fired : list Event
}.

Definition with_callbacks (bm : BaseMachine) (cb : MachineCallbacks) :=
  mkBaseMachine (config bm) cb (state bm) (StateEnteredAt bm)
    (CycleStartedAt bm) (CurrentOrder bm) (OrderQueue bm) (GoodParts bm)
    (ScrapParts bm) (CurrentError bm) (fired bm).

Definition with_state (bm : BaseMachine) (s : MachineState) (t : Time) :=
  mkBaseMachine (config bm) (callbacks bm) s t
    (CycleStartedAt bm) (CurrentOrder bm) (OrderQueue bm) (GoodParts bm)
    (ScrapParts bm) (CurrentError bm) (fired bm).

Definition with_CycleStartedAt (bm : BaseMachine) (t : Time) :=
  mkBaseMachine (config bm) (callbacks bm) (state bm) (StateEnteredAt bm)
    t (CurrentOrder bm) (OrderQueue bm) (GoodParts bm)
    (ScrapParts bm) (CurrentError bm) (fired bm).

Definition with_CurrentOrder (bm : BaseMachine) (o : option nat) :=
  mkBaseMachine (config bm) (callbacks bm) (state bm) (StateEnteredAt bm)
    (CycleStartedAt bm) o (OrderQueue bm) (GoodParts bm)
    (ScrapParts bm) (CurrentError bm) (fired bm).

Definition with_OrderQueue (bm : BaseMachine) (q : list nat) :=
  mkBaseMachine (config bm) (callbacks bm) (state bm) (StateEnteredAt bm)
    (CycleStartedAt bm) (CurrentOrder bm) q (GoodParts bm)
    (ScrapParts bm) (CurrentError bm) (fired bm).

Definition with_GoodParts (bm : BaseMachine) (n : Z) :=
  mkBaseMachine (config bm) (callbacks bm) (state bm) (StateEnteredAt bm)
    (CycleStartedAt bm) (CurrentOrder bm) (OrderQueue bm) n
    (ScrapParts bm) (CurrentError bm) (fired bm).

Definition with_ScrapParts (bm : BaseMachine) (n : Z) :=
  mkBaseMachine (config bm) (callbacks bm) (state bm) (StateEnteredAt bm)
    (CycleStartedAt bm) (CurrentOrder bm) (OrderQueue bm) (GoodParts bm)
    n (CurrentError bm) (fired bm).

Definition with_CurrentError (bm : BaseMachine) (e : option ErrorInfo) :=
  mkBaseMachine (config bm) (callbacks bm) (state bm) (StateEnteredAt bm)
    (CycleStartedAt bm) (CurrentOrder bm) (OrderQueue bm) (GoodParts bm)
    (ScrapParts bm) e (fired bm).

(** [if cb != nil { cb(...) }] *)
Definition fire (bm : BaseMachine) (registered : bool) (e : Event) :=
  if registered then
    mkBaseMachine (config bm) (callbacks bm) (state bm) (StateEnteredAt bm)
      (CycleStartedAt bm) (CurrentOrder bm) (OrderQueue bm) (GoodParts bm)
      (ScrapParts bm) (CurrentError bm) (fired bm ++ [e])
  else bm.

(** [time.Now()] is read into [StateEnteredAt]: [wall] is that reading. *)
Definition NewBaseMachine (wall : Time) (cfg : MachineConfig) : BaseMachine :=
  {| config := cfg;
     callbacks := noCallbacks;
     state := StateIdle;
     StateEnteredAt := wall;
     CycleStartedAt := 0;
     CurrentOrder := None;
     OrderQueue := [];
     GoodParts := 0;
     ScrapParts := 0;
     CurrentError := None;
     fired := [] |}.

Definition SetCallbacks (bm : BaseMachine) (cb : MachineCallbacks) :=
  with_callbacks bm cb.

Definition State (bm : BaseMachine) : MachineState := state bm.

Definition TransitionTo (wall : Time) (bm : BaseMachine)
    (newState : MachineState) : BaseMachine :=
  if MachineState_eqb (state bm) newState then bm
  else
    let oldState := state bm in
    let bm := with_state bm newState wall in
    fire bm (OnStateChange (callbacks bm)) (StateChange oldState newState).

Definition AddOrder (bm : BaseMachine) (o : nat) : BaseMachine :=
  with_OrderQueue bm (OrderQueue bm ++ [o]).

Definition GetCurrentOrder (bm : BaseMachine) : option nat := CurrentOrder bm.

Definition GetCounters (bm : BaseMachine) : Z * Z :=
  (GoodParts bm, ScrapParts bm).

Definition ResetCounters (bm : BaseMachine) : BaseMachine :=
  with_ScrapParts (with_GoodParts bm 0) 0.

Definition Config (bm : BaseMachine) : MachineConfig := config bm.

Definition TriggerError (wall : Time) (bm : BaseMachine)
    (code message : string) (duration : Duration) : BaseMachine :=
  let now := wall in
  let err := {| Code := code; Message := message; OccurredAt := now;
                ExpectedEnd := Add now duration |} in
  let bm := with_CurrentError bm (Some err) in
  let bm := TransitionTo wall bm StateUnplannedStop in
  fire bm (OnError (callbacks bm)) (ErrorRaised err).

Definition ClearError (bm : BaseMachine) : BaseMachine :=
  with_CurrentError bm None.

Definition HasError (bm : BaseMachine) : bool :=
  match CurrentError bm with Some _ => true | None => false end.

Definition IsErrorResolved (bm : BaseMachine) (now : Time) : bool :=
  match CurrentError bm with
  | Some err => After now (ExpectedEnd err)
  | None => false
  end.

Definition StartNextOrder (bm : BaseMachine) (st : Store) (now : Time)
    : BaseMachine * Store * bool :=
  match OrderQueue bm with
  | [] => (bm, st, false)
  | o :: rest =>
      let bm := with_CurrentOrder bm (Some o) in
      let bm := with_OrderQueue bm rest in
      let st := set_order st o (order_with_Status (order st o)
                                  OrderStatusInProgress) in
      let st := set_order st o (order_with_StartedAt (order st o) now) in
      (bm, st, true)
  end.

Definition CompleteCycle (bm : BaseMachine) (st : Store) (isScrap : bool)
    : BaseMachine * Store :=
  let '(bm, st) :=
    if isScrap then
      let bm := with_ScrapParts bm (incr (ScrapParts bm)) in
      match CurrentOrder bm with
      | Some o =>
          (bm, set_order st o
                 (order_with_QuantityScrap (order st o)
                    (incr (QuantityScrap (order st o)))))
      | None => (bm, st)
      end
    else
      let bm := with_GoodParts bm (incr (GoodParts bm)) in
      match CurrentOrder bm with
      | Some o =>
          (bm, set_order st o
                 (order_with_QuantityCompleted (order st o)
                    (incr (QuantityCompleted (order st o)))))
      | None => (bm, st)
      end in
  (fire bm (OnCycleComplete (callbacks bm)) (CycleComplete isScrap), st).

Definition IsOrderComplete (bm : BaseMachine) (st : Store) : bool :=
  match CurrentOrder bm with
  | None => false
  | Some o =>
      let total := add (QuantityCompleted (order st o))
                       (QuantityScrap (order st o)) in
      Quantity (order st o) <=? total
  end.

Definition FinishOrder (bm : BaseMachine) (st : Store)
    : BaseMachine * Store :=
  match CurrentOrder bm with
  | Some o =>
      let st := set_order st o (order_with_Status (order st o)
                                  OrderStatusCompleted) in
      let bm := fire bm (OnOrderComplete (callbacks bm)) (OrderComplete o) in
      (with_CurrentOrder bm None, st)
  | None => (bm, st)
  end.

Definition ElapsedInState (wall : Time) (bm : BaseMachine) : Duration :=
  Since wall (StateEnteredAt bm).

Definition ElapsedInCycle (wall : Time) (bm : BaseMachine) : Duration :=
  Since wall (CycleStartedAt bm).

(** *** Helpers for generated values *)

(** The loop of [SelectWeighted]: [i] is the index of the first weight
    of [weights], [cumulative] the sum of the weights before it. *)
Fixpoint selectFrom (weights : list float) (i : Z) (cumulative r : float)
    : option Z :=
  match weights with
  | [] => None
  | w :: rest =>
      let cumulative := (cumulative + w)%float in
      if (r <=? cumulative)%float then Some i
      else selectFrom rest (i + 1) cumulative r
  end.

Definition SelectWeighted (ng : NoiseGenerator) (weights : list float)
    : Z * NoiseGenerator :=
  let total := fold_left (fun total w => (total + w)%float) weights 0%float in
  let '(r, ng) := Float64 ng in
  let r := (r * total)%float in
  match selectFrom weights 0 0%float r with
  | Some i => (i, ng)
  | None => (sub (len weights) 1, ng)
  end.

Definition ClampPositive (value : float) : float :=
  if (value <? 0)%float then 0%float else value.

Definition Clamp (value min max : float) : float :=
  if (value <? min)%float then min
  else if (max <? value)%float then max
  else value.

End core.

(* ------------------------------------------------------------------ *)
(** ** package forming: the forming press *)

Module forming.
Import Go core.

Inductive FormingPhase : Type :=
| PhaseIdle
| PhaseLoad
| PhaseForm
| PhaseHold
| PhaseEject
| PhaseRaise.

Definition FormingPhase_eqb (a b : FormingPhase) : bool :=
  match a, b with
  | PhaseIdle, PhaseIdle | PhaseLoad, PhaseLoad | PhaseForm, PhaseForm
  | PhaseHold, PhaseHold | PhaseEject, PhaseEject
  | PhaseRaise, PhaseRaise => true
  | _, _ => false
  end.

Definition ErrorCode : Type := string.
Definition ErrorNone : ErrorCode := EmptyString.
Definition ErrorSheetMisfeed : ErrorCode := "F001"%string.
Definition ErrorHydraulicFault : ErrorCode := "F002"%string.
Definition ErrorOverpressure : ErrorCode := "F003"%string.
Definition ErrorRamStuck : ErrorCode := "F004"%string.
Definition ErrorQualityReject : ErrorCode := "F005"%string.
Definition ErrorTemperatureFault : ErrorCode := "F006"%string.

Definition GetErrorInfo (code : ErrorCode) : string * Duration * Duration :=
  if String.eqb code ErrorSheetMisfeed then
    ("Sheet metal misfeed detected"%string, 30 * Second, 1 * Minute)
  else if String.eqb code ErrorHydraulicFault then
    ("Hydraulic system fault"%string, 1 * Minute, 3 * Minute)
  else if String.eqb code ErrorOverpressure then
    ("Overpressure detected"%string, 45 * Second, 2 * Minute)
  else if String.eqb code ErrorRamStuck then
    ("Ram stuck in position"%string, 2 * Minute, 5 * Minute)
  else if String.eqb code ErrorQualityReject then
    ("Quality reject - forming defect"%string, 15 * Second, 45 * Second)
  else if String.eqb code ErrorTemperatureFault then
    ("Temperature out of range"%string, 1 * Minute, 2 * Minute)
  else (EmptyString, 0, 0).

Definition AllErrorCodes : list ErrorCode :=
  [ErrorSheetMisfeed; ErrorHydraulicFault; ErrorOverpressure;
   ErrorRamStuck; ErrorQualityReject; ErrorTemperatureFault].

Record FormingConfig : Type := mkFormingConfig {
  TargetTemperature : float;
  MaxPressure : float;
  MaxFormingForce : float;
  RamTravel : float;
  MaxRamSpeed : float;
  LoadFraction : float;
  FormFraction : float;
  HoldFraction : float;
  EjectFraction : float;
  RaiseFraction : float;
  OutputBufferCapacity : Z
}.

Definition DefaultFormingConfig : FormingConfig :=
  {| TargetTemperature := 45.0;
     MaxPressure := 150.0;
     MaxFormingForce := 250.0;
     RamTravel := 400.0;
     MaxRamSpeed := 80.0;
     LoadFraction := 0.10;
     FormFraction := 0.40;
     HoldFraction := 0.15;
     EjectFraction := 0.15;
     RaiseFraction := 0.20;
     OutputBufferCapacity := 5 |}.

Record FormingState : Type := mkFormingState {
  Phase : FormingPhase;
  PhaseStartedAt : Time;
  CycleCount : Z;
  CurrentRamPosition : float;
  OutputBuffer : nat;
  CurrentPartID : string
}.

(** The embedded [*core.BaseMachine] is owned by the machine alone and is
    carried by value; the timeseries generator is left out. *)
Record FormingMachine : Type := mkFormingMachine {
  base : BaseMachine;
  formConfig : FormingConfig;
  formState : FormingState;
  noise : NoiseGenerator;
  name : string;
  partCounter : Z
}.

Definition with_base (fm : FormingMachine) (bm : BaseMachine) :=
  mkFormingMachine bm (formConfig fm) (formState fm) (noise fm) (name fm)
                   (partCounter fm).

Definition with_formState (fm : FormingMachine) (fs : FormingState) :=
  mkFormingMachine (base fm) (formConfig fm) fs (noise fm) (name fm)
                   (partCounter fm).

Definition with_noise (fm : FormingMachine) (ng : NoiseGenerator) :=
  mkFormingMachine (base fm) (formConfig fm) (formState fm) ng (name fm)
                   (partCounter fm).

Definition with_partCounter (fm : FormingMachine) (n : Z) :=
  mkFormingMachine (base fm) (formConfig fm) (formState fm) (noise fm)
                   (name fm) n.

Definition with_Phase (fm : FormingMachine) (p : FormingPhase) :=
  let fs := formState fm in
  with_formState fm
    (mkFormingState p (PhaseStartedAt fs) (CycleCount fs)
                    (CurrentRamPosition fs) (OutputBuffer fs)
                    (CurrentPartID fs)).

Definition with_CurrentRamPosition (fm : FormingMachine) (x : float) :=
  let fs := formState fm in
  with_formState fm
    (mkFormingState (Phase fs) (PhaseStartedAt fs) (CycleCount fs) x
                    (OutputBuffer fs) (CurrentPartID fs)).

Definition with_CycleCount (fm : FormingMachine) (n : Z) :=
  let fs := formState fm in
  with_formState fm
    (mkFormingState (Phase fs) (PhaseStartedAt fs) n
                    (CurrentRamPosition fs) (OutputBuffer fs)
                    (CurrentPartID fs)).

Definition with_CurrentPartID (fm : FormingMachine) (id : string) :=
  let fs := formState fm in
  with_formState fm
    (mkFormingState (Phase fs) (PhaseStartedAt fs) (CycleCount fs)
                    (CurrentRamPosition fs) (OutputBuffer fs) id).

(** [None] when [core.NewPartBuffer] panics. *)
Definition NewFormingMachine (clk : Clock) (ng : NoiseGenerator)
    (name : string) (cfg : MachineConfig) (formCfg : FormingConfig)
    (st : Store) : option (FormingMachine * Store) :=
  match NewPartBuffer (OutputBufferCapacity formCfg) with
  | None => None
  | Some pb =>
      let '(out, st) := alloc_buffer st pb in
      Some ({| base := NewBaseMachine (wall clk) cfg;
               formConfig := formCfg;
               formState := {| Phase := PhaseIdle;
                               PhaseStartedAt := 0;
                               CycleCount := 0;
                               CurrentRamPosition := 0;
                               OutputBuffer := out;
                               CurrentPartID := EmptyString |};
               noise := ng;
               name := name;
               partCounter := 0 |}, st)
  end.

Definition Start (fm : FormingMachine) : FormingMachine :=
  with_CurrentRamPosition (with_CycleCount (with_Phase fm PhaseIdle) 0) 0.

Definition Stop (fm : FormingMachine) : FormingMachine := fm.

Definition SetPhase (clk : Clock) (fm : FormingMachine)
    (phase : FormingPhase) : FormingMachine :=
  let fs := formState fm in
  with_formState fm
    (mkFormingState phase (wall clk) (CycleCount fs)
                    (CurrentRamPosition fs) (OutputBuffer fs)
                    (CurrentPartID fs)).

Definition GetCycleCount (fm : FormingMachine) : Z :=
  CycleCount (formState fm).

Definition GetOutputBuffer (fm : FormingMachine) : nat :=
  OutputBuffer (formState fm).

Definition generatePartID (clk : Clock) (fm : FormingMachine) (now : Time)
    : FormingMachine :=
  let fm := with_partCounter fm (incr (partCounter fm)) in
  with_CurrentPartID fm
    (String.append "PART-"
       (String.append (date clk now)
          (String.append "-" (pad4 (partCounter fm))))).

(** The debug output of the source is not part of the model. *)
Definition updateIdle (clk : Clock) (fm : FormingMachine) (st : Store)
    (now : Time) : FormingMachine * Store :=
  let fm := with_Phase fm PhaseIdle in
  let fm := with_CurrentRamPosition fm 0 in
  if Heap.notNil (CurrentOrder (base fm))
     || (0 <? len (OrderQueue (base fm)))
  then
    let '(fm, st) :=
      match CurrentOrder (base fm) with
      | None =>
          let '(bm, st, _) := StartNextOrder (base fm) st now in
          (with_base fm bm, st)
      | Some _ => (fm, st)
      end in
    (with_base fm (TransitionTo (wall clk) (base fm) StateSetup), st)
  else (fm, st).

Definition updateSetup (clk : Clock) (fm : FormingMachine)
    (elapsed : Duration) (now : Time) : FormingMachine :=
  if SetupTime (Config (base fm)) <=? elapsed then
    let fm := with_base fm (TransitionTo (wall clk) (base fm) StateRunning) in
    let fm := with_base fm (with_CycleStartedAt (base fm) now) in
    let fm := SetPhase clk fm PhaseLoad in
    generatePartID clk fm now
  else fm.

Definition updatePlannedStop (clk : Clock) (fm : FormingMachine)
    (isBreakTime : bool) : FormingMachine :=
  if negb isBreakTime then
    with_base fm (TransitionTo (wall clk) (base fm) StateIdle)
  else fm.

Definition updateUnplannedStop (clk : Clock) (fm : FormingMachine)
    (now : Time) : FormingMachine :=
  if IsErrorResolved (base fm) now then
    let fm := with_base fm (ClearError (base fm)) in
    with_base fm (TransitionTo (wall clk) (base fm) StateIdle)
  else fm.

Definition shouldTriggerError (fm : FormingMachine)
    : bool * FormingMachine :=
  if negb (FormingPhase_eqb (Phase (formState fm)) PhaseForm)
     && negb (FormingPhase_eqb (Phase (formState fm)) PhaseHold)
  then (false, fm)
  else
    let '(b, ng) :=
      ShouldTrigger (noise fm) (ErrorRate (Config (base fm)))
        (PublishInterval (Config (base fm))) (CycleTime (Config (base fm))) in
    (b, with_noise fm ng).

Definition triggerError (clk : Clock) (fm : FormingMachine) (now : Time)
    : FormingMachine :=
  let errors := AllErrorCodes in
  let '(i, ng) := UniformInt (noise fm) 0 (sub (len errors) 1) in
  let fm := with_noise fm ng in
  let errorCode := nth (Z.to_nat i) errors ErrorNone in
  let '(message, minDur, maxDur) := GetErrorInfo errorCode in
  let '(d, ng) := Uniform (noise fm) (float64 minDur) (float64 maxDur) in
  let fm := with_noise fm ng in
  let duration := int64 d in
  let fm := with_base fm
              (TriggerError (wall clk) (base fm) errorCode message duration) in
  with_Phase fm PhaseIdle.

Definition ejectPart (fm : FormingMachine) (st : Store) (now : Time)
    : FormingMachine * Store :=
  let '(isScrap, ng) := Bool (noise fm) (ScrapRate (Config (base fm))) in
  let fm := with_noise fm ng in
  let '(fm, st, isScrap) :=
    if isScrap then
      let fm := with_base fm
                  (with_ScrapParts (base fm) (incr (ScrapParts (base fm)))) in
      match CurrentOrder (base fm) with
      | Some o =>
          (fm, set_order st o
                 (order_with_QuantityScrap (order st o)
                    (incr (QuantityScrap (order st o)))), isScrap)
      | None => (fm, st, isScrap)
      end
    else
      let part :=
        {| ID := CurrentPartID (formState fm);
           PartOrderID := match CurrentOrder (base fm) with
                          | Some o => OrderID (order st o)
                          | None => EmptyString
                          end;
           PartStatusOf := PartStatusAwaitingPickup;
           Location := name fm;
           CreatedAt := now;
           FormingComplete := now;
           PickingComplete := 0;
           WeldingComplete := 0;
           FormingMachineID := name fm;
           PickerRobotID := EmptyString;
           SpotWelderID := EmptyString;
           IsScrap := false;
           ScrapReason := EmptyString |} in
      let out := OutputBuffer (formState fm) in
      let '(pb, pushed) := Push (buffer st out) part in
      if negb pushed then
        (with_base fm
           (with_ScrapParts (base fm) (incr (ScrapParts (base fm)))),
         st, true)
      else
        let st := set_buffer st out pb in
        let fm := with_base fm
                    (with_GoodParts (base fm) (incr (GoodParts (base fm)))) in
        match CurrentOrder (base fm) with
        | Some o =>
            (fm, set_order st o
                   (order_with_QuantityCompleted (order st o)
                      (incr (QuantityCompleted (order st o)))), isScrap)
        | None => (fm, st, isScrap)
        end in
  let '(bm, st) := CompleteCycle (base fm) st isScrap in
  (with_base fm bm, st).

Definition completeCycle (clk : Clock) (fm : FormingMachine) (st : Store)
    (now : Time) : FormingMachine * Store :=
  let fm := with_CycleCount fm (incr (CycleCount (formState fm))) in
  if IsOrderComplete (base fm) st then
    let '(bm, st) := FinishOrder (base fm) st in
    let fm := with_base fm bm in
    let fm := with_base fm (TransitionTo (wall clk) (base fm) StateIdle) in
    (with_Phase fm PhaseIdle, st)
  else
    let fm := with_base fm (with_CycleStartedAt (base fm) now) in
    let fm := SetPhase clk fm PhaseLoad in
    (generatePartID clk fm now, st).

(** The phase boundaries of [updateRunning], as offsets in the cycle. *)
Definition loadEnd (fm : FormingMachine) : Duration :=
  int64 (float64 (CycleTime (Config (base fm)))
         * LoadFraction (formConfig fm))%float.

Definition formEnd (fm : FormingMachine) : Duration :=
  add (loadEnd fm)
      (int64 (float64 (CycleTime (Config (base fm)))
              * FormFraction (formConfig fm))%float).

Definition holdEnd (fm : FormingMachine) : Duration :=
  add (formEnd fm)
      (int64 (float64 (CycleTime (Config (base fm)))
              * HoldFraction (formConfig fm))%float).

Definition ejectEnd (fm : FormingMachine) : Duration :=
  add (holdEnd fm)
      (int64 (float64 (CycleTime (Config (base fm)))
              * EjectFraction (formConfig fm))%float).

Definition updateRunning (clk : Clock) (fm : FormingMachine) (st : Store)
    (now : Time) (isBreakTime : bool) : FormingMachine * Store :=
  if isBreakTime then
    let fm := with_base fm
                (TransitionTo (wall clk) (base fm) StatePlannedStop) in
    (with_Phase fm PhaseIdle, st)
  else
    let '(trigger, fm) := shouldTriggerError fm in
    if trigger then (triggerError clk fm now, st)
    else if IsFull (buffer st (OutputBuffer (formState fm)))
            && FormingPhase_eqb (Phase (formState fm)) PhaseEject
    then (fm, st)
    else
      let cycleElapsed := ElapsedInCycle (wall clk) (base fm) in
      let cycleTime := CycleTime (Config (base fm)) in
      match Phase (formState fm) with
      | PhaseLoad =>
          let fm := with_CurrentRamPosition fm 0 in
          if loadEnd fm <=? cycleElapsed
          then (SetPhase clk fm PhaseForm, st) else (fm, st)
      | PhaseForm =>
          let phaseProgress :=
            (float64 (sub cycleElapsed (loadEnd fm))
             / float64 (sub (formEnd fm) (loadEnd fm)))%float in
          let fm := with_CurrentRamPosition fm
                      (phaseProgress * RamTravel (formConfig fm))%float in
          if formEnd fm <=? cycleElapsed
          then (SetPhase clk fm PhaseHold, st) else (fm, st)
      | PhaseHold =>
          let fm := with_CurrentRamPosition fm (RamTravel (formConfig fm)) in
          if holdEnd fm <=? cycleElapsed
          then (SetPhase clk fm PhaseEject, st) else (fm, st)
      | PhaseEject =>
          if ejectEnd fm <=? cycleElapsed then
            let '(fm, st) := ejectPart fm st now in
            (SetPhase clk fm PhaseRaise, st)
          else (fm, st)
      | PhaseRaise =>
          let phaseProgress :=
            (float64 (sub cycleElapsed (ejectEnd fm))
             / float64 (sub cycleTime (ejectEnd fm)))%float in
          let fm := with_CurrentRamPosition fm
                      (RamTravel (formConfig fm) * (1 - phaseProgress))%float in
          if cycleTime <=? cycleElapsed
          then completeCycle clk fm st now else (fm, st)
      | PhaseIdle => (fm, st)
      end.

Definition Update (clk : Clock) (fm : FormingMachine) (st : Store)
    (now : Time) (isBreakTime : bool) : FormingMachine * Store :=
  let elapsed := ElapsedInState (wall clk) (base fm) in
  match State (base fm) with
  | StateIdle => updateIdle clk fm st now
  | StateSetup => (updateSetup clk fm elapsed now, st)
  | StateRunning => updateRunning clk fm st now isBreakTime
  | StatePlannedStop => (updatePlannedStop clk fm isBreakTime, st)
  | StateUnplannedStop => (updateUnplannedStop clk fm now, st)
  end.

Definition GetCycleProgress (clk : Clock) (fm : FormingMachine) : float :=
  if negb (MachineState_eqb (State (base fm)) StateRunning) then 0%float
  else
    let elapsed := ElapsedInCycle (wall clk) (base fm) in
    let progress :=
      (float64 elapsed / float64 (CycleTime (Config (base fm))) * 100)%float in
    if (100 <? progress)%float then 100%float else progress.

End forming.

(* ------------------------------------------------------------------ *)
(** ** package picker: the pick-and-place robot *)

Module picker.
Import Go core.

Inductive PickerPhase : Type :=
| PhaseIdle
| PhaseMoveToPickup
| PhaseApproachPickup
| PhaseGrip
| PhaseRetractPickup
| PhaseMoveToPlace
| PhaseApproachPlace
| PhaseRelease
| PhaseRetractPlace.

Inductive GripperState : Type :=
| GripperOpen
| GripperClosing
| GripperClosed
| GripperOpening.

Definition ErrorCode : Type := string.
Definition ErrorNone : ErrorCode := EmptyString.
Definition ErrorGripperFault : ErrorCode := "P001"%string.
Definition ErrorCollision : ErrorCode := "P002"%string.
Definition ErrorPositionFault : ErrorCode := "P003"%string.
Definition ErrorPartDropped : ErrorCode := "P004"%string.
Definition ErrorServoOverload : ErrorCode := "P005"%string.
Definition ErrorEmergencyStop : ErrorCode := "P006"%string.

Definition GetErrorInfo (code : ErrorCode) : string * Duration * Duration :=
  if String.eqb code ErrorGripperFault then
    ("Gripper mechanism fault"%string, 30 * Second, 1 * Minute)
  else if String.eqb code ErrorCollision then
    ("Collision detected"%string, 1 * Minute, 3 * Minute)
  else if String.eqb code ErrorPositionFault then
    ("Position feedback error"%string, 45 * Second, 2 * Minute)
  else if String.eqb code ErrorPartDropped then
    ("Part dropped during transfer"%string, 30 * Second, 1 * Minute)
  else if String.eqb code ErrorServoOverload then
    ("Servo motor overload"%string, 1 * Minute, 2 * Minute)
  else if String.eqb code ErrorEmergencyStop then
    ("Emergency stop activated"%string, 20 * Second, 1 * Minute)
  else (EmptyString, 0, 0).

Definition AllErrorCodes : list ErrorCode :=
  [ErrorGripperFault; ErrorCollision; ErrorPositionFault;
   ErrorPartDropped; ErrorServoOverload; ErrorEmergencyStop].

(** [Z_] is the field [Z] of the source. *)
Record Position3D : Type := mkPosition3D {
  X : float;
  Y : float;
  Z_ : float
}.

Record PickerConfig : Type := mkPickerConfig {
  MaxReachX : float;
  MaxReachY : float;
  MaxReachZ : float;
  MaxSpeed : float;
  MaxJointSpeed : float;
  AccelerationG : float;
  MaxGripForce : float;
  GripTime : Duration;
  HomePosition : Position3D;
  PickupPosition : Position3D;
  PlacePosition : Position3D;
  SafeZ : float;
  MoveToPickupFraction : float;
  ApproachPickupFraction : float;
  GripFraction : float;
  RetractPickupFraction : float;
  MoveToPlaceFraction : float;
  ApproachPlaceFraction : float;
  ReleaseFraction : float;
  RetractPlaceFraction : float
}.

Definition DefaultPickerConfig : PickerConfig :=
  {| MaxReachX := 1500.0;
     MaxReachY := 1500.0;
     MaxReachZ := 1000.0;
     MaxSpeed := 500.0;
     MaxJointSpeed := 180.0;
     AccelerationG := 1.5;
     MaxGripForce := 100.0;
     GripTime := 300 * Millisecond;
     HomePosition := mkPosition3D 500 0 800;
     PickupPosition := mkPosition3D 100 300 200;
     PlacePosition := mkPosition3D 900 300 200;
     SafeZ := 600.0;
     MoveToPickupFraction := 0.15;
     ApproachPickupFraction := 0.08;
     GripFraction := 0.05;
     RetractPickupFraction := 0.08;
     MoveToPlaceFraction := 0.20;
     ApproachPlaceFraction := 0.08;
     ReleaseFraction := 0.05;
     RetractPlaceFraction := 0.08 |}.

(** [CurrentJoints] is written by the timeseries generator only and is
    left out. *)
Record PickerState : Type := mkPickerState {
  Phase : PickerPhase;
  PhaseStartedAt : Time;
  CycleCount : Z;
  CurrentPosition : Position3D;
  TargetPosition : Position3D;
  Gripper : GripperState;
  GripperPosition : float;
  HeldPartID : string;
  HeldPart : option Part
}.

Record PickerRobot : Type := mkPickerRobot {
  base : BaseMachine;
  pickerConfig : PickerConfig;
  pickerState : PickerState;
  noise : NoiseGenerator;
  name : string;
  inputBuffer : option nat;
  outputBuffer : option nat
}.

Definition with_base (pr : PickerRobot) (bm : BaseMachine) :=
  mkPickerRobot bm (pickerConfig pr) (pickerState pr) (noise pr) (name pr)
                (inputBuffer pr) (outputBuffer pr).

Definition with_pickerState (pr : PickerRobot) (ps : PickerState) :=
  mkPickerRobot (base pr) (pickerConfig pr) ps (noise pr) (name pr)
                (inputBuffer pr) (outputBuffer pr).

Definition with_noise (pr : PickerRobot) (ng : NoiseGenerator) :=
  mkPickerRobot (base pr) (pickerConfig pr) (pickerState pr) ng (name pr)
                (inputBuffer pr) (outputBuffer pr).

Definition with_Phase (pr : PickerRobot) (p : PickerPhase) :=
  let ps := pickerState pr in
  with_pickerState pr
    (mkPickerState p (PhaseStartedAt ps) (CycleCount ps)
       (CurrentPosition ps) (TargetPosition ps) (Gripper ps)
       (GripperPosition ps) (HeldPartID ps) (HeldPart ps)).

Definition with_CycleCount (pr : PickerRobot) (n : Z) :=
  let ps := pickerState pr in
  with_pickerState pr
    (mkPickerState (Phase ps) (PhaseStartedAt ps) n
       (CurrentPosition ps) (TargetPosition ps) (Gripper ps)
       (GripperPosition ps) (HeldPartID ps) (HeldPart ps)).

Definition with_CurrentPosition (pr : PickerRobot) (x : Position3D) :=
  let ps := pickerState pr in
  with_pickerState pr
    (mkPickerState (Phase ps) (PhaseStartedAt ps) (CycleCount ps)
       x (TargetPosition ps) (Gripper ps)
       (GripperPosition ps) (HeldPartID ps) (HeldPart ps)).

Definition with_TargetPosition (pr : PickerRobot) (x : Position3D) :=
  let ps := pickerState pr in
  with_pickerState pr
    (mkPickerState (Phase ps) (PhaseStartedAt ps) (CycleCount ps)
       (CurrentPosition ps) x (Gripper ps)
       (GripperPosition ps) (HeldPartID ps) (HeldPart ps)).

Definition with_Gripper (pr : PickerRobot) (g : GripperState) :=
  let ps := pickerState pr in
  with_pickerState pr
    (mkPickerState (Phase ps) (PhaseStartedAt ps) (CycleCount ps)
       (CurrentPosition ps) (TargetPosition ps) g
       (GripperPosition ps) (HeldPartID ps) (HeldPart ps)).

Definition with_GripperPosition (pr : PickerRobot) (x : float) :=
  let ps := pickerState pr in
  with_pickerState pr
    (mkPickerState (Phase ps) (PhaseStartedAt ps) (CycleCount ps)
       (CurrentPosition ps) (TargetPosition ps) (Gripper ps)
       x (HeldPartID ps) (HeldPart ps)).

(** [HeldPartID = id; HeldPart = part] *)
Definition with_held (pr : PickerRobot) (id : string) (part : option Part) :=
  let ps := pickerState pr in
  with_pickerState pr
    (mkPickerState (Phase ps) (PhaseStartedAt ps) (CycleCount ps)
       (CurrentPosition ps) (TargetPosition ps) (Gripper ps)
       (GripperPosition ps) id part).

Definition NewPickerRobot (clk : Clock) (ng : NoiseGenerator)
    (name : string) (cfg : MachineConfig) (pickerCfg : PickerConfig)
    : PickerRobot :=
  {| base := NewBaseMachine (wall clk) cfg;
     pickerConfig := pickerCfg;
     pickerState := {| Phase := PhaseIdle;
                       PhaseStartedAt := 0;
                       CycleCount := 0;
                       CurrentPosition := HomePosition pickerCfg;
                       TargetPosition := HomePosition pickerCfg;
                       Gripper := GripperOpen;
                       GripperPosition := 0;
                       HeldPartID := EmptyString;
                       HeldPart := None |};
     noise := ng;
     name := name;
     inputBuffer := None;
     outputBuffer := None |}.

Definition SetInputBuffer (pr : PickerRobot) (buf : option nat) :=
  mkPickerRobot (base pr) (pickerConfig pr) (pickerState pr) (noise pr)
                (name pr) buf (outputBuffer pr).

Definition SetOutputBuffer (pr : PickerRobot) (buf : option nat) :=
  mkPickerRobot (base pr) (pickerConfig pr) (pickerState pr) (noise pr)
                (name pr) (inputBuffer pr) buf.

Definition Start (pr : PickerRobot) : PickerRobot :=
  let pr := with_Phase pr PhaseIdle in
  let pr := with_CycleCount pr 0 in
  let pr := with_CurrentPosition pr (HomePosition (pickerConfig pr)) in
  let pr := with_Gripper pr GripperOpen in
  with_GripperPosition pr 0.

Definition Stop (pr : PickerRobot) : PickerRobot := pr.

Definition SetPhase (clk : Clock) (pr : PickerRobot) (phase : PickerPhase) :=
  let ps := pickerState pr in
  with_pickerState pr
    (mkPickerState phase (wall clk) (CycleCount ps)
       (CurrentPosition ps) (TargetPosition ps) (Gripper ps)
       (GripperPosition ps) (HeldPartID ps) (HeldPart ps)).

Definition GetCycleCount (pr : PickerRobot) : Z := CycleCount (pickerState pr).

Definition GetHeldPartID (pr : PickerRobot) : string :=
  HeldPartID (pickerState pr).

Definition interpolatePosition (from to : Position3D) (progress : float)
    : Position3D :=
  {| X := (X from + (X to - X from) * progress)%float;
     Y := (Y from + (Y to - Y from) * progress)%float;
     Z_ := (Z_ from + (Z_ to - Z_ from) * progress)%float |}.

(** [Position3D{X: p.X, Y: p.Y, Z: SafeZ}] *)
Definition above (cfg : PickerConfig) (p : Position3D) : Position3D :=
  {| X := X p; Y := Y p; Z_ := SafeZ cfg |}.

(** The progress of a phase, as every phase function computes it first:
    [float64(elapsed - phaseStart) / float64(phaseEnd - phaseStart)],
    capped at 1. *)
Definition phaseProgress (elapsed phaseStart phaseEnd : Duration) : float :=
  let phaseElapsed := sub elapsed phaseStart in
  let phaseDuration := sub phaseEnd phaseStart in
  let progress := (float64 phaseElapsed / float64 phaseDuration)%float in
  if (1 <? progress)%float then 1%float else progress.

Definition updateIdle (clk : Clock) (pr : PickerRobot) (st : Store)
    (now : Time) : PickerRobot :=
  let pr := with_Phase pr PhaseIdle in
  let pr := with_CurrentPosition pr (HomePosition (pickerConfig pr)) in
  match inputBuffer pr with
  | Some inp =>
      if 0 <? Count (buffer st inp) then
        with_base pr (TransitionTo (wall clk) (base pr) StateSetup)
      else pr
  | None => pr
  end.

Definition updateSetup (clk : Clock) (pr : PickerRobot) (st : Store)
    (elapsed : Duration) (now : Time) : PickerRobot :=
  if GetEffectiveSetupTime (Config (base pr)) st <=? elapsed then
    let pr := with_base pr (TransitionTo (wall clk) (base pr) StateRunning) in
    let pr := with_base pr (with_CycleStartedAt (base pr) now) in
    let pr := SetPhase clk pr PhaseMoveToPickup in
    with_TargetPosition pr
      (above (pickerConfig pr) (PickupPosition (pickerConfig pr)))
  else pr.

Definition updateMoveToPickup (clk : Clock) (pr : PickerRobot)
    (elapsed phaseEnd : Duration) (now : Time) : PickerRobot :=
  let progress := (float64 elapsed / float64 phaseEnd)%float in
  let progress := if (1 <? progress)%float then 1%float else progress in
  let cfg := pickerConfig pr in
  let pr := with_CurrentPosition pr
              (interpolatePosition (HomePosition cfg)
                 (above cfg (PickupPosition cfg)) progress) in
  if phaseEnd <=? elapsed then SetPhase clk pr PhaseApproachPickup else pr.

Definition updateApproachPickup (clk : Clock) (pr : PickerRobot)
    (elapsed phaseStart phaseEnd : Duration) : PickerRobot :=
  let progress := phaseProgress elapsed phaseStart phaseEnd in
  let cfg := pickerConfig pr in
  let pr := with_CurrentPosition pr
              (interpolatePosition (above cfg (PickupPosition cfg))
                 (PickupPosition cfg) progress) in
  if phaseEnd <=? elapsed then
    with_Gripper (SetPhase clk pr PhaseGrip) GripperClosing
  else pr.

Definition updateGrip (clk : Clock) (pr : PickerRobot) (st : Store)
    (elapsed phaseStart phaseEnd : Duration) (now : Time)
    : PickerRobot * Store :=
  let progress := phaseProgress elapsed phaseStart phaseEnd in
  let pr := with_GripperPosition pr (progress * 100)%float in
  if phaseEnd <=? elapsed then
    let pr := with_Gripper pr GripperClosed in
    let pr := with_GripperPosition pr 100 in
    let '(pr, st) :=
      match inputBuffer pr with
      | Some inp =>
          match Pop (buffer st inp) with
          | (pb, Some part) =>
              (with_held pr (ID part)
                 (Some (part_moved part PartStatusInTransit (name pr))),
               set_buffer st inp pb)
          | (_, None) => (pr, st)
          end
      | None => (pr, st)
      end in
    (SetPhase clk pr PhaseRetractPickup, st)
  else (pr, st).

Definition updateRetractPickup (clk : Clock) (pr : PickerRobot)
    (elapsed phaseStart phaseEnd : Duration) : PickerRobot :=
  let progress := phaseProgress elapsed phaseStart phaseEnd in
  let cfg := pickerConfig pr in
  let pr := with_CurrentPosition pr
              (interpolatePosition (PickupPosition cfg)
                 (above cfg (PickupPosition cfg)) progress) in
  if phaseEnd <=? elapsed then SetPhase clk pr PhaseMoveToPlace else pr.

Definition updateMoveToPlace (clk : Clock) (pr : PickerRobot)
    (elapsed phaseStart phaseEnd : Duration) : PickerRobot :=
  let progress := phaseProgress elapsed phaseStart phaseEnd in
  let cfg := pickerConfig pr in
  let pr := with_CurrentPosition pr
              (interpolatePosition (above cfg (PickupPosition cfg))
                 (above cfg (PlacePosition cfg)) progress) in
  if phaseEnd <=? elapsed then SetPhase clk pr PhaseApproachPlace else pr.

Definition updateApproachPlace (clk : Clock) (pr : PickerRobot)
    (elapsed phaseStart phaseEnd : Duration) : PickerRobot :=
  let progress := phaseProgress elapsed phaseStart phaseEnd in
  let cfg := pickerConfig pr in
  let pr := with_CurrentPosition pr
              (interpolatePosition (above cfg (PlacePosition cfg))
                 (PlacePosition cfg) progress) in
  if phaseEnd <=? elapsed then
    with_Gripper (SetPhase clk pr PhaseRelease) GripperOpening
  else pr.

Definition updateRelease (clk : Clock) (pr : PickerRobot) (st : Store)
    (elapsed phaseStart phaseEnd : Duration) (now : Time)
    : PickerRobot * Store :=
  let progress := phaseProgress elapsed phaseStart phaseEnd in
  let pr := with_GripperPosition pr ((1 - progress) * 100)%float in
  if phaseEnd <=? elapsed then
    let pr := with_Gripper pr GripperOpen in
    let pr := with_GripperPosition pr 0 in
    let '(pr, st) :=
      match HeldPart (pickerState pr) with
      | Some held =>
          let held := part_picked held now (name pr) in
          let st :=
            match outputBuffer pr with
            | Some out =>
                (* the result of Push is not looked at *)
                fst (PushAt st out held)
            | None => st
            end in
          (with_held pr EmptyString None, st)
      | None => (pr, st)
      end in
    (SetPhase clk pr PhaseRetractPlace, st)
  else (pr, st).

Definition completeCycle (clk : Clock) (pr : PickerRobot) (st : Store)
    (now : Time) : PickerRobot * Store :=
  let pr := with_CycleCount pr (incr (CycleCount (pickerState pr))) in
  let pr := with_base pr
              (with_GoodParts (base pr) (incr (GoodParts (base pr)))) in
  let '(bm, st) := CompleteCycle (base pr) st false in
  let pr := with_base pr bm in
  let more := match inputBuffer pr with
              | Some inp => 0 <? Count (buffer st inp)
              | None => false
              end in
  if more then
    let pr := with_base pr (with_CycleStartedAt (base pr) now) in
    let pr := SetPhase clk pr PhaseMoveToPickup in
    (with_CurrentPosition pr
       (above (pickerConfig pr) (PlacePosition (pickerConfig pr))), st)
  else
    let pr := with_base pr (TransitionTo (wall clk) (base pr) StateIdle) in
    (with_Phase pr PhaseIdle, st).

Definition updateRetractPlace (clk : Clock) (pr : PickerRobot) (st : Store)
    (elapsed phaseStart phaseEnd : Duration) (now : Time)
    : PickerRobot * Store :=
  let progress := phaseProgress elapsed phaseStart phaseEnd in
  let cfg := pickerConfig pr in
  let pr := with_CurrentPosition pr
              (interpolatePosition (PlacePosition cfg)
                 (above cfg (PlacePosition cfg)) progress) in
  if phaseEnd <=? elapsed then completeCycle clk pr st now else (pr, st).

Definition updatePlannedStop (clk : Clock) (pr : PickerRobot)
    (isBreakTime : bool) : PickerRobot :=
  if negb isBreakTime then
    with_base pr (TransitionTo (wall clk) (base pr) StateIdle)
  else pr.

Definition updateUnplannedStop (clk : Clock) (pr : PickerRobot)
    (now : Time) : PickerRobot :=
  if IsErrorResolved (base pr) now then
    let pr := with_base pr (ClearError (base pr)) in
    with_base pr (TransitionTo (wall clk) (base pr) StateIdle)
  else pr.

Definition PickerPhase_eqb (a b : PickerPhase) : bool :=
  match a, b with
  | PhaseIdle, PhaseIdle | PhaseMoveToPickup, PhaseMoveToPickup
  | PhaseApproachPickup, PhaseApproachPickup | PhaseGrip, PhaseGrip
  | PhaseRetractPickup, PhaseRetractPickup
  | PhaseMoveToPlace, PhaseMoveToPlace
  | PhaseApproachPlace, PhaseApproachPlace | PhaseRelease, PhaseRelease
  | PhaseRetractPlace, PhaseRetractPlace => true
  | _, _ => false
  end.

Definition shouldTriggerError (pr : PickerRobot) (st : Store)
    : bool * PickerRobot :=
  if PickerPhase_eqb (Phase (pickerState pr)) PhaseIdle then (false, pr)
  else
    let '(b, ng) :=
      ShouldTrigger (noise pr) (GetEffectiveErrorRate (Config (base pr)) st)
        (PublishInterval (Config (base pr)))
        (GetEffectiveCycleTime (Config (base pr)) st) in
    (b, with_noise pr ng).

Definition triggerError (clk : Clock) (pr : PickerRobot) (st : Store)
    (now : Time) : PickerRobot :=
  let errors := AllErrorCodes in
  let '(i, ng) := UniformInt (noise pr) 0 (sub (len errors) 1) in
  let pr := with_noise pr ng in
  let errorCode := nth (Z.to_nat i) errors ErrorNone in
  let '(message, minDur, maxDur) := GetErrorInfo errorCode in
  let '(d, ng) := Uniform (noise pr) (float64 minDur) (float64 maxDur) in
  let pr := with_noise pr ng in
  let baseDuration := int64 d in
  let duration :=
    GetEffectiveErrorDuration (Config (base pr)) st baseDuration in
  let pr :=
    if String.eqb errorCode ErrorPartDropped
       && negb (String.eqb (HeldPartID (pickerState pr)) EmptyString)
    then
      let pr := with_base pr
                  (with_ScrapParts (base pr) (incr (ScrapParts (base pr)))) in
      let pr := with_held pr EmptyString None in
      let pr := with_Gripper pr GripperOpen in
      with_GripperPosition pr 0
    else pr in
  let pr := with_base pr
              (TriggerError (wall clk) (base pr) errorCode message duration) in
  with_Phase pr PhaseIdle.

(** The phase boundaries of [updateRunning] for a cycle of [cycleTime]. *)
Definition moveToPickupEnd (cfg : PickerConfig) (cycleTime : Duration) :=
  int64 (float64 cycleTime * MoveToPickupFraction cfg)%float.

Definition approachPickupEnd (cfg : PickerConfig) (cycleTime : Duration) :=
  add (moveToPickupEnd cfg cycleTime)
      (int64 (float64 cycleTime * ApproachPickupFraction cfg)%float).

Definition gripEnd (cfg : PickerConfig) (cycleTime : Duration) :=
  add (approachPickupEnd cfg cycleTime)
      (int64 (float64 cycleTime * GripFraction cfg)%float).

Definition retractPickupEnd (cfg : PickerConfig) (cycleTime : Duration) :=
  add (gripEnd cfg cycleTime)
      (int64 (float64 cycleTime * RetractPickupFraction cfg)%float).

Definition moveToPlaceEnd (cfg : PickerConfig) (cycleTime : Duration) :=
  add (retractPickupEnd cfg cycleTime)
      (int64 (float64 cycleTime * MoveToPlaceFraction cfg)%float).

Definition approachPlaceEnd (cfg : PickerConfig) (cycleTime : Duration) :=
  add (moveToPlaceEnd cfg cycleTime)
      (int64 (float64 cycleTime * ApproachPlaceFraction cfg)%float).

Definition releaseEnd (cfg : PickerConfig) (cycleTime : Duration) :=
  add (approachPlaceEnd cfg cycleTime)
      (int64 (float64 cycleTime * ReleaseFraction cfg)%float).

Definition retractPlaceEnd (cfg : PickerConfig) (cycleTime : Duration) :=
  add (releaseEnd cfg cycleTime)
      (int64 (float64 cycleTime * RetractPlaceFraction cfg)%float).

Definition updateRunning (clk : Clock) (pr : PickerRobot) (st : Store)
    (now : Time) (isBreakTime : bool) : PickerRobot * Store :=
  if isBreakTime && String.eqb (HeldPartID (pickerState pr)) EmptyString
  then
    let pr := with_base pr
                (TransitionTo (wall clk) (base pr) StatePlannedStop) in
    (with_Phase pr PhaseIdle, st)
  else
    let '(trigger, pr) := shouldTriggerError pr st in
    if trigger then (triggerError clk pr st now, st)
    else
      let cycleElapsed := ElapsedInCycle (wall clk) (base pr) in
      let cycleTime := GetEffectiveCycleTime (Config (base pr)) st in
      let cfg := pickerConfig pr in
      match Phase (pickerState pr) with
      | PhaseMoveToPickup =>
          (updateMoveToPickup clk pr cycleElapsed
             (moveToPickupEnd cfg cycleTime) now, st)
      | PhaseApproachPickup =>
          (updateApproachPickup clk pr cycleElapsed
             (moveToPickupEnd cfg cycleTime)
             (approachPickupEnd cfg cycleTime), st)
      | PhaseGrip =>
          updateGrip clk pr st cycleElapsed
            (approachPickupEnd cfg cycleTime) (gripEnd cfg cycleTime) now
      | PhaseRetractPickup =>
          (updateRetractPickup clk pr cycleElapsed
             (gripEnd cfg cycleTime) (retractPickupEnd cfg cycleTime), st)
      | PhaseMoveToPlace =>
          (updateMoveToPlace clk pr cycleElapsed
             (retractPickupEnd cfg cycleTime)
             (moveToPlaceEnd cfg cycleTime), st)
      | PhaseApproachPlace =>
          (updateApproachPlace clk pr cycleElapsed
             (moveToPlaceEnd cfg cycleTime)
             (approachPlaceEnd cfg cycleTime), st)
      | PhaseRelease =>
          updateRelease clk pr st cycleElapsed
            (approachPlaceEnd cfg cycleTime) (releaseEnd cfg cycleTime) now
      | PhaseRetractPlace =>
          updateRetractPlace clk pr st cycleElapsed
            (releaseEnd cfg cycleTime) (retractPlaceEnd cfg cycleTime) now
      | PhaseIdle => (pr, st)
      end.

Definition Update (clk : Clock) (pr : PickerRobot) (st : Store)
    (now : Time) (isBreakTime : bool) : PickerRobot * Store :=
  let elapsed := ElapsedInState (wall clk) (base pr) in
  match State (base pr) with
  | StateIdle => (updateIdle clk pr st now, st)
  | StateSetup => (updateSetup clk pr st elapsed now, st)
  | StateRunning => updateRunning clk pr st now isBreakTime
  | StatePlannedStop => (updatePlannedStop clk pr isBreakTime, st)
  | StateUnplannedStop => (updateUnplannedStop clk pr now, st)
  end.

Definition GetCycleProgress (clk : Clock) (pr : PickerRobot) (st : Store)
    : float :=
  if negb (MachineState_eqb (State (base pr)) StateRunning) then 0%float
  else
    let elapsed := ElapsedInCycle (wall clk) (base pr) in
    let progress :=
      (float64 elapsed
       / float64 (GetEffectiveCycleTime (Config (base pr)) st) * 100)%float in
    if (100 <? progress)%float then 100%float else progress.

End picker.

(* ------------------------------------------------------------------ *)
(** ** package spotwelder: the stud spot welder *)

Module spotwelder.
Import Go core.

Inductive SpotWelderPhase : Type :=
| PhaseIdle
| PhaseLoad
| PhaseClamp
| PhasePreWeld
| PhaseWeld
| PhaseHold
| PhaseRelease
| PhaseUnload.

Definition SpotWelderPhase_eqb (a b : SpotWelderPhase) : bool :=
  match a, b with
  | PhaseIdle, PhaseIdle | PhaseLoad, PhaseLoad | PhaseClamp, PhaseClamp
  | PhasePreWeld, PhasePreWeld | PhaseWeld, PhaseWeld
  | PhaseHold, PhaseHold | PhaseRelease, PhaseRelease
  | PhaseUnload, PhaseUnload => true
  | _, _ => false
  end.

Definition ErrorCode : Type := string.
Definition ErrorNone : ErrorCode := EmptyString.
Definition ErrorWeldFault : ErrorCode := "S001"%string.
Definition ErrorClampFault : ErrorCode := "S002"%string.
Definition ErrorStudMisfeed : ErrorCode := "S003"%string.
Definition ErrorOverheat : ErrorCode := "S004"%string.
Definition ErrorCurrentFault : ErrorCode := "S005"%string.
Definition ErrorQualityReject : ErrorCode := "S006"%string.

Definition GetErrorInfo (code : ErrorCode) : string * Duration * Duration :=
  if String.eqb code ErrorWeldFault then
    ("Weld quality fault detected"%string, 30 * Second, 1 * Minute)
  else if String.eqb code ErrorClampFault then
    ("Clamp mechanism fault"%string, 45 * Second, 2 * Minute)
  else if String.eqb code ErrorStudMisfeed then
    ("Stud feed mechanism jam"%string, 30 * Second, 1 * Minute)
  else if String.eqb code ErrorOverheat then
    ("Electrode overheat protection"%string, 1 * Minute, 3 * Minute)
  else if String.eqb code ErrorCurrentFault then
    ("Weld current out of range"%string, 45 * Second, 90 * Second)
  else if String.eqb code ErrorQualityReject then
    ("Weld quality below threshold"%string, 20 * Second, 45 * Second)
  else (EmptyString, 0, 0).

Definition AllErrorCodes : list ErrorCode :=
  [ErrorWeldFault; ErrorClampFault; ErrorStudMisfeed;
   ErrorOverheat; ErrorCurrentFault; ErrorQualityReject].

Record SpotWelderConfig : Type := mkSpotWelderConfig {
  TargetCurrent : float;
  TargetVoltage : float;
  WeldDuration : Duration;
  WeldsPerPart : Z;
  MaxElectrodeForce : float;
  MaxClampForce : float;
  MaxElectrodeTemp : float;
  LoadFraction : float;
  ClampFraction : float;
  PreWeldFraction : float;
  WeldFraction : float;
  HoldFraction : float;
  ReleaseFraction : float;
  UnloadFraction : float;
  ElectrodeLifeWelds : Z;
  InputBufferCapacity : Z
}.

Definition DefaultSpotWelderConfig : SpotWelderConfig :=
  {| TargetCurrent := 8.0;
     TargetVoltage := 6.0;
     WeldDuration := 200 * Millisecond;
     WeldsPerPart := 4;
     MaxElectrodeForce := 3.0;
     MaxClampForce := 5.0;
     MaxElectrodeTemp := 400.0;
     LoadFraction := 0.10;
     ClampFraction := 0.10;
     PreWeldFraction := 0.05;
     WeldFraction := 0.35;
     HoldFraction := 0.15;
     ReleaseFraction := 0.10;
     UnloadFraction := 0.15;
     ElectrodeLifeWelds := 5000;
     InputBufferCapacity := 3 |}.

Record SpotWelderState : Type := mkSpotWelderState {
  Phase : SpotWelderPhase;
  PhaseStartedAt : Time;
  CycleCount : Z;
  WeldsInCurrentPart : Z;
  TotalWelds : Z;
  ElectrodeWeldCount : Z;
  CurrentPartID : string;
  CurrentPart : option Part;
  InputBuffer : nat;
  ElectrodeTemp : float;
  PartTemp : float
}.

Record SpotWelder : Type := mkSpotWelder {
  base : BaseMachine;
  welderConfig : SpotWelderConfig;
  welderState : SpotWelderState;
  noise : NoiseGenerator;
  name : string
}.

Definition with_base (sw : SpotWelder) (bm : BaseMachine) :=
  mkSpotWelder bm (welderConfig sw) (welderState sw) (noise sw) (name sw).

Definition with_welderState (sw : SpotWelder) (ws : SpotWelderState) :=
  mkSpotWelder (base sw) (welderConfig sw) ws (noise sw) (name sw).

Definition with_noise (sw : SpotWelder) (ng : NoiseGenerator) :=
  mkSpotWelder (base sw) (welderConfig sw) (welderState sw) ng (name sw).

Definition with_Phase (sw : SpotWelder) (p : SpotWelderPhase) :=
  let ws := welderState sw in
  with_welderState sw
    (mkSpotWelderState p (PhaseStartedAt ws) (CycleCount ws)
       (WeldsInCurrentPart ws) (TotalWelds ws) (ElectrodeWeldCount ws)
       (CurrentPartID ws) (CurrentPart ws) (InputBuffer ws)
       (ElectrodeTemp ws) (PartTemp ws)).

Definition with_CycleCount (sw : SpotWelder) (n : Z) :=
  let ws := welderState sw in
  with_welderState sw
    (mkSpotWelderState (Phase ws) (PhaseStartedAt ws) n
       (WeldsInCurrentPart ws) (TotalWelds ws) (ElectrodeWeldCount ws)
       (CurrentPartID ws) (CurrentPart ws) (InputBuffer ws)
       (ElectrodeTemp ws) (PartTemp ws)).

Definition with_WeldsInCurrentPart (sw : SpotWelder) (n : Z) :=
  let ws := welderState sw in
  with_welderState sw
    (mkSpotWelderState (Phase ws) (PhaseStartedAt ws) (CycleCount ws)
       n (TotalWelds ws) (ElectrodeWeldCount ws)
       (CurrentPartID ws) (CurrentPart ws) (InputBuffer ws)
       (ElectrodeTemp ws) (PartTemp ws)).

(** [TotalWelds++; ElectrodeWeldCount++] *)
Definition count_weld (sw : SpotWelder) :=
  let ws := welderState sw in
  with_welderState sw
    (mkSpotWelderState (Phase ws) (PhaseStartedAt ws) (CycleCount ws)
       (WeldsInCurrentPart ws) (incr (TotalWelds ws))
       (incr (ElectrodeWeldCount ws))
       (CurrentPartID ws) (CurrentPart ws) (InputBuffer ws)
       (ElectrodeTemp ws) (PartTemp ws)).

(** [CurrentPartID = id; CurrentPart = part] *)
Definition with_current (sw : SpotWelder) (id : string) (part : option Part) :=
  let ws := welderState sw in
  with_welderState sw
    (mkSpotWelderState (Phase ws) (PhaseStartedAt ws) (CycleCount ws)
       (WeldsInCurrentPart ws) (TotalWelds ws) (ElectrodeWeldCount ws)
       id part (InputBuffer ws) (ElectrodeTemp ws) (PartTemp ws)).

Definition with_temps (sw : SpotWelder) (electrode part : float) :=
  let ws := welderState sw in
  with_welderState sw
    (mkSpotWelderState (Phase ws) (PhaseStartedAt ws) (CycleCount ws)
       (WeldsInCurrentPart ws) (TotalWelds ws) (ElectrodeWeldCount ws)
       (CurrentPartID ws) (CurrentPart ws) (InputBuffer ws)
       electrode part).

(** [None] when [core.NewPartBuffer] panics. *)
Definition NewSpotWelder (clk : Clock) (ng : NoiseGenerator)
    (name : string) (cfg : MachineConfig) (welderCfg : SpotWelderConfig)
    (st : Store) : option (SpotWelder * Store) :=
  match NewPartBuffer (InputBufferCapacity welderCfg) with
  | None => None
  | Some pb =>
      let '(inp, st) := alloc_buffer st pb in
      Some ({| base := NewBaseMachine (wall clk) cfg;
               welderConfig := welderCfg;
               welderState := {| Phase := PhaseIdle;
                                 PhaseStartedAt := 0;
                                 CycleCount := 0;
                                 WeldsInCurrentPart := 0;
                                 TotalWelds := 0;
                                 ElectrodeWeldCount := 0;
                                 CurrentPartID := EmptyString;
                                 CurrentPart := None;
                                 InputBuffer := inp;
                                 ElectrodeTemp := 25.0;
                                 PartTemp := 25.0 |};
               noise := ng;
               name := name |}, st)
  end.

Definition GetInputBuffer (sw : SpotWelder) : nat :=
  InputBuffer (welderState sw).

Definition Start (sw : SpotWelder) : SpotWelder :=
  with_temps (with_CycleCount (with_Phase sw PhaseIdle) 0) 25.0 25.0.

Definition Stop (sw : SpotWelder) : SpotWelder := sw.

Definition SetPhase (clk : Clock) (sw : SpotWelder)
    (phase : SpotWelderPhase) : SpotWelder :=
  let ws := welderState sw in
  with_welderState sw
    (mkSpotWelderState phase (wall clk) (CycleCount ws)
       (WeldsInCurrentPart ws) (TotalWelds ws) (ElectrodeWeldCount ws)
       (CurrentPartID ws) (CurrentPart ws) (InputBuffer ws)
       (ElectrodeTemp ws) (PartTemp ws)).

Definition GetCycleCount (sw : SpotWelder) : Z := CycleCount (welderState sw).

Definition GetTotalWelds (sw : SpotWelder) : Z := TotalWelds (welderState sw).

Definition GetElectrodeWear (sw : SpotWelder) : float :=
  (float64 (ElectrodeWeldCount (welderState sw))
   / float64 (ElectrodeLifeWelds (welderConfig sw)) * 100)%float.

Definition coolDown (sw : SpotWelder) : SpotWelder :=
  let ambientTemp := 25.0%float in
  let ws := welderState sw in
  with_temps sw
    (ambientTemp + (ElectrodeTemp ws - ambientTemp) * 0.995)%float
    (ambientTemp + (PartTemp ws - ambientTemp) * 0.98)%float.

Definition updateIdle (clk : Clock) (sw : SpotWelder) (st : Store)
    (now : Time) : SpotWelder :=
  let sw := with_Phase sw PhaseIdle in
  if 0 <? Count (buffer st (InputBuffer (welderState sw))) then
    with_base sw (TransitionTo (wall clk) (base sw) StateSetup)
  else sw.

(** [CurrentPartID = part.ID; CurrentPart = part;
     part.Status = BeingWelded; part.Location = name] *)
Definition take (sw : SpotWelder) (part : Part) : SpotWelder :=
  with_current sw (ID part)
    (Some (part_moved part PartStatusBeingWelded (name sw))).

Definition updateSetup (clk : Clock) (sw : SpotWelder) (st : Store)
    (elapsed : Duration) (now : Time) : SpotWelder * Store :=
  if SetupTime (Config (base sw)) <=? elapsed then
    let inp := InputBuffer (welderState sw) in
    match Pop (buffer st inp) with
    | (pb, Some part) =>
        let st := set_buffer st inp pb in
        let sw := take sw part in
        let sw := with_base sw
                    (TransitionTo (wall clk) (base sw) StateRunning) in
        let sw := with_base sw (with_CycleStartedAt (base sw) now) in
        let sw := SetPhase clk sw PhaseLoad in
        (with_WeldsInCurrentPart sw 0, st)
    | (_, None) =>
        (with_base sw (TransitionTo (wall clk) (base sw) StateIdle), st)
    end
  else (sw, st).

Definition updateWeldPhase (clk : Clock) (sw : SpotWelder)
    (elapsed phaseStart phaseEnd : Duration) : SpotWelder :=
  let phaseDuration := sub phaseEnd phaseStart in
  let phaseElapsed := sub elapsed phaseStart in
  let phaseProgress := (float64 phaseElapsed / float64 phaseDuration)%float in
  let weldsPerPart := WeldsPerPart (welderConfig sw) in
  let weldNumber := int64 (phaseProgress * float64 weldsPerPart)%float in
  let weldNumber := if weldsPerPart <=? weldNumber
                    then sub weldsPerPart 1 else weldNumber in
  let sw :=
    if WeldsInCurrentPart (welderState sw) <? weldNumber then
      let sw := with_WeldsInCurrentPart sw weldNumber in
      let sw := count_weld sw in
      with_temps sw (ElectrodeTemp (welderState sw) + 15.0)%float
                    (PartTemp (welderState sw) + 10.0)%float
    else sw in
  if phaseEnd <=? elapsed then
    let sw := with_WeldsInCurrentPart sw weldsPerPart in
    let sw := count_weld sw in
    SetPhase clk sw PhaseHold
  else sw.

Definition updatePlannedStop (clk : Clock) (sw : SpotWelder)
    (isBreakTime : bool) : SpotWelder :=
  if negb isBreakTime then
    with_base sw (TransitionTo (wall clk) (base sw) StateIdle)
  else sw.

Definition updateUnplannedStop (clk : Clock) (sw : SpotWelder)
    (now : Time) : SpotWelder :=
  if IsErrorResolved (base sw) now then
    let sw := with_base sw (ClearError (base sw)) in
    with_base sw (TransitionTo (wall clk) (base sw) StateIdle)
  else sw.

Definition shouldTriggerError (sw : SpotWelder) : bool * SpotWelder :=
  if negb (SpotWelderPhase_eqb (Phase (welderState sw)) PhaseWeld)
  then (false, sw)
  else
    let errorRate := ErrorRate (Config (base sw)) in
    let errorRate := if (80 <? GetElectrodeWear sw)%float
                     then (errorRate * 3)%float else errorRate in
    let '(b, ng) :=
      ShouldTrigger (noise sw) errorRate
        (PublishInterval (Config (base sw))) (CycleTime (Config (base sw))) in
    (b, with_noise sw ng).

Definition triggerError (clk : Clock) (sw : SpotWelder) (now : Time)
    : SpotWelder :=
  let errors := AllErrorCodes in
  let '(i, ng) := UniformInt (noise sw) 0 (sub (len errors) 1) in
  let sw := with_noise sw ng in
  let errorCode := nth (Z.to_nat i) errors ErrorNone in
  let errorCode :=
    if (MaxElectrodeTemp (welderConfig sw)
        <? ElectrodeTemp (welderState sw))%float
    then ErrorOverheat else errorCode in
  let '(message, minDur, maxDur) := GetErrorInfo errorCode in
  let '(d, ng) := Uniform (noise sw) (float64 minDur) (float64 maxDur) in
  let sw := with_noise sw ng in
  let duration := int64 d in
  let sw :=
    if String.eqb errorCode ErrorQualityReject
       && negb (String.eqb (CurrentPartID (welderState sw)) EmptyString)
    then
      let sw := with_base sw
                  (with_ScrapParts (base sw) (incr (ScrapParts (base sw)))) in
      (* the part is marked as scrap and then let go *)
      with_current sw EmptyString None
    else sw in
  let sw := with_base sw
              (TriggerError (wall clk) (base sw) errorCode message duration) in
  with_Phase sw PhaseIdle.

Definition completeCycle (clk : Clock) (sw : SpotWelder) (st : Store)
    (now : Time) : SpotWelder * Store :=
  let sw := with_CycleCount sw (incr (CycleCount (welderState sw))) in
  let sw :=
    with_current sw (CurrentPartID (welderState sw))
      (option_map (fun p => part_welded p now (name sw))
                  (CurrentPart (welderState sw))) in
  let '(isScrap, ng) := Bool (noise sw) (ScrapRate (Config (base sw))) in
  let sw := with_noise sw ng in
  let sw :=
    if isScrap then
      let sw := with_base sw
                  (with_ScrapParts (base sw) (incr (ScrapParts (base sw)))) in
      with_current sw (CurrentPartID (welderState sw))
        (option_map (fun p => part_scrapped p "Quality inspection failed")
                    (CurrentPart (welderState sw)))
    else
      with_base sw (with_GoodParts (base sw) (incr (GoodParts (base sw)))) in
  let '(bm, st) := CompleteCycle (base sw) st isScrap in
  let sw := with_base sw bm in
  let sw := with_current sw EmptyString None in
  let sw := with_WeldsInCurrentPart sw 0 in
  let inp := InputBuffer (welderState sw) in
  if 0 <? Count (buffer st inp) then
    let sw := with_base sw (with_CycleStartedAt (base sw) now) in
    match Pop (buffer st inp) with
    | (pb, Some part) =>
        (SetPhase clk (take sw part) PhaseLoad, set_buffer st inp pb)
    | (_, None) => (sw, st)
    end
  else
    let sw := with_base sw (TransitionTo (wall clk) (base sw) StateIdle) in
    (with_Phase sw PhaseIdle, st).

Definition updateRunning (clk : Clock) (sw : SpotWelder) (st : Store)
    (now : Time) (isBreakTime : bool) : SpotWelder * Store :=
  if isBreakTime && SpotWelderPhase_eqb (Phase (welderState sw)) PhaseIdle
  then
    (with_base sw (TransitionTo (wall clk) (base sw) StatePlannedStop), st)
  else
    let '(trigger, sw) := shouldTriggerError sw in
    if trigger then (triggerError clk sw now, st)
    else
      let cycleElapsed := ElapsedInCycle (wall clk) (base sw) in
      let cycleTime := CycleTime (Config (base sw)) in
      let cfg := welderConfig sw in
      let loadEnd := int64 (float64 cycleTime * LoadFraction cfg)%float in
      let clampEnd :=
        add loadEnd (int64 (float64 cycleTime * ClampFraction cfg)%float) in
      let preWeldEnd :=
        add clampEnd (int64 (float64 cycleTime * PreWeldFraction cfg)%float) in
      let weldEnd :=
        add preWeldEnd (int64 (float64 cycleTime * WeldFraction cfg)%float) in
      let holdEnd :=
        add weldEnd (int64 (float64 cycleTime * HoldFraction cfg)%float) in
      let releaseEnd :=
        add holdEnd (int64 (float64 cycleTime * ReleaseFraction cfg)%float) in
      match Phase (welderState sw) with
      | PhaseLoad =>
          (if loadEnd <=? cycleElapsed
           then SetPhase clk sw PhaseClamp else sw, st)
      | PhaseClamp =>
          (if clampEnd <=? cycleElapsed
           then SetPhase clk sw PhasePreWeld else sw, st)
      | PhasePreWeld =>
          (if preWeldEnd <=? cycleElapsed
           then SetPhase clk sw PhaseWeld else sw, st)
      | PhaseWeld =>
          (updateWeldPhase clk sw cycleElapsed preWeldEnd weldEnd, st)
      | PhaseHold =>
          (if holdEnd <=? cycleElapsed
           then SetPhase clk sw PhaseRelease else sw, st)
      | PhaseRelease =>
          (if releaseEnd <=? cycleElapsed
           then SetPhase clk sw PhaseUnload else sw, st)
      | PhaseUnload =>
          if cycleTime <=? cycleElapsed
          then completeCycle clk sw st now else (sw, st)
      | PhaseIdle => (sw, st)
      end.

Definition Update (clk : Clock) (sw : SpotWelder) (st : Store)
    (now : Time) (isBreakTime : bool) : SpotWelder * Store :=
  let elapsed := ElapsedInState (wall clk) (base sw) in
  let sw := if negb (SpotWelderPhase_eqb (Phase (welderState sw)) PhaseWeld)
            then coolDown sw else sw in
  match State (base sw) with
  | StateIdle => (updateIdle clk sw st now, st)
  | StateSetup => updateSetup clk sw st elapsed now
  | StateRunning => updateRunning clk sw st now isBreakTime
  | StatePlannedStop => (updatePlannedStop clk sw isBreakTime, st)
  | StateUnplannedStop => (updateUnplannedStop clk sw now, st)
  end.

End spotwelder.

(* ------------------------------------------------------------------ *)
(** ** package coordinator: the line coordinator *)

Module coordinator.
Import Go core.

Definition LineState : Type := string.
Definition LineStateRunning : LineState := "Running"%string.
Definition LineStateStopped : LineState := "Stopped"%string.
Definition LineStateError : LineState := "Error"%string.
Definition LineStateSetup : LineState := "Setup"%string.

Record LineConfig : Type := mkLineConfig {
  FormingMachineName : string;
  PickerRobotName : string;
  SpotWelderName : string;
  LineName : string;
  TheoreticalCycleTime : Duration;
  FormingBufferCapacity : Z;
  WelderBufferCapacity : Z
}.

Definition DefaultLineConfig : LineConfig :=
  {| FormingMachineName := "FormingMachine";
     PickerRobotName := "PickerRobot";
     SpotWelderName := "SpotWelder";
     LineName := "ProductionLine";
     TheoreticalCycleTime := 60 * Second;
     FormingBufferCapacity := 5;
     WelderBufferCapacity := 3 |}.

Definition with_LineName (c : LineConfig) (n : string) : LineConfig :=
  mkLineConfig (FormingMachineName c) (PickerRobotName c) (SpotWelderName c)
               n (TheoreticalCycleTime c) (FormingBufferCapacity c)
               (WelderBufferCapacity c).

(** The machines are reached through pointers held by the coordinator and
    by the line runner alike: they live in the [World], next to the store
    of the objects the machines share. *)
Record World : Type := mkWorld {
  store : Store;
  formers : list forming.FormingMachine;
  pickers : list picker.PickerRobot;
  welders : list spotwelder.SpotWelder
}.

Definition emptyWorld : World := mkWorld emptyStore [] [] [].

Definition zeroBase : BaseMachine :=
  mkBaseMachine (mkMachineConfig EmptyString 0 0 0 0 0 None) noCallbacks
                StateIdle 0 0 None [] 0 0 None [].

Definition zeroNoise : NoiseGenerator :=
  mkNoise (fun _ => 0%float) (fun _ => 0) 0 0.

#[global] Instance FormingMachine_inhabited
    : Inhabited forming.FormingMachine :=
  populate
    (forming.mkFormingMachine zeroBase
       (forming.mkFormingConfig 0 0 0 0 0 0 0 0 0 0 0)
       (forming.mkFormingState forming.PhaseIdle 0 0 0 0%nat EmptyString)
       zeroNoise EmptyString 0).

#[global] Instance PickerRobot_inhabited : Inhabited picker.PickerRobot :=
  populate
    (picker.mkPickerRobot zeroBase
       (picker.mkPickerConfig 0 0 0 0 0 0 0 0
          (picker.mkPosition3D 0 0 0) (picker.mkPosition3D 0 0 0)
          (picker.mkPosition3D 0 0 0) 0 0 0 0 0 0 0 0 0)
       (picker.mkPickerState picker.PhaseIdle 0 0
          (picker.mkPosition3D 0 0 0) (picker.mkPosition3D 0 0 0)
          picker.GripperOpen 0 EmptyString None)
       zeroNoise EmptyString None None).

#[global] Instance SpotWelder_inhabited : Inhabited spotwelder.SpotWelder :=
  populate
    (spotwelder.mkSpotWelder zeroBase
       (spotwelder.mkSpotWelderConfig 0 0 0 0 0 0 0 0 0 0 0 0 0 0 0 0)
       (spotwelder.mkSpotWelderState spotwelder.PhaseIdle 0 0 0 0 0
          EmptyString None 0%nat 0 0)
       zeroNoise EmptyString).

Definition former (w : World) (p : nat) : forming.FormingMachine :=
  Heap.deref (formers w) p.
Definition pickerAt (w : World) (p : nat) : picker.PickerRobot :=
  Heap.deref (pickers w) p.
Definition welder (w : World) (p : nat) : spotwelder.SpotWelder :=
  Heap.deref (welders w) p.

Definition set_store (w : World) (st : Store) : World :=
  mkWorld st (formers w) (pickers w) (welders w).
Definition set_former (w : World) (p : nat) (fm : forming.FormingMachine) :=
  mkWorld (store w) (Heap.assign (formers w) p fm) (pickers w) (welders w).
Definition set_picker (w : World) (p : nat) (pr : picker.PickerRobot) :=
  mkWorld (store w) (formers w) (Heap.assign (pickers w) p pr) (welders w).
Definition set_welder (w : World) (p : nat) (sw : spotwelder.SpotWelder) :=
  mkWorld (store w) (formers w) (pickers w) (Heap.assign (welders w) p sw).

Definition alloc_former (w : World) (fm : forming.FormingMachine)
    : nat * World :=
  let '(p, h) := Heap.alloc (formers w) fm in
  (p, mkWorld (store w) h (pickers w) (welders w)).
Definition alloc_picker (w : World) (pr : picker.PickerRobot)
    : nat * World :=
  let '(p, h) := Heap.alloc (pickers w) pr in
  (p, mkWorld (store w) (formers w) h (welders w)).
Definition alloc_welder (w : World) (sw : spotwelder.SpotWelder)
    : nat * World :=
  let '(p, h) := Heap.alloc (welders w) sw in
  (p, mkWorld (store w) (formers w) (pickers w) h).

(** The coordinator without its mutex.  The metrics collector takes no
    part in the line state or in the part flow and is left out, as is the
    map [partsInProgress], which nothing reads or writes. *)
Record ProductionLineCoordinator : Type := mkCoordinator {
  config : LineConfig;
  formingMachine : option nat;
  pickerRobot : option nat;
  spotWelder : option nat;
  lineState : LineState;
  startTime : Time;
  lastUpdate : Time;
  totalPartsCompleted : Z;
  totalPartsScrap : Z;
  totalPartsStarted : Z;
  formingCompleted : Z;
  pickingCompleted : Z;
  weldingCompleted : Z;
  uptime : Duration;
  downtime : Duration;
  currentOrder : option nat;
  lastErrorCode : string;
  lastErrorMachine : string;
  activeErrors : Z
}.

Definition NewProductionLineCoordinator (config : LineConfig)
    : ProductionLineCoordinator :=
  mkCoordinator config None None None LineStateStopped 0 0 0 0 0 0 0 0 0 0
                None EmptyString EmptyString 0.

Definition with_machines (c : ProductionLineCoordinator)
    (f p w : option nat) : ProductionLineCoordinator :=
  mkCoordinator (config c) f p w (lineState c) (startTime c) (lastUpdate c)
    (totalPartsCompleted c) (totalPartsScrap c) (totalPartsStarted c)
    (formingCompleted c) (pickingCompleted c) (weldingCompleted c)
    (uptime c) (downtime c) (currentOrder c) (lastErrorCode c)
    (lastErrorMachine c) (activeErrors c).

Definition with_lineState (c : ProductionLineCoordinator) (s : LineState) :=
  mkCoordinator (config c) (formingMachine c) (pickerRobot c) (spotWelder c)
    s (startTime c) (lastUpdate c)
    (totalPartsCompleted c) (totalPartsScrap c) (totalPartsStarted c)
    (formingCompleted c) (pickingCompleted c) (weldingCompleted c)
    (uptime c) (downtime c) (currentOrder c) (lastErrorCode c)
    (lastErrorMachine c) (activeErrors c).

Definition with_times (c : ProductionLineCoordinator)
    (start last : Time) (up down : Duration) :=
  mkCoordinator (config c) (formingMachine c) (pickerRobot c) (spotWelder c)
    (lineState c) start last
    (totalPartsCompleted c) (totalPartsScrap c) (totalPartsStarted c)
    (formingCompleted c) (pickingCompleted c) (weldingCompleted c)
    up down (currentOrder c) (lastErrorCode c)
    (lastErrorMachine c) (activeErrors c).

Definition with_currentOrder (c : ProductionLineCoordinator)
    (o : option nat) :=
  mkCoordinator (config c) (formingMachine c) (pickerRobot c) (spotWelder c)
    (lineState c) (startTime c) (lastUpdate c)
    (totalPartsCompleted c) (totalPartsScrap c) (totalPartsStarted c)
    (formingCompleted c) (pickingCompleted c) (weldingCompleted c)
    (uptime c) (downtime c) o (lastErrorCode c)
    (lastErrorMachine c) (activeErrors c).

Definition with_counters (c : ProductionLineCoordinator)
    (completed scrap started forming picking welding : Z) :=
  mkCoordinator (config c) (formingMachine c) (pickerRobot c) (spotWelder c)
    (lineState c) (startTime c) (lastUpdate c)
    completed scrap started forming picking welding
    (uptime c) (downtime c) (currentOrder c) (lastErrorCode c)
    (lastErrorMachine c) (activeErrors c).

Definition with_errors (c : ProductionLineCoordinator)
    (code machine : string) (active : Z) :=
  mkCoordinator (config c) (formingMachine c) (pickerRobot c) (spotWelder c)
    (lineState c) (startTime c) (lastUpdate c)
    (totalPartsCompleted c) (totalPartsScrap c) (totalPartsStarted c)
    (formingCompleted c) (pickingCompleted c) (weldingCompleted c)
    (uptime c) (downtime c) (currentOrder c) code machine active.

(** [None] when [core.NewPartBuffer] panics. *)
Definition SetMachines (c : ProductionLineCoordinator) (w : World)
    (forming picker welder : option nat)
    : option (ProductionLineCoordinator * World) :=
  let c := with_machines c forming picker welder in
  let w :=
    match picker, forming with
    | Some p, Some f =>
        set_picker w p
          (picker.SetInputBuffer (pickerAt w p)
             (Some (forming.GetOutputBuffer (former w f))))
    | _, _ => w
    end in
  match welder, picker with
  | Some _, Some p =>
      match NewPartBuffer (WelderBufferCapacity (config c)) with
      | None => None
      | Some pb =>
          let '(pickerOutputBuffer, st) := alloc_buffer (store w) pb in
          let w := set_store w st in
          Some (c, set_picker w p
                     (picker.SetOutputBuffer (pickerAt w p)
                        (Some pickerOutputBuffer)))
      end
  | _, _ => Some (c, w)
  end.

Definition Start (clk : Clock) (c : ProductionLineCoordinator) (w : World)
    : ProductionLineCoordinator * World :=
  let c := with_lineState c LineStateSetup in
  let c := with_times c (wall clk) (wall clk) (uptime c) (downtime c) in
  let w := match formingMachine c with
           | Some f => set_former w f (forming.Start (former w f))
           | None => w
           end in
  let w := match pickerRobot c with
           | Some p => set_picker w p (picker.Start (pickerAt w p))
           | None => w
           end in
  let w := match spotWelder c with
           | Some s => set_welder w s (spotwelder.Start (welder w s))
           | None => w
           end in
  (with_lineState c LineStateRunning, w).

Definition Stop (c : ProductionLineCoordinator) (w : World)
    : ProductionLineCoordinator * World :=
  let c := with_lineState c LineStateStopped in
  let w := match formingMachine c with
           | Some f => set_former w f (forming.Stop (former w f))
           | None => w
           end in
  let w := match pickerRobot c with
           | Some p => set_picker w p (picker.Stop (pickerAt w p))
           | None => w
           end in
  let w := match spotWelder c with
           | Some s => set_welder w s (spotwelder.Stop (welder w s))
           | None => w
           end in
  (c, w).

(** [m != nil && m.State() == core.StateUnplannedStop] for each machine. *)
Definition formingStopped (c : ProductionLineCoordinator) (w : World) : bool :=
  match formingMachine c with
  | Some f => MachineState_eqb (State (forming.base (former w f)))
                               StateUnplannedStop
  | None => false
  end.

Definition pickerStopped (c : ProductionLineCoordinator) (w : World) : bool :=
  match pickerRobot c with
  | Some p => MachineState_eqb (State (picker.base (pickerAt w p)))
                               StateUnplannedStop
  | None => false
  end.

Definition welderStopped (c : ProductionLineCoordinator) (w : World) : bool :=
  match spotWelder c with
  | Some s => MachineState_eqb (State (spotwelder.base (welder w s)))
                               StateUnplannedStop
  | None => false
  end.

Definition updateLineState (c : ProductionLineCoordinator) (w : World)
    : ProductionLineCoordinator :=
  let hasError := false in
  let hasError := if formingStopped c w then true else hasError in
  let hasError := if pickerStopped c w then true else hasError in
  let hasError := if welderStopped c w then true else hasError in
  if hasError then with_lineState c LineStateError
  else if String.eqb (lineState c) LineStateError
  then with_lineState c LineStateRunning
  else c.

(** The body of the source only returns. *)
Definition coordinatePartFlow (c : ProductionLineCoordinator) (w : World)
    (now : Time) : ProductionLineCoordinator * World := (c, w).

Definition updateCounters (c : ProductionLineCoordinator) (w : World)
    : ProductionLineCoordinator :=
  let c :=
    match spotWelder c with
    | Some s =>
        let '(good, scrap) := GetCounters (spotwelder.base (welder w s)) in
        with_counters c good scrap (totalPartsStarted c)
          (formingCompleted c) (pickingCompleted c) good
    | None => c
    end in
  let c :=
    match pickerRobot c with
    | Some p =>
        let '(good, _) := GetCounters (picker.base (pickerAt w p)) in
        with_counters c (totalPartsCompleted c) (totalPartsScrap c)
          (totalPartsStarted c) (formingCompleted c) good
          (weldingCompleted c)
    | None => c
    end in
  match formingMachine c with
  | Some f =>
      let '(good, _) := GetCounters (forming.base (former w f)) in
      with_counters c (totalPartsCompleted c) (totalPartsScrap c)
        good good (pickingCompleted c) (weldingCompleted c)
  | None => c
  end.

Definition updateErrorTracking (c : ProductionLineCoordinator) (w : World)
    : ProductionLineCoordinator :=
  let c := with_errors c (lastErrorCode c) (lastErrorMachine c) 0 in
  let track (c : ProductionLineCoordinator) (e : option ErrorInfo)
            (machine : string) :=
    match e with
    | Some err => with_errors c (Code err) machine (incr (activeErrors c))
    | None => c
    end in
  let c := match formingMachine c with
           | Some f => track c (CurrentError (forming.base (former w f)))
                             (FormingMachineName (config c))
           | None => c
           end in
  let c := match pickerRobot c with
           | Some p => track c (CurrentError (picker.base (pickerAt w p)))
                             (PickerRobotName (config c))
           | None => c
           end in
  match spotWelder c with
  | Some s => track c (CurrentError (spotwelder.base (welder w s)))
                    (SpotWelderName (config c))
  | None => c
  end.

(** The three machine updates of [Update], in the order of the source. *)
Definition updateMachines (clk : Clock) (c : ProductionLineCoordinator)
    (w : World) (now : Time) (isBreakTime : bool) : World :=
  let w :=
    match formingMachine c with
    | Some f =>
        let '(fm, st) :=
          forming.Update clk (former w f) (store w) now isBreakTime in
        set_former (set_store w st) f fm
    | None => w
    end in
  let w :=
    match pickerRobot c with
    | Some p =>
        let '(pr, st) :=
          picker.Update clk (pickerAt w p) (store w) now isBreakTime in
        set_picker (set_store w st) p pr
    | None => w
    end in
  match spotWelder c with
  | Some s =>
      let '(sw, st) :=
        spotwelder.Update clk (welder w s) (store w) now isBreakTime in
      set_welder (set_store w st) s sw
  | None => w
  end.

Definition Update (clk : Clock) (c : ProductionLineCoordinator) (w : World)
    (now : Time) (isBreakTime : bool) : ProductionLineCoordinator * World :=
  let elapsed := Sub now (lastUpdate c) in
  let c := with_times c (startTime c) now (uptime c) (downtime c) in
  let c := updateLineState c w in
  let c :=
    if String.eqb (lineState c) LineStateRunning then
      with_times c (startTime c) (lastUpdate c)
                 (add (uptime c) elapsed) (downtime c)
    else if String.eqb (lineState c) LineStateError
            || String.eqb (lineState c) LineStateStopped then
      with_times c (startTime c) (lastUpdate c)
                 (uptime c) (add (downtime c) elapsed)
    else c in
  let w := updateMachines clk c w now isBreakTime in
  let '(c, w) := coordinatePartFlow c w now in
  let c := updateCounters c w in
  let c := updateErrorTracking c w in
  (c, w).

Definition SetOrder (c : ProductionLineCoordinator) (w : World)
    (order : option nat) : ProductionLineCoordinator * World :=
  let c := with_currentOrder c order in
  match formingMachine c, order with
  | Some f, Some o =>
      let fm := former w f in
      (c, set_former w f (forming.with_base fm (AddOrder (forming.base fm) o)))
  | _, _ => (c, w)
  end.

Definition GetLineState (c : ProductionLineCoordinator) : LineState :=
  lineState c.

End coordinator.

(* ------------------------------------------------------------------ *)
(** ** package coordinator: the metrics collector *)

(** The coordinator calls the collector's [Update] as the last step of
    its own and reads it in [GenerateData]; the collector is modelled on
    its own here, with the machines of the world as arguments. *)
Module metrics.
Import Go core coordinator.

Record OEEResult : Type := mkOEEResult {
  Availability : float;
  Performance : float;
  Quality : float;
  OEE : float
}.

Record MachineMetrics : Type := mkMachineMetrics {
  Name : string;
  State : MachineState;
  CycleCount : Z;
  GoodParts : Z;
  ScrapParts : Z;
  TotalUptime : Duration;
  TotalDowntime : Duration;
  CurrentCycleTime : Duration;
  AverageCycleTime : Duration;
  IsBottleneck : bool
}.

(** [MetricsCollector] without its mutex. *)
Record MetricsCollector : Type := mkMetricsCollector {
  config : LineConfig;
  startTime : Time;
  lastUpdate : Time;
  totalRunning : Duration;
  totalStopped : Duration;
  theoreticalOutput : Z;
  actualOutput : Z;
  goodParts : Z;
  totalParts : Z;
  formingMetrics : MachineMetrics;
  pickerMetrics : MachineMetrics;
  welderMetrics : MachineMetrics;
  formingCycleTimes : list Duration;
  pickerCycleTimes : list Duration;
  welderCycleTimes : list Duration;
  lastFormingCount : Z;
  lastPickerCount : Z;
  lastWelderCount : Z;
  lastFormingTime : Time;
  lastPickerTime : Time;
  lastWelderTime : Time
}.

Definition updateMachineMetrics (metrics : MachineMetrics) (name : string)
    (state : MachineState) (cycleCount goodParts scrapParts : Z)
    (elapsed : Duration) : MachineMetrics :=
  let up :=
    if MachineState_eqb state StateRunning
    then add (TotalUptime metrics) elapsed else TotalUptime metrics in
  let down :=
    if MachineState_eqb state StateRunning then TotalDowntime metrics
    else if MachineState_eqb state StateUnplannedStop
    then add (TotalDowntime metrics) elapsed else TotalDowntime metrics in
  mkMachineMetrics name state cycleCount goodParts scrapParts up down
    (CurrentCycleTime metrics) (AverageCycleTime metrics)
    (IsBottleneck metrics).

Definition addCycleTime (times : list Duration) (cycleTime : Duration)
    : list Duration :=
  let times := times ++ [cycleTime] in
  if 100 <? len times then tail times else times.

(** The block that [Update] writes out for each machine that is not
    [nil]: the machine's metrics, its cycle-time samples, the last cycle
    count seen and the time it was seen at. *)
Definition track (metrics : MachineMetrics) (times : list Duration)
    (lastCount : Z) (lastTime : Time) (name : string)
    (state : MachineState) (cycleCount goodParts scrapParts : Z)
    (elapsed : Duration) (now : Time)
    : MachineMetrics * list Duration * Z * Time :=
  let metrics := updateMachineMetrics metrics name state cycleCount
                   goodParts scrapParts elapsed in
  let currentCount := cycleCount in
  if lastCount <? currentCount then
    let cycleTime := Sub now lastTime in
    (metrics, addCycleTime times cycleTime, currentCount, now)
  else (metrics, times, lastCount, lastTime).

(** [None] when the division by [TheoreticalCycleTime] panics. *)
Definition Update (m : MetricsCollector) (w : World)
    (forming picker welder : option nat) (now : Time)
    : option MetricsCollector :=
  let elapsed := Sub now (lastUpdate m) in
  let '(fMetrics, fTimes, fCount, fTime) :=
    match forming with
    | Some f =>
        let fm := former w f in
        track (formingMetrics m) (formingCycleTimes m) (lastFormingCount m)
          (lastFormingTime m) (FormingMachineName (config m))
          (core.State (forming.base fm)) (forming.GetCycleCount fm)
          (core.GoodParts (forming.base fm))
          (core.ScrapParts (forming.base fm)) elapsed now
    | None => (formingMetrics m, formingCycleTimes m, lastFormingCount m,
               lastFormingTime m)
    end in
  let '(pMetrics, pTimes, pCount, pTime) :=
    match picker with
    | Some p =>
        let pr := pickerAt w p in
        let '(good, scrap) := GetCounters (picker.base pr) in
        track (pickerMetrics m) (pickerCycleTimes m) (lastPickerCount m)
          (lastPickerTime m) (PickerRobotName (config m))
          (core.State (picker.base pr)) (picker.GetCycleCount pr)
          good scrap elapsed now
    | None => (pickerMetrics m, pickerCycleTimes m, lastPickerCount m,
               lastPickerTime m)
    end in
  let '(wMetrics, wTimes, wCount, wTime) :=
    match welder with
    | Some s =>
        let sw := coordinator.welder w s in
        let '(good, scrap) := GetCounters (spotwelder.base sw) in
        track (welderMetrics m) (welderCycleTimes m) (lastWelderCount m)
          (lastWelderTime m) (SpotWelderName (config m))
          (core.State (spotwelder.base sw)) (spotwelder.GetCycleCount sw)
          good scrap elapsed now
    | None => (welderMetrics m, welderCycleTimes m, lastWelderCount m,
               lastWelderTime m)
    end in
  let '(actual, good, total) :=
    match welder with
    | Some s =>
        let '(good, scrap) :=
          GetCounters (spotwelder.base (coordinator.welder w s)) in
        (good, good, add good scrap)
    | None => (actualOutput m, goodParts m, totalParts m)
    end in
  let totalElapsed := Sub now (startTime m) in
  if TheoreticalCycleTime (config m) =? 0 then None
  else
    let theoreticalCycles :=
      quo totalElapsed (TheoreticalCycleTime (config m)) in
    let allRunning := true in
    let allRunning :=
      match forming with
      | Some f =>
          if negb (MachineState_eqb
                     (core.State (forming.base (former w f))) StateRunning)
          then false else allRunning
      | None => allRunning
      end in
    let allRunning :=
      match picker with
      | Some p =>
          if negb (MachineState_eqb
                     (core.State (picker.base (pickerAt w p))) StateRunning)
          then false else allRunning
      | None => allRunning
      end in
    let allRunning :=
      match welder with
      | Some s =>
          if negb (MachineState_eqb
                     (core.State (spotwelder.base (coordinator.welder w s)))
                     StateRunning)
          then false else allRunning
      | None => allRunning
      end in
    Some (mkMetricsCollector (config m) (startTime m) now
            (if allRunning then add (totalRunning m) elapsed
             else totalRunning m)
            (if allRunning then totalStopped m
             else add (totalStopped m) elapsed)
            theoreticalCycles actual good total
            fMetrics pMetrics wMetrics fTimes pTimes wTimes
            fCount pCount wCount fTime pTime wTime).

Definition CalculateOEE (m : MetricsCollector) : OEEResult :=
  let totalTime := add (totalRunning m) (totalStopped m) in
  let availability :=
    if 0 <? totalTime
    then (float64 (totalRunning m) / float64 totalTime * 100)%float
    else 0%float in
  let performance :=
    if 0 <? theoreticalOutput m then
      let p := (float64 (actualOutput m) / float64 (theoreticalOutput m)
                * 100)%float in
      if (100 <? p)%float then 100%float else p
    else 0%float in
  let quality :=
    if 0 <? totalParts m
    then (float64 (goodParts m) / float64 (totalParts m) * 100)%float
    else 100%float in
  {| Availability := availability;
     Performance := performance;
     Quality := quality;
     OEE := ((availability / 100) * (performance / 100) * (quality / 100)
             * 100)%float |}.

Definition averageCycleTime (times : list Duration) : Duration :=
  if len times =? 0 then 0
  else
    let total := fold_left add times 0 in
    quo total (len times).

Definition GetBottleneck (m : MetricsCollector) : string :=
  let formingAvg := averageCycleTime (formingCycleTimes m) in
  let pickerAvg := averageCycleTime (pickerCycleTimes m) in
  let welderAvg := averageCycleTime (welderCycleTimes m) in
  if (formingAvg =? 0) && (pickerAvg =? 0) && (welderAvg =? 0)
  then EmptyString
  else
    let maxTime := formingAvg in
    let bottleneck := FormingMachineName (config m) in
    let '(maxTime, bottleneck) :=
      if maxTime <? pickerAvg
      then (pickerAvg, PickerRobotName (config m))
      else (maxTime, bottleneck) in
    if maxTime <? welderAvg then SpotWelderName (config m) else bottleneck.

End metrics.

(* ------------------------------------------------------------------ *)
(** ** package line: the production line runner *)

Module line.
Import Go core coordinator.

(** The OPC UA server is outside the model.  The coordinator is reached
    through the runner only and is carried by value. *)
Record ProductionLineRunner : Type := mkRunner {
  config : config.Config;
  runtimeConfig : nat;
  formingMachine : nat;
  pickerRobot : nat;
  spotWelder : nat;
  coordinator : ProductionLineCoordinator
}.

(** The generators of the three machines are seeded from the clock in the
    source; here they are the tapes [ngF], [ngP] and [ngW].  [None] when
    a buffer allocation panics. *)
Definition NewProductionLineRunner (clk : Clock)
    (ngF ngP ngW : NoiseGenerator) (cfg : config.Config) (w : World)
    : option (ProductionLineRunner * World) :=
  let '(runtimeCfg, st) :=
    alloc_runtime (store w) (config.NewRuntimeConfig cfg) in
  let w := set_store w st in
  let baseMachineConfig :=
    {| Name := EmptyString;
       CycleTime := config.CycleTime cfg;
       SetupTime := config.SetupTime cfg;
       ErrorRate := config.ErrorRate cfg;
       ScrapRate := config.ScrapRate cfg;
       PublishInterval := config.PublishInterval cfg;
       Runtime := Some runtimeCfg |} in
  let formingConfig := forming.DefaultFormingConfig in
  match forming.NewFormingMachine clk ngF "FormingMachine"
          baseMachineConfig formingConfig (store w) with
  | None => None
  | Some (fm, st) =>
      let '(formingMachine, w) := alloc_former (set_store w st) fm in
      let pickerMachineConfig :=
        {| Name := Name baseMachineConfig;
           CycleTime := Z.quot (config.CycleTime cfg) 3;
           SetupTime := SetupTime baseMachineConfig;
           ErrorRate := ErrorRate baseMachineConfig;
           ScrapRate := ScrapRate baseMachineConfig;
           PublishInterval := PublishInterval baseMachineConfig;
           Runtime := Runtime baseMachineConfig |} in
      let pickerConfig := picker.DefaultPickerConfig in
      let '(pickerRobot, w) :=
        alloc_picker w (picker.NewPickerRobot clk ngP "PickerRobot"
                          pickerMachineConfig pickerConfig) in
      let welderConfig := spotwelder.DefaultSpotWelderConfig in
      match spotwelder.NewSpotWelder clk ngW "SpotWelder"
              baseMachineConfig welderConfig (store w) with
      | None => None
      | Some (sw, st) =>
          let '(spotWelder, w) := alloc_welder (set_store w st) sw in
          let coordConfig :=
            with_LineName DefaultLineConfig (config.SimulatorName cfg) in
          let coord := NewProductionLineCoordinator coordConfig in
          match SetMachines coord w (Some formingMachine)
                  (Some pickerRobot) (Some spotWelder) with
          | None => None
          | Some (coord, w) =>
              let w :=
                set_picker w pickerRobot
                  (picker.SetOutputBuffer (pickerAt w pickerRobot)
                     (Some (spotwelder.GetInputBuffer
                              (welder w spotWelder)))) in
              let w :=
                set_picker w pickerRobot
                  (picker.SetInputBuffer (pickerAt w pickerRobot)
                     (Some (forming.GetOutputBuffer
                              (former w formingMachine)))) in
              Some ({| config := cfg;
                       runtimeConfig := runtimeCfg;
                       formingMachine := formingMachine;
                       pickerRobot := pickerRobot;
                       spotWelder := spotWelder;
                       coordinator := coord |}, w)
          end
      end
  end.

Definition GetRuntimeConfig (plr : ProductionLineRunner) : nat :=
  runtimeConfig plr.

Definition GetCoordinator (plr : ProductionLineRunner)
    : ProductionLineCoordinator := coordinator plr.

(** *** The order generator *)

(** [core.PartDefinition] *)
Record PartDefinition : Type := mkPartDefinition {
  PartNumber : string;
  Description : string;
  CycleTime : Duration
}.

Definition LineParts : list PartDefinition :=
  [mkPartDefinition "RAIL-ASM-A01" "Side Rail Assembly" (45 * Second);
   mkPartDefinition "RAIL-ASM-B02" "Cross Rail Assembly" (50 * Second);
   mkPartDefinition "BRKT-FRM-C01" "Formed Bracket" (35 * Second);
   mkPartDefinition "PANEL-WLD-D01" "Welded Panel" (55 * Second);
   mkPartDefinition "MOUNT-ASM-E01" "Mount Assembly" (40 * Second)].

Definition LineCustomers : list string :=
  ["AutoCorp Inc."; "MechParts GmbH"; "TechFab Solutions";
   "Industrial Motors Ltd."; "Assembly Systems AG"]%string.

(** The fields of [config.Config] that the generator reads. *)
Record OrderConfig : Type := mkOrderConfig {
  OrderMinQty : Z;
  OrderMaxQty : Z
}.

(** The generator [rng] is a tape as in [core.NoiseGenerator]. *)
Record OrderGenerator : Type := mkOrderGenerator {
  cfg : OrderConfig;
  rng : NoiseGenerator;
  orderNumber : Z
}.

Definition NewOrderGenerator (rng : NoiseGenerator) (cfg : OrderConfig)
    : OrderGenerator :=
  mkOrderGenerator cfg rng 1000.

(** [rng.Intn(n)] panics ([None]) unless [0 < n]. *)
Definition Intn (rng : NoiseGenerator) (n : Z)
    : option (Z * NoiseGenerator) :=
  if n <=? 0 then None else Some (core.Intn rng n).

(** [wall clk] is the value of [time.Now()], [year] that of
    [time.Now().Year()].  The new order is allocated in the store; its
    address is returned.  [None] when [Intn] panics. *)
Definition GenerateOrder (clk : Clock) (year : Z) (og : OrderGenerator)
    (st : Store) : option (nat * OrderGenerator * Store) :=
  let rng0 := rng og in
  match Intn rng0 (len LineParts) with
  | None => None
  | Some (i, rng1) =>
  let part := nth (Z.to_nat i) LineParts
                  (mkPartDefinition EmptyString EmptyString 0) in
  match Intn rng1 (len LineCustomers) with
  | None => None
  | Some (j, rng2) =>
  let customer := nth (Z.to_nat j) LineCustomers EmptyString in
  match Intn rng2 (add (sub (OrderMaxQty (cfg og)) (OrderMinQty (cfg og))) 1)
  with
  | None => None
  | Some (q, rng3) =>
  let quantity := add (OrderMinQty (cfg og)) q in
  match Intn rng3 40 with
  | None => None
  | Some (h, rng4) =>
  let hoursUntilDue := add 8 h in
  let dueDate := Add (wall clk) (mul hoursUntilDue Hour) in
  match Intn rng4 4 with
  | None => None
  | Some (p, rng5) =>
  let priority := add 1 p in
  let og := mkOrderGenerator (cfg og) rng5 (incr (orderNumber og)) in
  let orderID :=
    String.append "LN-"
      (String.append (itoa year)
         (String.append "-" (pad5 (orderNumber og)))) in
  let '(o, st) :=
    alloc_order st
      (mkOrder orderID (PartNumber part) (Description part) quantity 0 0
               dueDate customer priority OrderStatusQueued 0 0) in
  Some (o, og, st)
  end end end end end.

(** The loop of [GenerateInitialQueue], [n] orders to go. *)
Fixpoint generateOrders (clk : Clock) (year : Z) (n : nat)
    (og : OrderGenerator) (st : Store)
    : option (list nat * OrderGenerator * Store) :=
  match n with
  | O => Some ([], og, st)
  | S n =>
      match GenerateOrder clk year og st with
      | None => None
      | Some (o, og, st) =>
          match generateOrders clk year n og st with
          | None => None
          | Some (os, og, st) => Some (o :: os, og, st)
          end
      end
  end.

(** [make([]*core.ProductionOrder, count)] panics for a negative
    [count]. *)
Definition GenerateInitialQueue (clk : Clock) (year : Z)
    (og : OrderGenerator) (st : Store) (count : Z)
    : option (list nat * OrderGenerator * Store) :=
  if count <? 0 then None
  else generateOrders clk year (Z.to_nat count) og st.

End line.

(* ------------------------------------------------------------------ *)
(** ** package api: the configuration endpoint *)

Module api.
Import Go core coordinator.

Record ConfigResponse : Type := mkConfigResponse {
  RespCycleTimeScale : float;
  RespBaseCycleTime : Duration;
  RespEffectiveCycleTime : Duration;
  RespScrapRate : float;
  RespErrorRate : float
}.

(** The fields are [*float64]: [None] when the field is absent. *)
Record ConfigUpdateRequest : Type := mkConfigUpdateRequest {
  CycleTimeScale : option float;
  ScrapRate : option float;
  ErrorRate : option float
}.

Definition StatusOK : Z := 200.
Definition StatusBadRequest : Z := 400.
Definition StatusMethodNotAllowed : Z := 405.
Definition StatusInternalServerError : Z := 500.
Definition StatusNotImplemented : Z := 501.

(** What the handler writes: [http.Error(w, text, code)], or the JSON
    encoding of a [ConfigResponse] with status 200, or only a status.
    The two durations of the response are kept as durations, not as the
    strings made by [Duration.String]. *)
Inductive Response : Type :=
| Error (text : string) (code : Z)
| JSON (resp : ConfigResponse)
| Status (code : Z).

Definition statusCode (r : Response) : Z :=
  match r with
  | Error _ code => code
  | JSON _ => StatusOK
  | Status code => code
  end.

Inductive Method : Type :=
| MethodGet
| MethodPost
| MethodOptions
| MethodOther.

(** The production-line side of [Handler]: [runner] is [nil] in
    single-machine mode. *)
Record Handler : Type := mkHandler {
  simulatorMode : string;
  simulatorName : string;
  runner : option line.ProductionLineRunner
}.

(** [err.Error()], without the value that the format reports. *)
Definition errorText (e : config.error) : string :=
  match e with config.Errorf format _ => format end.

Definition snapshotResponse (rc : config.RuntimeConfig) : ConfigResponse :=
  let snapshot := config.Snapshot rc in
  {| RespCycleTimeScale := config.snapCycleTimeScale snapshot;
     RespBaseCycleTime := config.snapBaseCycleTime snapshot;
     RespEffectiveCycleTime := config.snapEffectiveCycleTime snapshot;
     RespScrapRate := config.snapScrapRate snapshot;
     RespErrorRate := config.snapErrorRate snapshot |}.

(** [encoding/json] refuses a [float64] that is NaN or infinite
    ([UnsupportedValueError]); every other value of a [ConfigResponse]
    encodes. *)
Definition encodable (f : float) : bool :=
  negb (is_nan f || is_infinity f).

(** [json.NewEncoder(w).Encode(resp)] returns [nil]: the encoder writes
    nothing when it returns an error. *)
Definition Encode (resp : ConfigResponse) : bool :=
  encodable (RespCycleTimeScale resp)
  && encodable (RespScrapRate resp)
  && encodable (RespErrorRate resp).

Definition writeJSON (resp : ConfigResponse) : Response :=
  if Encode resp then JSON resp
  else Error "Failed to encode response" StatusInternalServerError.

Definition handleConfigGet (h : Handler) (st : Store) : Response :=
  match runner h with
  | None => Error "Config only available in production line mode"
                  StatusNotImplemented
  | Some plr =>
      writeJSON (snapshotResponse (runtime st (line.GetRuntimeConfig plr)))
  end.

(** [body] is the result of decoding the request body: [None] when the
    decoder reports an error. *)
Definition handleConfigUpdate (h : Handler) (st : Store)
    (body : option ConfigUpdateRequest) : Response * Store :=
  match runner h with
  | None => (Error "Config only available in production line mode"
                   StatusNotImplemented, st)
  | Some plr =>
      match body with
      | None => (Error "Invalid JSON: " StatusBadRequest, st)
      | Some req =>
          let rc := line.GetRuntimeConfig plr in
          let step1 :=
            match CycleTimeScale req with
            | Some v => SetAt st rc config.SetCycleTimeScale v
            | None => (st, None)
            end in
          match step1 with
          | (st, Some err) => (Error (errorText err) StatusBadRequest, st)
          | (st, None) =>
              let step2 :=
                match ScrapRate req with
                | Some v => SetAt st rc config.SetScrapRate v
                | None => (st, None)
                end in
              match step2 with
              | (st, Some err) => (Error (errorText err) StatusBadRequest, st)
              | (st, None) =>
                  let step3 :=
                    match ErrorRate req with
                    | Some v => SetAt st rc config.SetErrorRate v
                    | None => (st, None)
                    end in
                  match step3 with
                  | (st, Some err) =>
                      (Error (errorText err) StatusBadRequest, st)
                  | (st, None) =>
                      (writeJSON (snapshotResponse (runtime st rc)), st)
                  end
              end
          end
      end
  end.

Definition HandleConfig (h : Handler) (st : Store) (method : Method)
    (body : option ConfigUpdateRequest) : Response * Store :=
  match method with
  | MethodOptions => (Status StatusOK, st)
  | MethodGet => (handleConfigGet h st, st)
  | MethodPost => handleConfigUpdate h st body
  | MethodOther => (Error "Method not allowed" StatusMethodNotAllowed, st)
  end.

End api.

(* ------------------------------------------------------------------ *)
(** ** Sequences of buffer operations *)

Module BufferTrace.
Import core.

Inductive Op : Type :=
| OpPush (part : Part)
| OpPop
| OpPeek.

(** The buffer after one operation. *)
Definition step (pb : PartBuffer) (op : Op) : PartBuffer :=
  match op with
  | OpPush part => fst (Push pb part)
  | OpPop => fst (Pop pb)
  | OpPeek => pb
  end.

(** The buffer after a sequence of operations. *)
Fixpoint run (pb : PartBuffer) (ops : list Op) : PartBuffer :=
  match ops with
  | [] => pb
  | op :: ops => run (step pb op) ops
  end.

(** The parts whose [Push] returned [true], in the order of the calls. *)
Fixpoint accepted (pb : PartBuffer) (ops : list Op) : list Part :=
  match ops with
  | [] => []
  | op :: ops =>
      match op with
      | OpPush part => if snd (Push pb part) then [part] else []
      | _ => []
      end ++ accepted (step pb op) ops
  end.

(** The parts that the calls of [Pop] returned, in the order of the calls. *)
Fixpoint popped (pb : PartBuffer) (ops : list Op) : list Part :=
  match ops with
  | [] => []
  | op :: ops =>
      match op with
      | OpPop => match snd (Pop pb) with Some part => [part] | None => [] end
      | _ => []
      end ++ popped (step pb op) ops
  end.

End BufferTrace.

(* ------------------------------------------------------------------ *)
(** ** Predicates on stores and machines used by the properties *)

Module Invariants.
Import Go core coordinator.

(** Every buffer of the store holds at most its capacity. *)
Definition withinCapacity (st : Store) : Prop :=
  Forall (fun pb => len (Queue pb) <= MaxCapacity pb) (buffers st).

(** [st'] has the buffers of [st], with the same capacities. *)
Definition sameCapacities (st st' : Store) : Prop :=
  map MaxCapacity (buffers st') = map MaxCapacity (buffers st).

(** A step of the store that keeps the capacities and the bound. *)
Definition bufstep (st st' : Store) : Prop :=
  sameCapacities st st' /\ (withinCapacity st -> withinCapacity st').

(** A machine is in [UnplannedStop] exactly when it carries an error. *)
Definition errorConsistent (bm : BaseMachine) : Prop :=
  State bm = StateUnplannedStop <-> CurrentError bm <> None.

(** What one update may do to the state and the error of a machine. *)
Definition errorStep (bm bm' : BaseMachine) : Prop :=
  (state bm <> StateUnplannedStop
   /\ state bm' <> StateUnplannedStop
   /\ CurrentError bm' = CurrentError bm)
  \/ (state bm' = StateUnplannedStop /\ CurrentError bm' <> None)
  \/ (state bm' <> StateUnplannedStop /\ CurrentError bm' = None)
  \/ (state bm' = state bm /\ CurrentError bm' = CurrentError bm).

(** An update that keeps the error and does not enter [UnplannedStop]. *)
Definition mild (bm bm' : BaseMachine) : Prop :=
  CurrentError bm' = CurrentError bm
  /\ (state bm <> StateUnplannedStop -> state bm' <> StateUnplannedStop).

(** The state after an update is the state before it or one of
    [targets]. *)
Definition reaches (targets : list MachineState) (bm bm' : BaseMachine)
    : Prop :=
  state bm' = state bm \/ In (state bm') targets.

(** The arrows of the state graph that the three machines use. *)
Definition allowed (from to : MachineState) : bool :=
  match from, to with
  | StateIdle, (StateIdle | StateSetup) => true
  | StateSetup, (StateSetup | StateRunning) => true
  | StateRunning,
    (StateRunning | StatePlannedStop | StateUnplannedStop | StateIdle) => true
  | StatePlannedStop, (StatePlannedStop | StateIdle) => true
  | StateUnplannedStop, (StateUnplannedStop | StateIdle) => true
  | _, _ => false
  end.

(** How a stop of a machine ends, from its base [bm] before an update at
    [now] to its base [bm'] after it. *)
Definition stopEnds (bm bm' : BaseMachine) (now : Time) (isBreakTime : bool)
    : Prop :=
  (State bm = StatePlannedStop ->
   State bm' = (if isBreakTime then StatePlannedStop else StateIdle)
   /\ CurrentError bm' = CurrentError bm)
  /\ (State bm = StateUnplannedStop ->
      match CurrentError bm with
      | Some err =>
          if ExpectedEnd err <? now
          then State bm' = StateIdle /\ CurrentError bm' = None
          else bm' = bm
      | None => bm' = bm
      end).

(** [1] for an error, [0] for none. *)
Definition errorCount (e : option ErrorInfo) : Z :=
  match e with Some _ => 1 | None => 0 end.

(** A field of a request is absent or lies in [[lo, hi]]. *)
Definition absentOrWithin (lo hi : float) (field : option float) : Prop :=
  match field with
  | Some v => (lo <=? v)%float = true /\ (v <=? hi)%float = true
  | None => True
  end.

(** The guard of a setter with bounds [lo] and [hi], on a field of a
    request: the field is present and its value is below [lo] or above
    [hi]. *)
Definition refused (lo hi : float) (field : option float) : bool :=
  match field with
  | Some v => (v <? lo)%float || (hi <? v)%float
  | None => false
  end.

(** The three rates of a configuration are numbers: none is NaN or
    infinite. *)
Definition finiteRates (rc : config.RuntimeConfig) : bool :=
  is_finite (config.cycleTimeScale rc)
  && is_finite (config.scrapRate rc)
  && is_finite (config.errorRate rc).

(** [st'] has the buffers and the orders of [st], and as many runtime
    configurations. *)
Definition sameShape (st st' : Store) : Prop :=
  buffers st' = buffers st /\ orders st' = orders st
  /\ length (runtimes st') = length (runtimes st).

(** [m == nil || m.State() == core.StateRunning] *)
Definition absentOrRunning (s : option MachineState) : bool :=
  match s with
  | Some s => MachineState_eqb s StateRunning
  | None => true
  end.

End Invariants.

(* ------------------------------------------------------------------ *)
(** ** Concrete states used by the witnesses and counterexamples *)

Module Fixtures.
Import Go core coordinator.

(** A runtime configuration: 30 s cycles, 5 s setup. *)
Definition sampleRuntime : config.RuntimeConfig :=
  config.mkRuntimeConfig 1 0.02 0.01 (30 * Second) (5 * Second).

(** The surroundings of a call: a wall clock and a calendar date. *)
Definition clock0 : Clock :=
  mkClock (1000 * Second) (fun _ => "2026-01-12"%string).

(** A generator whose every draw is 0.5 (and 0 for integers). *)
Definition tape0 : NoiseGenerator :=
  mkNoise (fun _ => 0.5%float) (fun _ => 0) 0 0.

(** 30 s cycles, 5 s setup, 1 s ticks, no scrap and no errors. *)
Definition config0 : config.Config :=
  config.mkConfig "Line" Second (30 * Second) (5 * Second) 0 0.

(** The line as [NewProductionLineRunner] sets it up in an empty world. *)
Definition line0 : option (line.ProductionLineRunner * World) :=
  line.NewProductionLineRunner clock0 tape0 tape0 tape0 config0 emptyWorld.

Definition world0 : World :=
  match line0 with Some (_, w) => w | None => emptyWorld end.

Definition runner0 : line.ProductionLineRunner :=
  match line0 with
  | Some (plr, _) => plr
  | None => line.mkRunner config0 0 0 0 0
              (NewProductionLineCoordinator DefaultLineConfig)
  end.

Definition handler0 : api.Handler :=
  api.mkHandler "production-line" "Line" (Some runner0).

(** A part as the forming press hands it over, with identity [id]. *)
Definition partNamed (id : string) : Part :=
  mkPart id "LN-2026-01001" PartStatusAwaitingPickup "FormingMachine"
         0 0 0 0 "FormingMachine" EmptyString EmptyString false EmptyString.

Definition partA : Part := partNamed "PART-2026-01-12-0001".
Definition partB : Part := partNamed "PART-2026-01-12-0002".
Definition partC : Part := partNamed "PART-2026-01-12-0003".
Definition partD : Part := partNamed "PART-2026-01-12-0004".

(** A base machine in [Running] since time 400 s that has every callback
    registered and has fired none yet. *)
Definition observedMachine : BaseMachine :=
  mkBaseMachine
    (mkMachineConfig "FormingMachine" (30 * Second) (5 * Second) 0 0 Second
                     None)
    (mkCallbacks true true true true true)
    StateRunning (400 * Second) (400 * Second) None [] 0 0 None [].

(** The static machine configuration of [config0], without a runtime
    configuration. *)
Definition machineConfig0 : MachineConfig :=
  mkMachineConfig EmptyString (30 * Second) (5 * Second) 0 0 Second None.

(** Three machines as their constructors make them, not yet wired. *)
Definition freshMachines : World :=
  match forming.NewFormingMachine clock0 tape0 "FormingMachine"
          machineConfig0 forming.DefaultFormingConfig emptyStore with
  | Some (fm, st) =>
      match spotwelder.NewSpotWelder clock0 tape0 "SpotWelder"
              machineConfig0 spotwelder.DefaultSpotWelderConfig st with
      | Some (sw, st) =>
          mkWorld st [fm]
            [picker.NewPickerRobot clock0 tape0 "PickerRobot" machineConfig0
               picker.DefaultPickerConfig]
            [sw]
      | None => emptyWorld
      end
  | None => emptyWorld
  end.

(** The same machines after the coordinator's [SetMachines] alone. *)
Definition wiredBySetMachines : option (ProductionLineCoordinator * World) :=
  SetMachines (NewProductionLineCoordinator DefaultLineConfig) freshMachines
              (Some 0%nat) (Some 0%nat) (Some 0%nat).

(** The picker of [world0], one tick into its cycle: [Running] in
    [MoveToPickup], the cycle having started 2 s before [clock0]. *)
Definition movingPicker : picker.PickerRobot :=
  let pr := pickerAt world0 (line.pickerRobot runner0) in
  let bm := with_state (picker.base pr) StateRunning (998 * Second) in
  let bm := with_CycleStartedAt bm (998 * Second) in
  picker.with_Phase (picker.with_base pr bm) picker.PhaseMoveToPickup.

(** [partD] as the picker holds it after [Grip]. *)
Definition heldPart : Part := part_moved partD PartStatusInTransit "PickerRobot".

(** The picker of [world0] at the end of [Release], holding [heldPart]: the
    cycle started 25 s before [clock0], past the end of the phase. *)
Definition releasingPicker : picker.PickerRobot :=
  let pr := pickerAt world0 (line.pickerRobot runner0) in
  let bm := with_state (picker.base pr) StateRunning (975 * Second) in
  let bm := with_CycleStartedAt bm (975 * Second) in
  let pr := picker.with_Phase (picker.with_base pr bm) picker.PhaseRelease in
  let pr := picker.with_Gripper pr picker.GripperOpening in
  picker.with_held pr (ID heldPart) (Some heldPart).

(** The store of [world0] with the welder's input buffer full. *)
Definition storeWelderFull : Store :=
  set_buffer (store world0)
    (spotwelder.GetInputBuffer (welder world0 (line.spotWelder runner0)))
    (mkPartBuffer 3 [partA; partB; partC]).

(** An order for a single part, in progress. *)
Definition orderOfOne : ProductionOrder :=
  mkOrder "LN-2026-01001" "RAIL-ASM-A01" "Side Rail Assembly" 1 0 0
          (2000 * Second) "AutoCorp Inc." 3 OrderStatusInProgress
          (900 * Second) 0.

(** The store of [world0] with [orderOfOne] at address 0. *)
Definition storeWithOrder : Store := snd (alloc_order (store world0) orderOfOne).

(** The forming machine of [world0] at the end of [Eject], working on the
    order at address 0: the cycle started 25 s before [clock0]. *)
Definition ejectingFormer : forming.FormingMachine :=
  let fm := former world0 (line.formingMachine runner0) in
  let bm := with_state (forming.base fm) StateRunning (975 * Second) in
  let bm := with_CycleStartedAt bm (975 * Second) in
  let bm := with_CurrentOrder bm (Some 0%nat) in
  let fm := forming.with_Phase (forming.with_base fm bm) forming.PhaseEject in
  forming.with_CurrentPartID fm "PART-2026-01-12-0001".

(** The same machine early in [Eject]: the cycle started 20 s before
    [clock0], before the end of the phase (24 s). *)
Definition earlyEjectingFormer : forming.FormingMachine :=
  forming.with_base ejectingFormer
    (with_CycleStartedAt (forming.base ejectingFormer) (980 * Second)).

(** The store of [storeWithOrder] with the forming output buffer full. *)
Definition storeFormingFull : Store :=
  set_buffer storeWithOrder (forming.GetOutputBuffer ejectingFormer)
    (mkPartBuffer 5 [partA; partB; partC; partD; partNamed "PART-2026-01-12-0005"]).

(** [storeFormingFull] after a consumer has popped one part from the
    forming output buffer. *)
Definition PopAtFormingOutput : Store :=
  let out := forming.GetOutputBuffer ejectingFormer in
  set_buffer storeFormingFull out (fst (Pop (buffer storeFormingFull out))).

(** The coordinator of [runner0] after [Start]: the line state is
    [Running]. *)
Definition startedCoordinator : ProductionLineCoordinator :=
  fst (Start clock0 (line.coordinator runner0) world0).

Definition startedWorld : World :=
  snd (Start clock0 (line.coordinator runner0) world0).

(** [startedWorld] with the forming press in [UnplannedStop] for an error
    that was due to end at 900 s, before the tick at 1000 s. *)
Definition recoveringWorld : World :=
  let f := line.formingMachine runner0 in
  let fm := former startedWorld f in
  let bm := with_state (forming.base fm) StateUnplannedStop (800 * Second) in
  let bm := with_CurrentError bm
              (Some (mkErrorInfo "F002" "Hydraulic system fault"
                                 (800 * Second) (900 * Second))) in
  set_former startedWorld f (forming.with_base fm bm).

(** [startedWorld] with the forming press [Running] in [Form], an error
    rate of 1 per cycle and a generator whose every draw is 0: the error
    roll of the next tick succeeds. *)
Definition failingWorld : World :=
  let f := line.formingMachine runner0 in
  let fm := former startedWorld f in
  let bm := forming.base fm in
  let bm := mkBaseMachine
              (mkMachineConfig EmptyString (30 * Second) (5 * Second) 0 1
                               Second None)
              (callbacks bm) StateRunning (990 * Second) (990 * Second)
              None [] 0 0 None [] in
  let fm := forming.with_Phase (forming.with_base fm bm) forming.PhaseForm in
  let fm := forming.with_noise fm
              (mkNoise (fun _ => 0%float) (fun _ => 0) 0 0) in
  set_former startedWorld f fm.

(** The welder of [world0] in [Setup] since 990 s: at [clock0] its setup
    time of 5 s has elapsed. *)
Definition settingUpWelder : spotwelder.SpotWelder :=
  let sw := welder world0 (line.spotWelder runner0) in
  spotwelder.with_base sw
    (with_state (spotwelder.base sw) StateSetup (990 * Second)).

(** The press of [world0], idle, with the order at address 0 queued. *)
Definition queuedFormer : forming.FormingMachine :=
  let fm := former world0 (line.formingMachine runner0) in
  forming.with_base fm (AddOrder (forming.base fm) 0%nat).

(** [startedWorld] in the middle of production: four parts of five in the
    forming output buffer and two of three in the welder's input buffer,
    the press at the end of [Eject], the picker at the end of [Release]
    holding [heldPart], the welder at the end of its setup. *)
Definition busyWorld : World :=
  let out := forming.GetOutputBuffer ejectingFormer in
  let inp := spotwelder.GetInputBuffer
               (welder world0 (line.spotWelder runner0)) in
  let st := set_buffer storeWithOrder out
              (mkPartBuffer 5 [partB; partC; partNamed "PART-2026-01-12-0005";
                               partNamed "PART-2026-01-12-0006"]) in
  let st := set_buffer st inp
              (mkPartBuffer 3 [partNamed "PART-2026-01-11-0998";
                               partNamed "PART-2026-01-11-0999"]) in
  let w := set_store startedWorld st in
  let w := set_former w (line.formingMachine runner0) ejectingFormer in
  let w := set_picker w (line.pickerRobot runner0) releasingPicker in
  set_welder w (line.spotWelder runner0) settingUpWelder.

(** The line of [config0] started with [SCRAP_RATE=NaN] in the
    environment: [strconv.ParseFloat] reads it as a NaN. *)
Definition configNaN : config.Config :=
  config.mkConfig "Line" Second (30 * Second) (5 * Second) nan 0.

Definition lineNaN : option (line.ProductionLineRunner * World) :=
  line.NewProductionLineRunner clock0 tape0 tape0 tape0 configNaN emptyWorld.

Definition worldNaN : World :=
  match lineNaN with Some (_, w) => w | None => emptyWorld end.

Definition handlerNaN : api.Handler :=
  api.mkHandler "production-line" "Line"
    (match lineNaN with Some (plr, _) => Some plr | None => None end).

(** A generator whose every integer draw is 7. *)
Definition tape7 : NoiseGenerator :=
  mkNoise (fun _ => 0.5%float) (fun _ => 7) 0 0.

(** The order generator for orders of 50 to 500 parts, on [tape7]. *)
Definition orderGenerator0 : line.OrderGenerator :=
  line.NewOrderGenerator tape7 (line.mkOrderConfig 50 500).

End Fixtures.

(* ================================================================== *)
(** * Properties *)

Import Go core coordinator Fixtures.

(** ** Order of binary64 values *)

Lemma SFcompare_antisym (x y : spec_float) :
  SFcompare y x = option_map CompOpp (SFcompare x y).
Proof.
  destruct x as [sx| sx| |sx mx ex], y as [sy| sy| |sy my ey]; simpl;
    try reflexivity;
    try (destruct sx; reflexivity);
    try (destruct sy; reflexivity);
    try (destruct sx, sy; reflexivity).
  destruct sx, sy; simpl; try reflexivity;
    rewrite (Z.compare_antisym ex ey);
    destruct (ex ?= ey) eqn:E; simpl; try reflexivity;
    change (Pos.compare_cont Eq my mx) with (Pos.compare my mx);
    change (Pos.compare_cont Eq mx my) with (Pos.compare mx my);
    rewrite (Pos.compare_antisym mx my); try reflexivity.
Qed.

(** [x <= y] excludes [y < x]. *)
Lemma float_leb_not_ltb (x y : float) :
  (x <=? y)%float = true -> (y <? x)%float = false.
Proof.
  rewrite FloatAxioms.leb_spec, FloatAxioms.ltb_spec.
  unfold SFleb, SFltb. rewrite (SFcompare_antisym (Prim2SF x) (Prim2SF y)).
  destruct (SFcompare (Prim2SF x) (Prim2SF y)) as [[]|]; simpl; congruence.
Qed.

(** [x < y] excludes [y <= x]. *)
Lemma float_ltb_not_leb (x y : float) :
  (x <? y)%float = true -> (y <=? x)%float = false.
Proof.
  rewrite FloatAxioms.leb_spec, FloatAxioms.ltb_spec.
  unfold SFleb, SFltb. rewrite (SFcompare_antisym (Prim2SF x) (Prim2SF y)).
  destruct (SFcompare (Prim2SF x) (Prim2SF y)) as [[]|]; simpl; congruence.
Qed.

(** Two values that are not NaN are comparable. *)
Lemma float_total (x y : float) :
  (x =? x)%float = true -> (y =? y)%float = true ->
  (x <=? y)%float = false -> (y <? x)%float = true.
Proof.
  rewrite !FloatAxioms.eqb_spec, FloatAxioms.leb_spec, FloatAxioms.ltb_spec.
  unfold SFeqb, SFleb, SFltb.
  rewrite (SFcompare_antisym (Prim2SF x) (Prim2SF y)).
  destruct (Prim2SF x) as [sx| sx| |sx mx ex], (Prim2SF y) as [sy| sy| |sy my ey];
    simpl; try congruence; intros _ _;
    repeat match goal with
           | |- context [if ?b then _ else _] => destruct b; simpl
           | |- context [match ?c with Eq => _ | Lt => _ | Gt => _ end] =>
               destruct c; simpl
           end; congruence.
Qed.

(** ** The runtime configuration *)

Section Setters.
Variable rc : config.RuntimeConfig.
Variable v : float.

Lemma SetCycleTimeScale_accepts :
  (0.1 <=? v)%float = true -> (v <=? 10.0)%float = true ->
  config.SetCycleTimeScale rc v
  = (config.mkRuntimeConfig v (config.scrapRate rc) (config.errorRate rc)
       (config.baseCycleTime rc) (config.baseSetupTime rc), None).
Proof.
  intros Hlo Hhi. unfold config.SetCycleTimeScale.
  rewrite (float_leb_not_ltb _ _ Hlo), (float_leb_not_ltb _ _ Hhi).
  reflexivity.
Qed.

Lemma SetCycleTimeScale_rejects :
  (v <? 0.1)%float = true \/ (10.0 <? v)%float = true ->
  exists e, config.SetCycleTimeScale rc v = (rc, Some e).
Proof.
  intros H. unfold config.SetCycleTimeScale.
  destruct H as [H | H]; rewrite H; [|rewrite orb_true_r]; eauto.
Qed.

Lemma SetScrapRate_accepts :
  (0.0 <=? v)%float = true -> (v <=? 0.5)%float = true ->
  config.SetScrapRate rc v
  = (config.mkRuntimeConfig (config.cycleTimeScale rc) v (config.errorRate rc)
       (config.baseCycleTime rc) (config.baseSetupTime rc), None).
Proof.
  intros Hlo Hhi. unfold config.SetScrapRate.
  rewrite (float_leb_not_ltb _ _ Hlo), (float_leb_not_ltb _ _ Hhi).
  reflexivity.
Qed.

Lemma SetScrapRate_rejects :
  (v <? 0.0)%float = true \/ (0.5 <? v)%float = true ->
  exists e, config.SetScrapRate rc v = (rc, Some e).
Proof.
  intros H. unfold config.SetScrapRate.
  destruct H as [H | H]; rewrite H; [|rewrite orb_true_r]; eauto.
Qed.

Lemma SetErrorRate_accepts :
  (0.0 <=? v)%float = true -> (v <=? 0.2)%float = true ->
  config.SetErrorRate rc v
  = (config.mkRuntimeConfig (config.cycleTimeScale rc) (config.scrapRate rc) v
       (config.baseCycleTime rc) (config.baseSetupTime rc), None).
Proof.
  intros Hlo Hhi. unfold config.SetErrorRate.
  rewrite (float_leb_not_ltb _ _ Hlo), (float_leb_not_ltb _ _ Hhi).
  reflexivity.
Qed.

Lemma SetErrorRate_rejects :
  (v <? 0.0)%float = true \/ (0.2 <? v)%float = true ->
  exists e, config.SetErrorRate rc v = (rc, Some e).
Proof.
  intros H. unfold config.SetErrorRate.
  destruct H as [H | H]; rewrite H; [|rewrite orb_true_r]; eauto.
Qed.

End Setters.

(** Among the values that are numbers, being below the minimum or above
    the maximum is the same as not being between them: the two halves of
    the setter contract leave no number out. *)
Lemma outside_iff_not_inside (lo hi v : float) :
  (lo =? lo)%float = true -> (hi =? hi)%float = true ->
  (v =? v)%float = true ->
  ((v <? lo)%float = true \/ (hi <? v)%float = true)
  <-> ((lo <=? v)%float && (v <=? hi)%float = false).
Proof.
  intros Hlo Hhi Hv. split.
  - intros [H | H].
    + rewrite (float_ltb_not_leb _ _ H). reflexivity.
    + rewrite (float_ltb_not_leb _ _ H). apply andb_false_r.
  - intros H. apply andb_false_iff in H as [H | H].
    + left. apply float_total; assumption.
    + right. apply float_total; assumption.
Qed.

(** Each setter of the runtime configuration, called with a value between
    its bounds (cycle time scale 0.1 to 10.0, scrap rate 0 to 0.5, error
    rate 0 to 0.2), returns no error, and the getter then returns exactly
    that value while all other fields are as before; called with a value
    below the minimum or above the maximum it returns an error and the
    configuration is the one before the call. *)
Lemma RuntimeConfig_setters_on_numbers (rc : config.RuntimeConfig) (v : float) :
  ((0.1 <=? v)%float = true -> (v <=? 10.0)%float = true ->
   let rc' := fst (config.SetCycleTimeScale rc v) in
   snd (config.SetCycleTimeScale rc v) = None
   /\ config.GetCycleTimeScale rc' = v
   /\ config.GetScrapRate rc' = config.GetScrapRate rc
   /\ config.GetErrorRate rc' = config.GetErrorRate rc
   /\ config.baseCycleTime rc' = config.baseCycleTime rc
   /\ config.baseSetupTime rc' = config.baseSetupTime rc)
  /\ ((v <? 0.1)%float = true \/ (10.0 <? v)%float = true ->
      fst (config.SetCycleTimeScale rc v) = rc
      /\ snd (config.SetCycleTimeScale rc v) <> None)
  /\ ((0.0 <=? v)%float = true -> (v <=? 0.5)%float = true ->
      let rc' := fst (config.SetScrapRate rc v) in
      snd (config.SetScrapRate rc v) = None
      /\ config.GetScrapRate rc' = v
      /\ config.GetCycleTimeScale rc' = config.GetCycleTimeScale rc
      /\ config.GetErrorRate rc' = config.GetErrorRate rc
      /\ config.baseCycleTime rc' = config.baseCycleTime rc
      /\ config.baseSetupTime rc' = config.baseSetupTime rc)
  /\ ((v <? 0.0)%float = true \/ (0.5 <? v)%float = true ->
      fst (config.SetScrapRate rc v) = rc
      /\ snd (config.SetScrapRate rc v) <> None)
  /\ ((0.0 <=? v)%float = true -> (v <=? 0.2)%float = true ->
      let rc' := fst (config.SetErrorRate rc v) in
      snd (config.SetErrorRate rc v) = None
      /\ config.GetErrorRate rc' = v
      /\ config.GetCycleTimeScale rc' = config.GetCycleTimeScale rc
      /\ config.GetScrapRate rc' = config.GetScrapRate rc
      /\ config.baseCycleTime rc' = config.baseCycleTime rc
      /\ config.baseSetupTime rc' = config.baseSetupTime rc)
  /\ ((v <? 0.0)%float = true \/ (0.2 <? v)%float = true ->
      fst (config.SetErrorRate rc v) = rc
      /\ snd (config.SetErrorRate rc v) <> None).
Proof.
  repeat apply conj.
  - intros Hlo Hhi. rewrite (SetCycleTimeScale_accepts rc v Hlo Hhi).
    repeat split.
  - intros H. destruct (SetCycleTimeScale_rejects rc v H) as [e ->].
    split; [reflexivity | discriminate].
  - intros Hlo Hhi. rewrite (SetScrapRate_accepts rc v Hlo Hhi).
    repeat split.
  - intros H. destruct (SetScrapRate_rejects rc v H) as [e ->].
    split; [reflexivity | discriminate].
  - intros Hlo Hhi. rewrite (SetErrorRate_accepts rc v Hlo Hhi).
    repeat split.
  - intros H. destruct (SetErrorRate_rejects rc v H) as [e ->].
    split; [reflexivity | discriminate].
Qed.

Lemma RuntimeConfig_setters_on_numbers_example :
  config.GetCycleTimeScale (fst (config.SetCycleTimeScale sampleRuntime 2.5))
  = 2.5%float
  /\ fst (config.SetScrapRate sampleRuntime 0.75) = sampleRuntime.
Proof.
  split.
  - apply (proj1 (RuntimeConfig_setters_on_numbers sampleRuntime 2.5));
      reflexivity.
  - apply (proj1 (proj2 (proj2 (proj2
             (RuntimeConfig_setters_on_numbers sampleRuntime 0.75))))).
    right. reflexivity.
Defined.


(** ** The store *)

Lemma runtime_set_runtime (st : Store) (p : nat) (rc : config.RuntimeConfig) :
  (p < length (runtimes st))%nat -> runtime (set_runtime st p rc) p = rc.
Proof.
  intros H. unfold runtime, set_runtime, Heap.deref, Heap.assign. simpl.
  apply list_lookup_total_insert_eq. exact H.
Qed.

Lemma runtimes_set_runtime (st : Store) (p : nat) (rc : config.RuntimeConfig) :
  length (runtimes (set_runtime st p rc)) = length (runtimes st).
Proof. unfold set_runtime, Heap.assign. simpl. apply length_insert. Qed.

Lemma SetAt_accepts (st : Store) (p : nat) set (v : float) rc' :
  set (runtime st p) v = (rc', None) ->
  SetAt st p set v = (set_runtime st p rc', None).
Proof. intros H. unfold SetAt. rewrite H. reflexivity. Qed.


(** ** The configuration endpoint *)

Import Invariants.

(** A value between the bounds of a setter passes its guard. *)
Lemma within_not_refused (lo hi : float) (field : option float) :
  absentOrWithin lo hi field -> refused lo hi field = false.
Proof.
  destruct field as [v|]; [|reflexivity]. intros [Hlo Hhi]. cbn.
  rewrite (float_leb_not_ltb _ _ Hlo), (float_leb_not_ltb _ _ Hhi).
  reflexivity.
Qed.








(** ** The part buffer *)

Lemma NewPartBuffer_Some (cap : Z) (pb : PartBuffer) :
  NewPartBuffer cap = Some pb -> 0 <= cap /\ pb = mkPartBuffer cap [].
Proof.
  unfold NewPartBuffer. destruct (cap <? 0) eqn:E; [discriminate|].
  intros [= <-]. split; [lia | reflexivity].
Qed.

Lemma len_app {A : Type} (l : list A) (x : A) : len (l ++ [x]) = len l + 1.
Proof. unfold len. rewrite length_app. simpl. lia. Qed.

Lemma len_nonneg {A : Type} (l : list A) : 0 <= len l.
Proof. unfold len. lia. Qed.

(** One operation keeps the capacity and the bound on the count. *)
Lemma step_bounded (pb : PartBuffer) (op : BufferTrace.Op) :
  len (Queue pb) <= MaxCapacity pb ->
  MaxCapacity (BufferTrace.step pb op) = MaxCapacity pb
  /\ len (Queue (BufferTrace.step pb op)) <= MaxCapacity pb.
Proof.
  intros H. destruct op as [part| |]; simpl.
  - unfold Push. destruct (MaxCapacity pb <=? len (Queue pb)) eqn:E; simpl.
    + auto.
    + rewrite len_app. split; [reflexivity | lia].
  - unfold Pop. destruct (Queue pb) as [|part rest] eqn:E; simpl.
    + rewrite E. auto.
    + split; [reflexivity|]. unfold len in *. simpl in H. lia.
  - auto.
Qed.

Lemma run_bounded (ops : list BufferTrace.Op) (pb : PartBuffer) :
  len (Queue pb) <= MaxCapacity pb ->
  MaxCapacity (BufferTrace.run pb ops) = MaxCapacity pb
  /\ len (Queue (BufferTrace.run pb ops)) <= MaxCapacity pb.
Proof.
  revert pb. induction ops as [|op ops IH]; intros pb H; simpl.
  - auto.
  - destruct (step_bounded pb op H) as [Hc Hl].
    destruct (IH (BufferTrace.step pb op)) as [Hc' Hl']; [lia|].
    split; lia.
Qed.

(** First in, first out: what was accepted is what was popped, followed by
    what is still queued. *)
Lemma run_fifo (ops : list BufferTrace.Op) (pb : PartBuffer) :
  Queue pb ++ BufferTrace.accepted pb ops
  = BufferTrace.popped pb ops ++ Queue (BufferTrace.run pb ops).
Proof.
  revert pb. induction ops as [|op ops IH]; intros pb; simpl.
  - rewrite app_nil_r. reflexivity.
  - rewrite <- app_assoc, <- IH. rewrite !app_assoc. f_equal.
    destruct op as [part| |]; simpl.
    + unfold Push. destruct (MaxCapacity pb <=? len (Queue pb)); simpl;
        rewrite ?app_nil_r; reflexivity.
    + unfold Pop. destruct (Queue pb) as [|part rest] eqn:E; simpl;
        rewrite ?app_nil_r, ?E; reflexivity.
    + rewrite app_nil_r. reflexivity.
Qed.

(** C7.  A buffer made by [NewPartBuffer cap], after any sequence of
    [Push], [Pop] and [Peek]: its count is between 0 and [cap]; [Push]
    returns false exactly when the count equals [cap], then leaves the
    buffer as it is and otherwise appends the part at the end; [Pop]
    misses exactly when the buffer is empty and otherwise removes and
    returns the part at the front, which [Peek] shows; and the parts
    accepted so far are the parts popped so far followed by the parts still
    queued, in order, so the front is the oldest accepted part that is
    still present. *)
Theorem PartBuffer_bounded_fifo
    (cap : Z) (b0 : PartBuffer) (ops : list BufferTrace.Op) :
  NewPartBuffer cap = Some b0 ->
  let b := BufferTrace.run b0 ops in
  0 <= Count b <= cap
  /\ (forall part, snd (Push b part) = false <-> Count b = cap)
  /\ (forall part, snd (Push b part) = false -> fst (Push b part) = b)
  /\ (forall part, snd (Push b part) = true ->
        fst (Push b part) = mkPartBuffer cap (Queue b ++ [part]))
  /\ (snd (Pop b) = None <-> Count b = 0)
  /\ (snd (Pop b) = None -> fst (Pop b) = b)
  /\ (forall part, snd (Pop b) = Some part ->
        exists rest, Queue b = part :: rest
                     /\ fst (Pop b) = mkPartBuffer cap rest)
  /\ Peek b = snd (Pop b)
  /\ BufferTrace.accepted b0 ops = BufferTrace.popped b0 ops ++ Queue b.
Proof.
  intros Hnew b. apply NewPartBuffer_Some in Hnew as [Hcap ->].
  destruct (run_bounded ops (mkPartBuffer cap [])) as [Hc Hl];
    [simpl; exact Hcap|].
  fold b in Hc, Hl. simpl in Hc, Hl.
  pose proof (len_nonneg (Queue b)) as H0.
  pose proof (run_fifo ops (mkPartBuffer cap [])) as Hfifo.
  fold b in Hfifo. simpl in Hfifo.
  unfold Count, Push, Pop, Peek. rewrite Hc.
  split_and!.
  - exact H0.
  - exact Hl.
  - intros part. destruct (cap <=? len (Queue b)) eqn:E; simpl.
    + split; [lia | reflexivity].
    + split; [discriminate | lia].
  - intros part. destruct (cap <=? len (Queue b)); simpl;
      [reflexivity | discriminate].
  - intros part. destruct (cap <=? len (Queue b)); simpl;
      [discriminate | reflexivity].
  - destruct (Queue b) as [|part rest]; simpl.
    + split; intros _; reflexivity.
    + split; intros H; [discriminate H | unfold len in H; simpl in H; lia].
  - destruct (Queue b) as [|part rest]; simpl;
      [reflexivity | discriminate].
  - intros part. destruct (Queue b) as [|front rest]; simpl;
      [discriminate|]. intros [= ->]. exists rest. split; reflexivity.
  - destruct (Queue b); reflexivity.
  - exact Hfifo.
Qed.

Lemma PartBuffer_bounded_fifo_witness :
  let b := BufferTrace.run (mkPartBuffer 2 [])
             [BufferTrace.OpPush partA; BufferTrace.OpPush partB;
              BufferTrace.OpPush partC; BufferTrace.OpPop;
              BufferTrace.OpPeek] in
  NewPartBuffer 2 = Some (mkPartBuffer 2 [])
  /\ 0 <= Count b <= 2
  /\ Peek b = snd (Pop b).
Proof.
  pose proof (PartBuffer_bounded_fifo 2 (mkPartBuffer 2 [])
                [BufferTrace.OpPush partA; BufferTrace.OpPush partB;
                 BufferTrace.OpPush partC; BufferTrace.OpPop;
                 BufferTrace.OpPeek] eq_refl) as H.
  split; [reflexivity|]. split; [exact (proj1 H)|].
  exact (proj1 (proj2 (proj2 (proj2 (proj2 (proj2 (proj2 (proj2 H)))))))).
Defined.

(** ** The base machine *)

Lemma MachineState_eqb_eq (a b : MachineState) :
  MachineState_eqb a b = true <-> a = b.
Proof. destruct a, b; simpl; split; congruence. Qed.

Lemma MachineState_eqb_refl (a : MachineState) : MachineState_eqb a a = true.
Proof. destruct a; reflexivity. Qed.

Lemma MachineState_eqb_neq (a b : MachineState) :
  MachineState_eqb a b = false <-> a <> b.
Proof. destruct a, b; simpl; split; congruence. Qed.

(** C8.  [TransitionTo s] on a machine already in state [s] returns the
    machine as it is: same state, same [StateEnteredAt], no callback fired.
    From another state it sets the state to [s], stamps [StateEnteredAt]
    with the current time, leaves every other field alone and calls
    [OnStateChange(old, s)] once: exactly one event is added to what the
    machine has fired when the callback is registered (a nil callback cannot
    be called, and nothing is fired then). *)
Theorem TransitionTo_idempotent_or_fires_once
    (wall : Time) (bm : BaseMachine) (s : MachineState) :
  (State bm = s -> TransitionTo wall bm s = bm)
  /\ (State bm <> s ->
      let bm' := TransitionTo wall bm s in
      State bm' = s
      /\ StateEnteredAt bm' = wall
      /\ fired bm'
         = fired bm ++ (if OnStateChange (callbacks bm)
                        then [StateChange (State bm) s] else [])
      /\ core.config bm' = core.config bm
      /\ callbacks bm' = callbacks bm
      /\ CycleStartedAt bm' = CycleStartedAt bm
      /\ CurrentOrder bm' = CurrentOrder bm
      /\ OrderQueue bm' = OrderQueue bm
      /\ GoodParts bm' = GoodParts bm
      /\ ScrapParts bm' = ScrapParts bm
      /\ CurrentError bm' = CurrentError bm).
Proof.
  unfold TransitionTo, State. split.
  - intros <-. rewrite MachineState_eqb_refl. reflexivity.
  - intros Hne. apply MachineState_eqb_neq in Hne. rewrite Hne.
    unfold fire. simpl.
    destruct (OnStateChange (callbacks bm)); simpl;
      rewrite ?app_nil_r; repeat split.
Qed.

Lemma TransitionTo_idempotent_or_fires_once_witness :
  TransitionTo (1000 * Second) observedMachine StateRunning = observedMachine
  /\ fired (TransitionTo (1000 * Second) observedMachine StateIdle)
     = [StateChange StateRunning StateIdle]
  /\ StateEnteredAt (TransitionTo (1000 * Second) observedMachine StateIdle)
     = 1000 * Second.
Proof.
  split.
  - apply (proj1 (TransitionTo_idempotent_or_fires_once
                    (1000 * Second) observedMachine StateRunning)).
    reflexivity.
  - destruct (proj2 (TransitionTo_idempotent_or_fires_once
                       (1000 * Second) observedMachine StateIdle))
      as (_ & Hat & Hfired & _); [discriminate|].
    split; [exact Hfired | exact Hat].
Defined.

(** ** Wiring of the line *)

Lemma pickerAt_set_picker (w : World) (p : nat) (pr : picker.PickerRobot) :
  (p < length (pickers w))%nat -> pickerAt (set_picker w p pr) p = pr.
Proof.
  intros H. unfold pickerAt, set_picker, Heap.deref, Heap.assign. simpl.
  apply list_lookup_total_insert_eq. exact H.
Qed.

(** [SetMachines] with a picker and a welder gives the picker a buffer of
    its own making: the address is fresh, so it is not the address of any
    buffer that existed before, the welder's input buffer among them. *)
Lemma SetMachines_output_is_fresh
    (c c' : ProductionLineCoordinator) (w w' : World) (f : option nat)
    (p s : nat) :
  (p < length (pickers w))%nat ->
  SetMachines c w f (Some p) (Some s) = Some (c', w') ->
  picker.outputBuffer (pickerAt w' p) = Some (length (buffers (store w)))
  /\ welders w' = welders w
  /\ forall q, (q < length (buffers (store w)))%nat ->
               buffer (store w') q = buffer (store w) q.
Proof.
  intros Hp. unfold SetMachines. simpl.
  destruct (NewPartBuffer (WelderBufferCapacity (config c))) as [pb|];
    [|discriminate].
  destruct f as [f|]; intros [= <- <-]; simpl.
  - rewrite pickerAt_set_picker
      by (simpl; unfold Heap.assign; rewrite length_insert; exact Hp).
    split; [reflexivity|]. split; [reflexivity|].
    intros q Hq. unfold buffer, Heap.deref. simpl.
    apply lookup_total_app_l. exact Hq.
  - rewrite pickerAt_set_picker by exact Hp.
    split; [reflexivity|]. split; [reflexivity|].
    intros q Hq. unfold buffer, Heap.deref. simpl.
    apply lookup_total_app_l. exact Hq.
Qed.

(** C1, on the code.  After [SetMachines] alone on three fresh machines,
    the picker's input buffer is the forming machine's output buffer
    (capacity 5), but its output buffer is a new buffer (capacity 3) at
    another address than the welder's input buffer (capacity 3): a part
    pushed into the picker's output buffer does not reach the buffer the
    welder consumes from. *)
Theorem SetMachines_does_not_connect_welder :
  match wiredBySetMachines with
  | Some (c, w) =>
      let pr := pickerAt w 0 in
      let welderInput := spotwelder.GetInputBuffer (welder w 0) in
      picker.inputBuffer pr = Some (forming.GetOutputBuffer (former w 0))
      /\ MaxCapacity (buffer (store w) (forming.GetOutputBuffer (former w 0)))
         = 5
      /\ MaxCapacity (buffer (store w) welderInput) = 3
      /\ picker.outputBuffer pr = Some 2%nat
      /\ welderInput = 1%nat
      /\ MaxCapacity (buffer (store w) 2) = 3
      /\ snd (PushAt (store w) 2 partA) = true
      /\ Count (buffer (fst (PushAt (store w) 2 partA)) 2) = 1
      /\ Count (buffer (fst (PushAt (store w) 2 partA)) welderInput) = 0
  | None => False
  end.
Proof. vm_compute. repeat split. Qed.

(** The line runner rewires the picker after [SetMachines]: in the line it
    sets up, the picker pushes into the very buffer the welder pops from,
    and takes from the forming machine's output buffer. *)
Lemma NewProductionLineRunner_connects_welder
    (clk : Clock) (ngF ngP ngW : NoiseGenerator) (cfg : config.Config) :
  exists plr w,
    line.NewProductionLineRunner clk ngF ngP ngW cfg emptyWorld = Some (plr, w)
    /\ let pr := pickerAt w (line.pickerRobot plr) in
       let sw := welder w (line.spotWelder plr) in
       let fm := former w (line.formingMachine plr) in
       picker.outputBuffer pr = Some (spotwelder.GetInputBuffer sw)
       /\ picker.inputBuffer pr = Some (forming.GetOutputBuffer fm)
       /\ MaxCapacity (buffer (store w) (spotwelder.GetInputBuffer sw)) = 3
       /\ MaxCapacity (buffer (store w) (forming.GetOutputBuffer fm)) = 5.
Proof.
  destruct (line.NewProductionLineRunner clk ngF ngP ngW cfg emptyWorld)
    as [[plr w]|] eqn:E; vm_compute in E; [|discriminate E].
  exists plr, w. split; [reflexivity|].
  injection E as <- <-. vm_compute. repeat split.
Qed.

(** ** The picker's cycle time *)

(** In the line that the runner sets up the picker's configuration carries
    a third of the configured cycle time, but also the shared runtime
    configuration, and the effective cycle time comes from the latter: it
    is the full base cycle time divided by the scale, for every state of
    the runtime configuration, as for the other two machines. *)
Lemma picker_cycle_time_follows_runtime
    (clk : Clock) (ngF ngP ngW : NoiseGenerator) (cfg : config.Config) :
  exists plr w,
    line.NewProductionLineRunner clk ngF ngP ngW cfg emptyWorld = Some (plr, w)
    /\ let mc := Config (picker.base (pickerAt w (line.pickerRobot plr))) in
       CycleTime mc = Z.quot (config.CycleTime cfg) 3
       /\ forall rc : config.RuntimeConfig,
            GetEffectiveCycleTime mc
              (set_runtime (store w) (line.GetRuntimeConfig plr) rc)
            = int64 (float64 (config.baseCycleTime rc)
                     / config.cycleTimeScale rc)%float.
Proof.
  destruct (line.NewProductionLineRunner clk ngF ngP ngW cfg emptyWorld)
    as [[plr w]|] eqn:E; vm_compute in E; [|discriminate E].
  exists plr, w. split; [reflexivity|].
  injection E as <- <-. split; [reflexivity|]. intros rc. reflexivity.
Qed.

(** C5, on the code.  With a base cycle of 30 s the runner stores 10 s in
    the picker's configuration, yet the picker's effective cycle time is
    30 s at scale 1 and 15 s at scale 2: the full base cycle over the
    scale.  Two seconds into a cycle the picker is still in its first
    phase, which a 10 s cycle would have ended after 1.5 s, and its cycle
    progress is below 7 percent, not 20. *)
Theorem picker_cycle_time_is_not_a_third :
  let pr := pickerAt world0 (line.pickerRobot runner0) in
  let mc := Config (picker.base pr) in
  config.CycleTime config0 = 30 * Second
  /\ CycleTime mc = 10 * Second
  /\ GetEffectiveCycleTime mc (store world0) = 30 * Second
  /\ GetEffectiveCycleTime mc
       (fst (SetAt (store world0) (line.GetRuntimeConfig runner0)
               config.SetCycleTimeScale 2))
     = 15 * Second
  /\ picker.moveToPickupEnd picker.DefaultPickerConfig (10 * Second)
     = 1500 * Millisecond
  /\ picker.moveToPickupEnd picker.DefaultPickerConfig
       (GetEffectiveCycleTime mc (store world0))
     = 4500 * Millisecond
  /\ ElapsedInCycle (wall clock0) (picker.base movingPicker) = 2 * Second
  /\ picker.Phase
       (picker.pickerState
          (fst (picker.Update clock0 movingPicker (store world0)
                  (1000 * Second) false)))
     = picker.PhaseMoveToPickup
  /\ (picker.GetCycleProgress clock0 movingPicker (store world0) <? 7)%float
     = true.
Proof. vm_compute. repeat split. Qed.

(** ** Order counters of the forming press *)

Lemma order_set_order (st : Store) (p : nat) (o : ProductionOrder) :
  (p < length (orders st))%nat -> order (set_order st p o) p = o.
Proof.
  intros H. unfold order, set_order, Heap.deref, Heap.assign. simpl.
  apply list_lookup_total_insert_eq. exact H.
Qed.

Lemma orders_set_order (st : Store) (p : nat) (o : ProductionOrder) :
  length (orders (set_order st p o)) = length (orders st).
Proof. unfold set_order, Heap.assign. simpl. apply length_insert. Qed.

(** A good part that fits into the output buffer adds two to the completed
    count of the current order: once in [ejectPart] itself and once more in
    [CompleteCycle]. *)
Lemma ejectPart_counts_good_part_twice
    (fm : forming.FormingMachine) (st : Store) (now : Time) (o : nat) :
  CurrentOrder (forming.base fm) = Some o ->
  (o < length (orders st))%nat ->
  fst (Bool (forming.noise fm) (ScrapRate (Config (forming.base fm)))) = false ->
  IsFull (buffer st (forming.OutputBuffer (forming.formState fm))) = false ->
  QuantityCompleted (order (snd (forming.ejectPart fm st now)) o)
  = incr (incr (QuantityCompleted (order st o)))
  /\ GoodParts (forming.base (fst (forming.ejectPart fm st now)))
     = incr (incr (GoodParts (forming.base fm))).
Proof.
  intros Ho Hvalid Hgood Hroom. unfold forming.ejectPart.
  unfold Bool in *. destruct (Float64 (forming.noise fm)) as [r ng].
  simpl in Hgood. rewrite Hgood. simpl. rewrite Ho.
  unfold Push. unfold IsFull in Hroom. rewrite Hroom. simpl.
  unfold CompleteCycle. simpl. rewrite Ho. simpl.
  split;
    [|unfold fire; destruct (OnCycleComplete (callbacks (forming.base fm)));
      reflexivity].
  rewrite order_set_order by (rewrite orders_set_order; simpl; exact Hvalid).
  simpl. rewrite order_set_order by (simpl; exact Hvalid).
  reflexivity.
Qed.

(** C2, on the code.  An order for one part, nothing made yet; the forming
    press reaches the end of [Eject] with room in its buffer and a good
    part.  After this one [Update] one part is in the buffer, and the
    order counts two completed parts out of one: completed plus scrap
    exceeds the quantity. *)
Theorem forming_eject_counts_order_twice :
  let r := forming.Update clock0 ejectingFormer storeWithOrder
             (1000 * Second) false in
  let before := order storeWithOrder 0 in
  let after := order (snd r) 0 in
  CurrentOrder (forming.base ejectingFormer) = Some 0%nat
  /\ Quantity before = 1
  /\ QuantityCompleted before = 0
  /\ QuantityScrap before = 0
  /\ forming.Phase (forming.formState (fst r)) = forming.PhaseRaise
  /\ Count (buffer (snd r) (forming.GetOutputBuffer (fst r))) = 1
  /\ Quantity after = 1
  /\ QuantityCompleted after = 2
  /\ QuantityScrap after = 0
  /\ GoodParts (forming.base (fst r)) = 2
  /\ Quantity after < QuantityCompleted after + QuantityScrap after.
Proof. vm_compute. repeat split. Qed.

(** ** The hand-off from the picker to the welder *)

(** At the end of [Release] the picker lets go of the part it holds and
    moves on, whatever [Push] answered: with a full output buffer the
    store is left as it was. *)
Lemma updateRelease_lets_go
    (clk : Clock) (pr : picker.PickerRobot) (st : Store)
    (elapsed phaseStart phaseEnd : Duration) (now : Time) (held : Part) :
  phaseEnd <= elapsed ->
  picker.HeldPart (picker.pickerState pr) = Some held ->
  let r := picker.updateRelease clk pr st elapsed phaseStart phaseEnd now in
  picker.HeldPart (picker.pickerState (fst r)) = None
  /\ picker.HeldPartID (picker.pickerState (fst r)) = EmptyString
  /\ picker.Phase (picker.pickerState (fst r)) = picker.PhaseRetractPlace
  /\ forall out, picker.outputBuffer pr = Some out ->
                 IsFull (buffer st out) = true -> snd r = st.
Proof.
  intros Hend Hheld. unfold picker.updateRelease.
  apply Z.leb_le in Hend. rewrite Hend. simpl. rewrite Hheld. simpl.
  repeat split. intros out Hout Hfull. rewrite Hout.
  unfold PushAt, Push. unfold IsFull in Hfull. rewrite Hfull. reflexivity.
Qed.

(** C3, on the code.  The picker holds a part at the end of [Release]
    while the welder's input buffer holds three parts out of three.  After
    this [Update] the picker is in [RetractPlace] and holds nothing, and
    the buffers are as before: the part is in no buffer and in no hand. *)
Theorem picker_drops_part_when_welder_buffer_full :
  let out := spotwelder.GetInputBuffer
               (welder world0 (line.spotWelder runner0)) in
  let r := picker.Update clock0 releasingPicker storeWelderFull
             (1000 * Second) false in
  picker.outputBuffer releasingPicker = Some out
  /\ IsFull (buffer storeWelderFull out) = true
  /\ State (picker.base releasingPicker) = StateRunning
  /\ picker.Phase (picker.pickerState releasingPicker) = picker.PhaseRelease
  /\ picker.HeldPartID (picker.pickerState releasingPicker)
     = "PART-2026-01-12-0004"%string
  /\ State (picker.base (fst r)) = StateRunning
  /\ picker.Phase (picker.pickerState (fst r)) = picker.PhaseRetractPlace
  /\ picker.HeldPartID (picker.pickerState (fst r)) = EmptyString
  /\ picker.HeldPart (picker.pickerState (fst r)) = None
  /\ map (fun pb => map ID (Queue pb)) (buffers (snd r))
     = [[]; ["PART-2026-01-12-0001"; "PART-2026-01-12-0002";
             "PART-2026-01-12-0003"]; []]%string.
Proof. vm_compute. repeat split. Qed.

(** ** The forming press at [Eject] *)

Lemma buffer_set_buffer (st : Store) (p : nat) (pb : PartBuffer) :
  (p < length (buffers st))%nat -> buffer (set_buffer st p pb) p = pb.
Proof.
  intros H. unfold buffer, set_buffer, Heap.deref, Heap.assign. simpl.
  apply list_lookup_total_insert_eq. exact H.
Qed.

Lemma buffer_set_order (st : Store) (o p : nat) (x : ProductionOrder) :
  buffer (set_order st o x) p = buffer st p.
Proof. reflexivity. Qed.

(** Counting a cycle touches orders and counters, not buffers. *)
Lemma CompleteCycle_keeps (bm : BaseMachine) (st : Store) (isScrap : bool) :
  buffers (snd (CompleteCycle bm st isScrap)) = buffers st
  /\ State (fst (CompleteCycle bm st isScrap)) = State bm.
Proof.
  unfold CompleteCycle, fire. destruct bm as [cfg cb s t1 t2 o q g sc e f].
  destruct isScrap, o, cb as [c1 [] c3 c4 c5]; simpl; split; reflexivity.
Qed.

(** A good part that fits is appended to the output buffer; the phase
    state and the machine state are not touched. *)
Lemma ejectPart_pushes_good_part
    (fm : forming.FormingMachine) (st : Store) (now : Time) :
  let out := forming.OutputBuffer (forming.formState fm) in
  fst (Bool (forming.noise fm) (ScrapRate (Config (forming.base fm)))) = false ->
  IsFull (buffer st out) = false ->
  (out < length (buffers st))%nat ->
  let r := forming.ejectPart fm st now in
  forming.formState (fst r) = forming.formState fm
  /\ State (forming.base (fst r)) = State (forming.base fm)
  /\ ScrapParts (forming.base (fst r)) = ScrapParts (forming.base fm)
  /\ exists part,
       ID part = forming.CurrentPartID (forming.formState fm)
       /\ PartStatusOf part = PartStatusAwaitingPickup
       /\ Queue (buffer (snd r) out) = Queue (buffer st out) ++ [part].
Proof.
  intros out Hgood Hroom Hvalid. unfold forming.ejectPart.
  unfold Bool in *. destruct (Float64 (forming.noise fm)) as [x ng].
  simpl in Hgood. rewrite Hgood. simpl.
  unfold Push. unfold IsFull in Hroom. fold out. rewrite Hroom. simpl.
  destruct (CurrentOrder (forming.base fm)) as [o|] eqn:Ho; simpl;
    unfold CompleteCycle, fire; simpl; rewrite ?Ho; simpl;
    destruct (OnCycleComplete (callbacks (forming.base fm))); simpl;
    (split; [reflexivity|]; split; [reflexivity|]; split; [reflexivity|];
     eexists; split; [|split]).
  all: try (rewrite ?buffer_set_order, buffer_set_buffer by exact Hvalid;
            simpl; reflexivity).
  all: reflexivity.
Qed.

(** C4, counterexample.  The claim that [Update] never leaves [Eject]
    while the output buffer is full fails when a break begins: the machine
    goes to [PlannedStop] and its phase to [Idle].  The claim that the
    first tick with space ejects the part fails when that tick comes
    before the end of the [Eject] window: here 20 s into a cycle whose
    window ends at 24 s, with four parts in a buffer of five, the machine
    stays in [Eject] and the buffer keeps its four parts. *)
Lemma forming_Eject_left_on_break_and_kept_before_window_end :
  let out := forming.GetOutputBuffer ejectingFormer in
  let onBreak := forming.Update clock0 ejectingFormer storeFormingFull
                   (1000 * Second) true in
  let afterPop := PopAtFormingOutput in
  let early := forming.Update clock0 earlyEjectingFormer afterPop
                 (1000 * Second) false in
  (State (forming.base ejectingFormer) = StateRunning
   /\ forming.Phase (forming.formState ejectingFormer) = forming.PhaseEject
   /\ IsFull (buffer storeFormingFull out) = true
   /\ forming.Phase (forming.formState (fst onBreak)) = forming.PhaseIdle
   /\ State (forming.base (fst onBreak)) = StatePlannedStop)
  /\ (State (forming.base earlyEjectingFormer) = StateRunning
      /\ forming.Phase (forming.formState earlyEjectingFormer)
         = forming.PhaseEject
      /\ Count (buffer afterPop out) = 4
      /\ IsFull (buffer afterPop out) = false
      /\ forming.Phase (forming.formState (fst early)) = forming.PhaseEject
      /\ Count (buffer (snd early) out) = 4).
Proof. vm_compute. repeat split. Qed.

(** C4, amended.  A forming press that is [Running] in [Eject]:
    - with a full output buffer and no break, [Update] changes nothing at
      all: the phase stays [Eject], no part is pushed, no scrap is counted;
    - with room in the buffer, no break, the cycle at or past the end of
      the [Eject] window and a scrap draw that says good, [Update] appends
      the current part to the buffer and the phase becomes [Raise], the
      machine still [Running] and the scrap count as before;
    - when a break begins, [Update] takes the machine to [PlannedStop]
      with phase [Idle], full buffer or not, and leaves the store alone;
    - with no break and the cycle before the end of the [Eject] window,
      [Update] changes nothing at all, full buffer or not: the phase stays
      [Eject] and no part is pushed. *)
Theorem forming_stalls_in_Eject_while_buffer_full
    (clk : Clock) (fm : forming.FormingMachine) (st : Store) (now : Time) :
  State (forming.base fm) = StateRunning ->
  forming.Phase (forming.formState fm) = forming.PhaseEject ->
  let out := forming.OutputBuffer (forming.formState fm) in
  (IsFull (buffer st out) = true ->
   forming.Update clk fm st now false = (fm, st))
  /\ (IsFull (buffer st out) = false ->
      (out < length (buffers st))%nat ->
      forming.ejectEnd fm <= ElapsedInCycle (wall clk) (forming.base fm) ->
      fst (Bool (forming.noise fm) (ScrapRate (Config (forming.base fm))))
      = false ->
      let r := forming.Update clk fm st now false in
      forming.Phase (forming.formState (fst r)) = forming.PhaseRaise
      /\ State (forming.base (fst r)) = StateRunning
      /\ ScrapParts (forming.base (fst r)) = ScrapParts (forming.base fm)
      /\ exists part,
           ID part = forming.CurrentPartID (forming.formState fm)
           /\ PartStatusOf part = PartStatusAwaitingPickup
           /\ Queue (buffer (snd r) out) = Queue (buffer st out) ++ [part])
  /\ (let r := forming.Update clk fm st now true in
      State (forming.base (fst r)) = StatePlannedStop
      /\ forming.Phase (forming.formState (fst r)) = forming.PhaseIdle
      /\ snd r = st)
  /\ (ElapsedInCycle (wall clk) (forming.base fm) < forming.ejectEnd fm ->
      forming.Update clk fm st now false = (fm, st)).
Proof.
  intros Hstate Hphase out.
  unfold forming.Update, forming.updateRunning, State in *. rewrite Hstate.
  unfold forming.shouldTriggerError. rewrite Hphase. simpl.
  rewrite !Hphase. simpl. split_and!.
  - intros Hfull. fold out. rewrite Hfull. reflexivity.
  - intros Hroom Hvalid Hend Hgood. fold out. rewrite Hroom. simpl.
    apply Z.leb_le in Hend. rewrite Hend.
    destruct (ejectPart_pushes_good_part fm st now Hgood Hroom Hvalid)
      as (Hfs & Hst & Hscrap & part & Hid & Hstatus & Hqueue).
    destruct (forming.ejectPart fm st now) as [fm' st'] eqn:E.
    unfold State in *. simpl in *.
    split; [reflexivity|]. split; [congruence|]. split; [exact Hscrap|].
    exists part. auto.
  - unfold TransitionTo. rewrite Hstate. simpl. unfold fire.
    destruct (OnStateChange (callbacks (forming.base fm))); reflexivity.
  - reflexivity.
  - reflexivity.
  - intros Hearly. fold out.
    destruct (IsFull (buffer st out)); [reflexivity|]. cbn [andb].
    apply Z.leb_gt in Hearly. rewrite Hearly. reflexivity.
Qed.

Lemma forming_stalls_in_Eject_while_buffer_full_witness :
  forming.Update clock0 ejectingFormer storeFormingFull (1000 * Second) false
  = (ejectingFormer, storeFormingFull)
  /\ forming.Phase
       (forming.formState
          (fst (forming.Update clock0 ejectingFormer storeWithOrder
                  (1000 * Second) false)))
     = forming.PhaseRaise
  /\ forming.Update clock0 earlyEjectingFormer PopAtFormingOutput
       (1000 * Second) false
     = (earlyEjectingFormer, PopAtFormingOutput).
Proof.
  assert (Hstate : State (forming.base ejectingFormer) = StateRunning)
    by (vm_compute; reflexivity).
  assert (Hphase : forming.Phase (forming.formState ejectingFormer)
                   = forming.PhaseEject)
    by (vm_compute; reflexivity).
  split_and!.
  - apply (proj1 (forming_stalls_in_Eject_while_buffer_full clock0
                    ejectingFormer storeFormingFull (1000 * Second)
                    Hstate Hphase)).
    vm_compute. reflexivity.
  - apply (proj1 (proj2 (forming_stalls_in_Eject_while_buffer_full clock0
                    ejectingFormer storeWithOrder (1000 * Second)
                    Hstate Hphase))).
    + vm_compute. reflexivity.
    + vm_compute. lia.
    + apply Z.leb_le. vm_compute. reflexivity.
    + vm_compute. reflexivity.
  - apply (proj2 (proj2 (proj2
             (forming_stalls_in_Eject_while_buffer_full clock0
                earlyEjectingFormer PopAtFormingOutput (1000 * Second)
                eq_refl eq_refl)))).
    apply Z.ltb_lt. vm_compute. reflexivity.
Defined.

(** ** The line state *)

(** Taking apart every [match] on an optional machine, a pair of counters
    or an optional error until the goal is closed by computation. *)
Ltac case_matches :=
  repeat match goal with
         | |- context [match ?x with Some _ => _ | None => _ end] =>
             destruct x; simpl
         | |- context [let '(_, _) := ?x in _] => destruct x; simpl
         end.

Lemma updateCounters_lineState (c : ProductionLineCoordinator) (w : World) :
  lineState (updateCounters c w) = lineState c.
Proof.
  unfold updateCounters. destruct c. simpl. case_matches; reflexivity.
Qed.

Lemma updateErrorTracking_lineState
    (c : ProductionLineCoordinator) (w : World) :
  lineState (updateErrorTracking c w) = lineState c.
Proof.
  unfold updateErrorTracking. destruct c. simpl. case_matches; reflexivity.
Qed.

(** What [updateLineState] decides from the machines as they are when it
    is called. *)
Lemma updateLineState_lineState (c : ProductionLineCoordinator) (w : World) :
  lineState (updateLineState c w)
  = if formingStopped c w || pickerStopped c w || welderStopped c w
    then LineStateError
    else if String.eqb (lineState c) LineStateError
         then LineStateRunning else lineState c.
Proof.
  unfold updateLineState.
  destruct (formingStopped c w), (pickerStopped c w), (welderStopped c w);
    simpl; try reflexivity.
  destruct (String.eqb (lineState c) LineStateError); reflexivity.
Qed.

(** C6, counterexample.  Started line, forming press in [UnplannedStop]
    with its error already over: after [Update] no machine is in
    [UnplannedStop], yet the line state is [Error].  Started line, forming
    press [Running] with an error roll that succeeds: after [Update] the
    press is in [UnplannedStop], yet the line state is [Running]. *)
Lemma line_state_lags_one_update :
  let machineStates (w : World) :=
    (State (forming.base (former w (line.formingMachine runner0))),
     State (picker.base (pickerAt w (line.pickerRobot runner0))),
     State (spotwelder.base (welder w (line.spotWelder runner0)))) in
  let recovered := Update clock0 startedCoordinator recoveringWorld
                     (1000 * Second) false in
  let failed := Update clock0 startedCoordinator failingWorld
                  (1000 * Second) false in
  (lineState (fst recovered) = LineStateError
   /\ machineStates (snd recovered) = (StateIdle, StateIdle, StateIdle))
  /\ (lineState (fst failed) = LineStateRunning
      /\ machineStates (snd failed)
         = (StateUnplannedStop, StateIdle, StateIdle)).
Proof. vm_compute. repeat split. Qed.

(** C6, amended.  After [Update] the line state is [Error] exactly when
    some machine was in [UnplannedStop] when that [Update] began, the
    machines being advanced only after the line state is set; otherwise a
    line state that was [Error] becomes [Running] and any other line state
    is kept as it was.  No rule derives [Running] or [Stopped] from the
    machine states. *)
Theorem line_state_follows_machines_before_update
    (clk : Clock) (c : ProductionLineCoordinator) (w : World) (now : Time)
    (isBreakTime : bool) :
  let stoppedBefore :=
    formingStopped c w || pickerStopped c w || welderStopped c w in
  let after := lineState (fst (Update clk c w now isBreakTime)) in
  after = (if stoppedBefore then LineStateError
           else if String.eqb (lineState c) LineStateError
                then LineStateRunning else lineState c)
  /\ (after = LineStateError <-> stoppedBefore = true)
  /\ (lineState c = LineStateError -> stoppedBefore = false ->
      after = LineStateRunning).
Proof.
  intros stoppedBefore after.
  assert (Hafter : after
                   = if stoppedBefore then LineStateError
                     else if String.eqb (lineState c) LineStateError
                          then LineStateRunning else lineState c).
  { unfold after, Update, coordinatePartFlow. simpl.
    rewrite updateErrorTracking_lineState, updateCounters_lineState.
    match goal with
    | |- lineState (if ?a then _ else if ?b then _ else _) = _ =>
        destruct a, b; simpl
    end; rewrite updateLineState_lineState; reflexivity. }
  split; [exact Hafter|]. rewrite Hafter. split.
  - destruct stoppedBefore; [split; reflexivity|].
    destruct (String.eqb (lineState c) LineStateError) eqn:E.
    + split; discriminate.
    + split; [|discriminate]. intros H. apply String.eqb_neq in E.
      contradiction.
  - intros Herr ->. rewrite Herr. reflexivity.
Qed.

(* ------------------------------------------------------------------ *)
(** * Properties of the whole line *)

Import Invariants.

(** ** Buffers stay within their capacity *)

Lemma bufstep_refl st : bufstep st st.
Proof. split; [reflexivity | auto]. Qed.

Lemma bufstep_trans st1 st2 st3 :
  bufstep st1 st2 -> bufstep st2 st3 -> bufstep st1 st3.
Proof.
  unfold bufstep, sameCapacities. intros [H1 H2] [H3 H4]. split; [congruence | auto].
Qed.

Lemma bufstep_buffers st st' : buffers st' = buffers st -> bufstep st st'.
Proof.
  intros H. unfold bufstep, sameCapacities, withinCapacity. rewrite H. auto.
Qed.

Lemma bufstep_set_buffer st p pb :
  MaxCapacity pb = MaxCapacity (buffer st p) ->
  len (Queue pb) <= Z.max (MaxCapacity pb) (len (Queue (buffer st p))) ->
  bufstep st (set_buffer st p pb).
Proof.
  intros Hc Hl. unfold bufstep, sameCapacities, withinCapacity, set_buffer,
    buffer, Heap.assign, Heap.deref in *. simpl.
  destruct (decide (p < length (buffers st))%nat) as [Hp|Hp].
  - destruct (lookup_lt_is_Some_2 _ _ Hp) as [x Hx].
    rewrite (list_lookup_total_correct _ _ _ Hx) in Hc, Hl.
    split.
    + rewrite list_fmap_insert, Hc. apply list_insert_id.
      rewrite list_lookup_fmap, Hx. reflexivity.
    + intros H. apply Forall_insert; [exact H|].
      pose proof (proj1 (Forall_lookup _ _) H _ _ Hx) as Hx'. simpl in Hx'. lia.
  - rewrite list_insert_ge by lia. auto.
Qed.

Lemma bufstep_Push st p part :
  bufstep st (set_buffer st p (fst (Push (buffer st p) part))).
Proof.
  apply bufstep_set_buffer; unfold Push;
    destruct (MaxCapacity (buffer st p) <=? len (Queue (buffer st p))) eqn:E;
    simpl; try reflexivity; try lia.
  unfold len in *. rewrite length_app. simpl. lia.
Qed.

Lemma bufstep_Pop st p :
  bufstep st (set_buffer st p (fst (Pop (buffer st p)))).
Proof.
  apply bufstep_set_buffer; unfold Pop;
    destruct (Queue (buffer st p)) eqn:E; simpl; try reflexivity; try lia;
    rewrite ?E; unfold len; simpl; lia.
Qed.

Ltac break_inner :=
  match goal with
  | |- context [match ?x with _ => _ end] =>
      lazymatch x with
      | context [match _ with _ => _ end] => fail
      | _ => destruct x eqn:?
      end
  end.

Lemma StartNextOrder_buffers bm st now :
  buffers (snd (fst (StartNextOrder bm st now))) = buffers st.
Proof. unfold StartNextOrder. destruct (OrderQueue bm); reflexivity. Qed.

Lemma FinishOrder_buffers bm st :
  buffers (snd (FinishOrder bm st)) = buffers st.
Proof. unfold FinishOrder. destruct (CurrentOrder bm); reflexivity. Qed.

Lemma CompleteCycle_buffers bm st b :
  buffers (snd (CompleteCycle bm st b)) = buffers st.
Proof. apply CompleteCycle_keeps. Qed.

Lemma forming_updateIdle_buffers clk fm st now :
  buffers (snd (forming.updateIdle clk fm st now)) = buffers st.
Proof.
  unfold forming.updateIdle.
  repeat (break_inner; simpl); try reflexivity.
  all: match goal with
       | H : StartNextOrder ?bm ?st ?now = _ |- _ =>
           pose proof (StartNextOrder_buffers bm st now) as HS;
           rewrite H in HS; exact HS
       end.
Qed.

Lemma forming_completeCycle_buffers clk fm st now :
  buffers (snd (forming.completeCycle clk fm st now)) = buffers st.
Proof.
  unfold forming.completeCycle.
  repeat (break_inner; simpl); try reflexivity.
  all: match goal with
       | H : FinishOrder ?bm ?st = _ |- _ =>
           pose proof (FinishOrder_buffers bm st) as HS;
           rewrite H in HS; exact HS
       end.
Qed.

Lemma forming_ejectPart_bufstep fm st now :
  bufstep st (snd (forming.ejectPart fm st now)).
Proof.
  unfold forming.ejectPart.
  destruct (Bool _ _) as [isScrap ng].
  destruct isScrap.
  - destruct (CurrentOrder _); simpl;
      match goal with
      | |- context [CompleteCycle ?bm ?st ?b] =>
          pose proof (CompleteCycle_buffers bm st b) as HC;
          destruct (CompleteCycle bm st b) as [bm' st']; simpl in *;
          apply bufstep_buffers; rewrite HC; reflexivity
      end.
  - simpl.
    match goal with
    | |- context [Push (buffer st ?out) ?part] =>
        pose proof (bufstep_Push st out part) as HP;
        destruct (Push (buffer st out) part) as [pb pushed]
    end.
    simpl in HP.
    destruct pushed; simpl.
    + destruct (CurrentOrder _); simpl;
      match goal with
      | |- context [CompleteCycle ?bm ?st ?b] =>
          pose proof (CompleteCycle_buffers bm st b) as HC;
          destruct (CompleteCycle bm st b) as [bm' st']; simpl in *
      end;
      (eapply bufstep_trans; [exact HP|]); apply bufstep_buffers; rewrite HC; reflexivity.
    + match goal with
      | |- context [CompleteCycle ?bm ?st ?b] =>
          pose proof (CompleteCycle_buffers bm st b) as HC;
          destruct (CompleteCycle bm st b) as [bm' st']; simpl in *
      end.
      apply bufstep_buffers; rewrite HC; reflexivity.
Qed.

Lemma forming_Update_bufstep clk fm st now brk :
  bufstep st (snd (forming.Update clk fm st now brk)).
Proof.
  unfold forming.Update.
  destruct (State (forming.base fm)); simpl; try apply bufstep_refl.
  - apply bufstep_buffers, forming_updateIdle_buffers.
  - unfold forming.updateRunning.
    destruct brk; simpl; [apply bufstep_refl|].
    destruct (forming.shouldTriggerError fm) as [trigger fm1].
    destruct trigger; simpl; [apply bufstep_refl|].
    destruct (_ && _); simpl; [apply bufstep_refl|].
    destruct (forming.Phase (forming.formState fm1));
      repeat (break_inner; simpl); try apply bufstep_refl.
    + match goal with
      | H : forming.ejectPart ?fm ?st ?now = _ |- _ =>
          pose proof (forming_ejectPart_bufstep fm st now) as HS;
          rewrite H in HS; exact HS
      end.
    + apply bufstep_buffers, forming_completeCycle_buffers.
Qed.

Ltac use_CompleteCycle :=
  match goal with
  | |- context [CompleteCycle ?bm ?st ?b] =>
      let HC := fresh "HC" in
      pose proof (CompleteCycle_buffers bm st b) as HC;
      destruct (CompleteCycle bm st b) as [? ?]; simpl in *
  end.

Lemma bufstep_PushAt st p part : bufstep st (fst (PushAt st p part)).
Proof.
  unfold PushAt. pose proof (bufstep_Push st p part) as HP.
  destruct (Push (buffer st p) part) as [pb [|]]; simpl in *;
    [exact HP | apply bufstep_refl].
Qed.

Lemma picker_updateGrip_bufstep clk pr st e s f now :
  bufstep st (snd (picker.updateGrip clk pr st e s f now)).
Proof.
  unfold picker.updateGrip.
  destruct (f <=? e); simpl; [|apply bufstep_refl].
  destruct (picker.inputBuffer _) as [inp|]; simpl; [|apply bufstep_refl].
  pose proof (bufstep_Pop st inp) as HP.
  destruct (Pop (buffer st inp)) as [pb [part|]]; simpl in *;
    [exact HP | apply bufstep_refl].
Qed.

Lemma picker_updateRelease_bufstep clk pr st e s f now :
  bufstep st (snd (picker.updateRelease clk pr st e s f now)).
Proof.
  unfold picker.updateRelease.
  destruct (f <=? e); simpl; [|apply bufstep_refl].
  destruct (picker.HeldPart _) as [held|]; simpl; [|apply bufstep_refl].
  destruct (picker.outputBuffer _) as [out|]; simpl; [|apply bufstep_refl].
  apply bufstep_PushAt.
Qed.

Lemma picker_completeCycle_buffers clk pr st now :
  buffers (snd (picker.completeCycle clk pr st now)) = buffers st.
Proof.
  unfold picker.completeCycle. use_CompleteCycle.
  repeat (break_inner; simpl); assumption.
Qed.

Ltac red_snd := cbv beta iota zeta; cbn [snd fst].

Lemma picker_Update_bufstep clk pr st now brk :
  bufstep st (snd (picker.Update clk pr st now brk)).
Proof.
  unfold picker.Update.
  destruct (State (picker.base pr)); red_snd; try apply bufstep_refl.
  unfold picker.updateRunning.
  destruct (brk && _); red_snd; [apply bufstep_refl|].
  destruct (picker.shouldTriggerError pr st) as [trigger pr1].
  destruct trigger; red_snd; [apply bufstep_refl|].
  destruct (picker.Phase (picker.pickerState pr1)); red_snd;
    try apply bufstep_refl.
  - apply picker_updateGrip_bufstep.
  - apply picker_updateRelease_bufstep.
  - unfold picker.updateRetractPlace.
    destruct (_ <=? _); red_snd; [|apply bufstep_refl].
    apply bufstep_buffers, picker_completeCycle_buffers.
Qed.

Lemma spotwelder_updateSetup_bufstep clk sw st e now :
  bufstep st (snd (spotwelder.updateSetup clk sw st e now)).
Proof.
  unfold spotwelder.updateSetup.
  destruct (_ <=? e); simpl; [|apply bufstep_refl].
  match goal with
  | |- context [Pop (buffer st ?inp)] =>
      pose proof (bufstep_Pop st inp) as HP;
      destruct (Pop (buffer st inp)) as [pb [part|]]; simpl in *
  end; [exact HP | apply bufstep_refl].
Qed.

Lemma spotwelder_completeCycle_bufstep clk sw st now :
  bufstep st (snd (spotwelder.completeCycle clk sw st now)).
Proof.
  unfold spotwelder.completeCycle.
  destruct (Bool _ _) as [isScrap ng].
  destruct isScrap; simpl; use_CompleteCycle.
  all: destruct (0 <? Count _); simpl;
    [| apply bufstep_buffers; assumption].
  all: match goal with
       | |- context [Pop (buffer ?s ?inp)] =>
           pose proof (bufstep_Pop s inp) as HP;
           destruct (Pop (buffer s inp)) as [pb [part|]]; simpl in *
       end.
  all: try (eapply bufstep_trans; [apply bufstep_buffers; eassumption|exact HP]).
  all: apply bufstep_buffers; assumption.
Qed.

Lemma spotwelder_Update_bufstep clk sw st now brk :
  bufstep st (snd (spotwelder.Update clk sw st now brk)).
Proof.
  unfold spotwelder.Update.
  match goal with
  | |- context [if ?b then spotwelder.coolDown sw else sw] =>
      generalize (if b then spotwelder.coolDown sw else sw)
  end.
  intros sw0. red_snd.
  destruct (State _); red_snd; try apply bufstep_refl.
  - apply spotwelder_updateSetup_bufstep.
  - unfold spotwelder.updateRunning.
    destruct (brk && _); red_snd; [apply bufstep_refl|].
    destruct (spotwelder.shouldTriggerError sw0) as [trigger sw1].
    destruct trigger; red_snd; [apply bufstep_refl|].
    destruct (spotwelder.Phase (spotwelder.welderState sw1)); red_snd;
      try apply bufstep_refl.
    destruct (_ <=? _); red_snd; [|apply bufstep_refl].
    apply spotwelder_completeCycle_bufstep.
Qed.

(** ** Errors and states *)

Lemma TransitionTo_state wall bm s : state (TransitionTo wall bm s) = s.
Proof.
  unfold TransitionTo. destruct (MachineState_eqb (state bm) s) eqn:E.
  - apply MachineState_eqb_eq in E. exact E.
  - unfold fire. destruct (OnStateChange _); reflexivity.
Qed.

Lemma TransitionTo_CurrentError wall bm s :
  CurrentError (TransitionTo wall bm s) = CurrentError bm.
Proof.
  unfold TransitionTo. destruct (MachineState_eqb (state bm) s); [reflexivity|].
  unfold fire. destruct (OnStateChange _); reflexivity.
Qed.

Lemma TriggerError_state wall bm c m d :
  state (TriggerError wall bm c m d) = StateUnplannedStop.
Proof.
  unfold TriggerError. cbv zeta. unfold fire at 1.
  destruct (OnError _); simpl; apply TransitionTo_state.
Qed.

Lemma TriggerError_CurrentError wall bm c m d :
  CurrentError (TriggerError wall bm c m d)
  = Some (mkErrorInfo c m wall (Add wall d)).
Proof.
  unfold TriggerError. cbv zeta. unfold fire at 1.
  destruct (OnError _); simpl; rewrite TransitionTo_CurrentError; reflexivity.
Qed.

Lemma CompleteCycle_se bm st b :
  state (fst (CompleteCycle bm st b)) = state bm
  /\ CurrentError (fst (CompleteCycle bm st b)) = CurrentError bm.
Proof.
  unfold CompleteCycle, fire.
  destruct b; simpl; destruct (CurrentOrder bm); simpl;
    destruct (OnCycleComplete _); simpl; auto.
Qed.

Lemma FinishOrder_se bm st :
  state (fst (FinishOrder bm st)) = state bm
  /\ CurrentError (fst (FinishOrder bm st)) = CurrentError bm.
Proof.
  unfold FinishOrder, fire. destruct (CurrentOrder bm); simpl;
    try destruct (OnOrderComplete _); simpl; auto.
Qed.

Lemma StartNextOrder_se bm st now :
  state (fst (fst (StartNextOrder bm st now))) = state bm
  /\ CurrentError (fst (fst (StartNextOrder bm st now))) = CurrentError bm.
Proof. unfold StartNextOrder. destruct (OrderQueue bm); simpl; auto. Qed.

Lemma errorStep_consistent bm bm' :
  errorStep bm bm' -> errorConsistent bm -> errorConsistent bm'.
Proof.
  unfold errorStep, errorConsistent, State.
  intros [[H1 [H2 H3]]|[[H1 H2]|[[H1 H2]|[H1 H2]]]] [Ha Hb];
    rewrite ?H1, ?H2, ?H3 in *; split; intros; try tauto; try congruence.
Qed.

Lemma mild_refl bm : mild bm bm.
Proof. split; auto. Qed.

Lemma mild_trans a b c : mild a b -> mild b c -> mild a c.
Proof. unfold mild. intros [H1 H2] [H3 H4]. split; [congruence | auto]. Qed.

Lemma mild_TransitionTo wall bm s :
  s <> StateUnplannedStop -> mild bm (TransitionTo wall bm s).
Proof.
  intros H. split; [apply TransitionTo_CurrentError|].
  rewrite TransitionTo_state. auto.
Qed.

Lemma mild_same bm bm' :
  state bm' = state bm -> CurrentError bm' = CurrentError bm -> mild bm bm'.
Proof. intros H1 H2. split; [exact H2 | rewrite H1; auto]. Qed.

Lemma mild_CompleteCycle bm st b : mild bm (fst (CompleteCycle bm st b)).
Proof. apply mild_same; apply CompleteCycle_se. Qed.

Lemma mild_FinishOrder bm st : mild bm (fst (FinishOrder bm st)).
Proof. apply mild_same; apply FinishOrder_se. Qed.

Lemma mild_StartNextOrder bm st now :
  mild bm (fst (fst (StartNextOrder bm st now))).
Proof. apply mild_same; apply StartNextOrder_se. Qed.

Lemma mild_errorStep bm bm' :
  state bm <> StateUnplannedStop -> mild bm bm' -> errorStep bm bm'.
Proof. intros H [H1 H2]. left. auto. Qed.

Lemma forming_updateIdle_mild clk fm st now :
  mild (forming.base fm) (forming.base (fst (forming.updateIdle clk fm st now))).
Proof.
  unfold forming.updateIdle. cbv zeta.
  destruct (_ || _); [|apply mild_refl].
  destruct (CurrentOrder _) eqn:E.
  - cbn [fst]. eapply mild_trans; [|apply mild_TransitionTo; discriminate].
    apply mild_refl.
  - pose proof (mild_StartNextOrder
                  (forming.base (forming.with_CurrentRamPosition
                                   (forming.with_Phase fm forming.PhaseIdle) 0))
                  st now) as HS.
    destruct (StartNextOrder _ st now) as [[bm st'] ok]. cbn [fst] in *.
    eapply mild_trans; [|apply mild_TransitionTo; discriminate].
    exact HS.
Qed.

Lemma errorStep_resolved wall bm :
  errorStep bm (TransitionTo wall (ClearError bm) StateIdle).
Proof.
  right. right. left. rewrite TransitionTo_state, TransitionTo_CurrentError.
  split; [discriminate | reflexivity].
Qed.

Lemma errorStep_refl bm : errorStep bm bm.
Proof. right. right. right. auto. Qed.

#[local] Arguments TransitionTo : simpl never.
#[local] Arguments TriggerError : simpl never.
#[local] Arguments CompleteCycle : simpl never.
#[local] Arguments FinishOrder : simpl never.
#[local] Arguments StartNextOrder : simpl never.

(** Solves [mild a b] when [b] is [a] after setters and transitions to
    states other than [UnplannedStop]. *)
Ltac mild_solve :=
  unfold mild; split;
  [ cbn; rewrite ?TransitionTo_CurrentError; cbn; try reflexivity
  | cbn; rewrite ?TransitionTo_state; cbn; intros;
    try assumption; try discriminate ].

Lemma forming_updateSetup_mild clk fm e now :
  mild (forming.base fm) (forming.base (forming.updateSetup clk fm e now)).
Proof.
  unfold forming.updateSetup. destruct (_ <=? e); [|apply mild_refl].
  mild_solve.
Qed.

Lemma forming_updateUnplannedStop_errorStep clk fm now :
  errorStep (forming.base fm)
            (forming.base (forming.updateUnplannedStop clk fm now)).
Proof.
  unfold forming.updateUnplannedStop.
  destruct (IsErrorResolved _ now); [|apply errorStep_refl].
  cbn. apply errorStep_resolved.
Qed.

Lemma forming_triggerError_stops clk fm now :
  state (forming.base (forming.triggerError clk fm now)) = StateUnplannedStop
  /\ CurrentError (forming.base (forming.triggerError clk fm now)) <> None.
Proof.
  unfold forming.triggerError. cbv zeta.
  destruct (UniformInt _ _ _) as [i ng].
  destruct (forming.GetErrorInfo _) as [[message minDur] maxDur].
  destruct (Uniform _ _ _) as [d ng'].
  cbn. rewrite TriggerError_state, TriggerError_CurrentError.
  split; [reflexivity | discriminate].
Qed.

Lemma forming_ejectPart_mild fm st now :
  mild (forming.base fm) (forming.base (fst (forming.ejectPart fm st now))).
Proof.
  unfold forming.ejectPart.
  destruct (Bool _ _) as [isScrap ng].
  destruct isScrap.
  - destruct (CurrentOrder _) eqn:E; cbn;
      match goal with
      | |- context [CompleteCycle ?bm ?st ?b] =>
          pose proof (mild_CompleteCycle bm st b) as HC;
          destruct (CompleteCycle bm st b) as [bm' st']; cbn in *
      end;
      (eapply mild_trans; [|exact HC]); apply mild_same; reflexivity.
  - cbv zeta.
    destruct (Push _ _) as [pb pushed].
    destruct pushed; cbn [negb].
    + destruct (CurrentOrder _) eqn:E; cbn;
      match goal with
      | |- context [CompleteCycle ?bm ?st ?b] =>
          pose proof (mild_CompleteCycle bm st b) as HC;
          destruct (CompleteCycle bm st b) as [bm' st']; cbn in *
      end;
      (eapply mild_trans; [|exact HC]); apply mild_same; reflexivity.
    + match goal with
      | |- context [CompleteCycle ?bm ?st ?b] =>
          pose proof (mild_CompleteCycle bm st b) as HC;
          destruct (CompleteCycle bm st b) as [bm' st']; cbn in *
      end;
      (eapply mild_trans; [|exact HC]); apply mild_same; reflexivity.
Qed.

Lemma forming_completeCycle_mild clk fm st now :
  mild (forming.base fm)
       (forming.base (fst (forming.completeCycle clk fm st now))).
Proof.
  unfold forming.completeCycle. cbv zeta.
  destruct (IsOrderComplete _ st).
  - match goal with
    | |- context [FinishOrder ?bm ?st] =>
        pose proof (mild_FinishOrder bm st) as HC;
        destruct (FinishOrder bm st) as [bm' st']; cbn in *
    end.
    eapply mild_trans; [exact HC|]. apply mild_TransitionTo. discriminate.
  - cbn. apply mild_same; reflexivity.
Qed.

Lemma forming_shouldTriggerError_base fm :
  forming.base (snd (forming.shouldTriggerError fm)) = forming.base fm.
Proof.
  unfold forming.shouldTriggerError. destruct (_ && _); [reflexivity|].
  destruct (ShouldTrigger _ _ _ _); reflexivity.
Qed.

Lemma forming_updateRunning_quiet clk fm fm1 st now :
  forming.shouldTriggerError fm = (false, fm1) ->
  mild (forming.base fm)
       (forming.base (fst (forming.updateRunning clk fm st now false))).
Proof.
  intros Ht. unfold forming.updateRunning.
  pose proof (forming_shouldTriggerError_base fm) as Hb.
  rewrite Ht in *. cbn [snd] in Hb. rewrite <- Hb.
  destruct (_ && _); [apply mild_refl|].
  cbv zeta.
  destruct (forming.Phase (forming.formState fm1)); cbn [fst].
  - apply mild_refl.
  - destruct (_ <=? _); cbn; apply mild_refl.
  - destruct (_ <=? _); cbn; apply mild_refl.
  - destruct (_ <=? _); cbn; apply mild_refl.
  - destruct (_ <=? _); [|apply mild_refl].
    pose proof (forming_ejectPart_mild fm1 st now) as HE.
    destruct (forming.ejectPart fm1 st now) as [fm2 st2]. cbn in *. exact HE.
  - destruct (_ <=? _); [|cbn; apply mild_refl].
    eapply mild_trans; [|apply forming_completeCycle_mild].
    cbn. apply mild_refl.
Qed.

Lemma forming_updateRunning_mild_or_error clk fm st now brk :
  mild (forming.base fm)
       (forming.base (fst (forming.updateRunning clk fm st now brk)))
  \/ (state (forming.base (fst (forming.updateRunning clk fm st now brk)))
      = StateUnplannedStop
      /\ CurrentError
           (forming.base (fst (forming.updateRunning clk fm st now brk)))
         <> None).
Proof.
  destruct brk.
  { left. unfold forming.updateRunning. mild_solve. }
  destruct (forming.shouldTriggerError fm) as [[|] fm1] eqn:Ht.
  - right. unfold forming.updateRunning. rewrite Ht. cbn [fst].
    apply forming_triggerError_stops.
  - left. eapply forming_updateRunning_quiet, Ht.
Qed.

Lemma forming_Update_errorStep clk fm st now brk :
  errorStep (forming.base fm)
            (forming.base (fst (forming.Update clk fm st now brk))).
Proof.
  unfold forming.Update. cbv zeta. unfold State.
  destruct (state (forming.base fm)) eqn:E; cbn [fst].
  - apply mild_errorStep; [congruence|]. apply forming_updateIdle_mild.
  - apply mild_errorStep; [congruence|]. apply forming_updateSetup_mild.
  - destruct (forming_updateRunning_mild_or_error clk fm st now brk) as [H|H].
    + apply mild_errorStep; [congruence | exact H].
    + right. left. exact H.
  - apply mild_errorStep; [congruence|].
    unfold forming.updatePlannedStop. destruct (negb brk); [|apply mild_refl].
    cbn. apply mild_TransitionTo. discriminate.
  - apply forming_updateUnplannedStop_errorStep.
Qed.

Ltac with_CompleteCycle_mild :=
  match goal with
  | |- context [CompleteCycle ?bm ?st ?b] =>
      let HC := fresh "HC" in
      pose proof (mild_CompleteCycle bm st b) as HC;
      destruct (CompleteCycle bm st b) as [? ?]; cbn [fst snd] in HC |- *
  end.

Lemma picker_triggerError_stops clk pr st now :
  state (picker.base (picker.triggerError clk pr st now)) = StateUnplannedStop
  /\ CurrentError (picker.base (picker.triggerError clk pr st now)) <> None.
Proof.
  unfold picker.triggerError. cbv zeta.
  destruct (UniformInt _ _ _) as [i ng].
  destruct (picker.GetErrorInfo _) as [[message minDur] maxDur].
  destruct (Uniform _ _ _) as [d ng'].
  destruct (_ && _); cbn;
    rewrite TriggerError_state, TriggerError_CurrentError;
    (split; [reflexivity | discriminate]).
Qed.

Lemma picker_shouldTriggerError_base pr st :
  picker.base (snd (picker.shouldTriggerError pr st)) = picker.base pr.
Proof.
  unfold picker.shouldTriggerError. destruct (picker.PickerPhase_eqb _ _);
    [reflexivity|].
  destruct (ShouldTrigger _ _ _ _); reflexivity.
Qed.

Lemma picker_updateGrip_base clk pr st e s f now :
  picker.base (fst (picker.updateGrip clk pr st e s f now)) = picker.base pr.
Proof.
  unfold picker.updateGrip. cbv zeta.
  destruct (f <=? e); [|reflexivity].
  destruct (picker.inputBuffer _); [|reflexivity].
  destruct (Pop _) as [pb [part|]]; reflexivity.
Qed.

Lemma picker_updateRelease_base clk pr st e s f now :
  picker.base (fst (picker.updateRelease clk pr st e s f now))
  = picker.base pr.
Proof.
  unfold picker.updateRelease. cbv zeta.
  destruct (f <=? e); [|reflexivity].
  destruct (picker.HeldPart _); reflexivity.
Qed.

Lemma picker_completeCycle_mild clk pr st now :
  mild (picker.base pr)
       (picker.base (fst (picker.completeCycle clk pr st now))).
Proof.
  unfold picker.completeCycle. cbv zeta.
  with_CompleteCycle_mild.
  eapply mild_trans; [eapply mild_trans; [|exact HC]; mild_solve|].
  destruct (match picker.inputBuffer _ with Some _ => _ | None => _ end);
    mild_solve.
Qed.

Lemma picker_updateRunning_mild_or_error clk pr st now brk :
  mild (picker.base pr)
       (picker.base (fst (picker.updateRunning clk pr st now brk)))
  \/ (state (picker.base (fst (picker.updateRunning clk pr st now brk)))
      = StateUnplannedStop
      /\ CurrentError
           (picker.base (fst (picker.updateRunning clk pr st now brk)))
         <> None).
Proof.
  unfold picker.updateRunning.
  destruct (brk && _).
  { left. mild_solve. }
  pose proof (picker_shouldTriggerError_base pr st) as Hb.
  destruct (picker.shouldTriggerError pr st) as [trigger pr1]. cbn [snd] in Hb.
  rewrite <- Hb.
  destruct trigger.
  { right. cbn [fst]. apply picker_triggerError_stops. }
  left. cbv zeta.
  destruct (picker.Phase (picker.pickerState pr1)); cbn [fst].
  - apply mild_refl.
  - unfold picker.updateMoveToPickup. cbv zeta.
    destruct (_ <=? _); mild_solve.
  - unfold picker.updateApproachPickup. cbv zeta.
    destruct (_ <=? _); mild_solve.
  - rewrite picker_updateGrip_base. apply mild_refl.
  - unfold picker.updateRetractPickup. cbv zeta.
    destruct (_ <=? _); mild_solve.
  - unfold picker.updateMoveToPlace. cbv zeta.
    destruct (_ <=? _); mild_solve.
  - unfold picker.updateApproachPlace. cbv zeta.
    destruct (_ <=? _); mild_solve.
  - rewrite picker_updateRelease_base. apply mild_refl.
  - unfold picker.updateRetractPlace. cbv zeta.
    destruct (_ <=? _); [|mild_solve].
    eapply mild_trans; [|apply picker_completeCycle_mild]. mild_solve.
Qed.

Lemma picker_Update_errorStep clk pr st now brk :
  errorStep (picker.base pr)
            (picker.base (fst (picker.Update clk pr st now brk))).
Proof.
  unfold picker.Update. cbv zeta. unfold State.
  destruct (state (picker.base pr)) eqn:E; cbn [fst].
  - apply mild_errorStep; [congruence|].
    unfold picker.updateIdle. cbv zeta.
    destruct (picker.inputBuffer _); [|mild_solve].
    destruct (0 <? _); mild_solve.
  - apply mild_errorStep; [congruence|].
    unfold picker.updateSetup. destruct (_ <=? _); mild_solve.
  - destruct (picker_updateRunning_mild_or_error clk pr st now brk) as [H|H].
    + apply mild_errorStep; [congruence | exact H].
    + right. left. exact H.
  - apply mild_errorStep; [congruence|].
    unfold picker.updatePlannedStop. destruct (negb brk); mild_solve.
  - unfold picker.updateUnplannedStop.
    destruct (IsErrorResolved _ now); [|apply errorStep_refl].
    cbn. apply errorStep_resolved.
Qed.

Lemma spotwelder_triggerError_stops clk sw now :
  state (spotwelder.base (spotwelder.triggerError clk sw now))
  = StateUnplannedStop
  /\ CurrentError (spotwelder.base (spotwelder.triggerError clk sw now))
     <> None.
Proof.
  unfold spotwelder.triggerError. cbv zeta.
  destruct (UniformInt _ _ _) as [i ng].
  destruct (spotwelder.GetErrorInfo _) as [[message minDur] maxDur].
  destruct (Uniform _ _ _) as [d ng'].
  destruct (_ && _); cbn;
    rewrite TriggerError_state, TriggerError_CurrentError;
    (split; [reflexivity | discriminate]).
Qed.

Lemma spotwelder_shouldTriggerError_base sw :
  spotwelder.base (snd (spotwelder.shouldTriggerError sw))
  = spotwelder.base sw.
Proof.
  unfold spotwelder.shouldTriggerError. destruct (negb _); [reflexivity|].
  cbv zeta. destruct (ShouldTrigger _ _ _ _); reflexivity.
Qed.

Lemma spotwelder_updateWeldPhase_base clk sw e s f :
  spotwelder.base (spotwelder.updateWeldPhase clk sw e s f)
  = spotwelder.base sw.
Proof.
  unfold spotwelder.updateWeldPhase. cbv zeta.
  destruct (_ <? _); destruct (f <=? e); reflexivity.
Qed.

Lemma spotwelder_completeCycle_mild clk sw st now :
  mild (spotwelder.base sw)
       (spotwelder.base (fst (spotwelder.completeCycle clk sw st now))).
Proof.
  unfold spotwelder.completeCycle. cbv zeta.
  destruct (Bool _ _) as [isScrap ng].
  destruct isScrap; with_CompleteCycle_mild.
  all: eapply mild_trans; [eapply mild_trans; [|exact HC]; mild_solve|].
  all: destruct (0 <? Count _); [|mild_solve].
  all: destruct (Pop _) as [pb [part|]]; mild_solve.
Qed.

Lemma spotwelder_updateRunning_quiet clk sw sw1 st now brk :
  spotwelder.shouldTriggerError sw = (false, sw1) ->
  mild (spotwelder.base sw)
       (spotwelder.base (fst (spotwelder.updateRunning clk sw st now brk))).
Proof.
  intros Ht. unfold spotwelder.updateRunning.
  destruct (brk && _); [mild_solve|].
  pose proof (spotwelder_shouldTriggerError_base sw) as Hb.
  rewrite Ht in *. cbn [snd] in Hb. rewrite <- Hb.
  cbv zeta.
  destruct (spotwelder.Phase (spotwelder.welderState sw1)); cbn [fst].
  - apply mild_refl.
  - destruct (_ <=? _); mild_solve.
  - destruct (_ <=? _); mild_solve.
  - destruct (_ <=? _); mild_solve.
  - rewrite spotwelder_updateWeldPhase_base. apply mild_refl.
  - destruct (_ <=? _); mild_solve.
  - destruct (_ <=? _); mild_solve.
  - destruct (_ <=? _); [|mild_solve].
    apply spotwelder_completeCycle_mild.
Qed.

Lemma spotwelder_updateRunning_mild_or_error clk sw st now brk :
  mild (spotwelder.base sw)
       (spotwelder.base (fst (spotwelder.updateRunning clk sw st now brk)))
  \/ (state (spotwelder.base
               (fst (spotwelder.updateRunning clk sw st now brk)))
      = StateUnplannedStop
      /\ CurrentError
           (spotwelder.base
              (fst (spotwelder.updateRunning clk sw st now brk)))
         <> None).
Proof.
  destruct (spotwelder.shouldTriggerError sw) as [[|] sw1] eqn:Ht.
  - unfold spotwelder.updateRunning.
    destruct (brk && _); [left; mild_solve|].
    right. rewrite Ht. cbn [fst]. apply spotwelder_triggerError_stops.
  - left. eapply spotwelder_updateRunning_quiet, Ht.
Qed.

Lemma spotwelder_Update_errorStep clk sw st now brk :
  errorStep (spotwelder.base sw)
            (spotwelder.base (fst (spotwelder.Update clk sw st now brk))).
Proof.
  unfold spotwelder.Update. cbv zeta.
  assert (Hc : forall b : bool,
             spotwelder.base (if b then spotwelder.coolDown sw else sw)
             = spotwelder.base sw) by (intros [|]; reflexivity).
  match goal with
  | |- context [if ?b then spotwelder.coolDown sw else sw] =>
      specialize (Hc b);
      generalize dependent (if b then spotwelder.coolDown sw else sw)
  end.
  intros sw0 Hc. rewrite <- Hc. clear Hc sw.
  unfold State.
  destruct (state (spotwelder.base sw0)) eqn:E; cbn [fst].
  - apply mild_errorStep; [congruence|].
    unfold spotwelder.updateIdle. cbv zeta. destruct (0 <? _); mild_solve.
  - apply mild_errorStep; [congruence|].
    unfold spotwelder.updateSetup. destruct (_ <=? _); [|mild_solve].
    cbv zeta. destruct (Pop _) as [pb [part|]]; mild_solve.
  - destruct (spotwelder_updateRunning_mild_or_error clk sw0 st now brk)
      as [H|H].
    + apply mild_errorStep; [congruence | exact H].
    + right. left. exact H.
  - apply mild_errorStep; [congruence|].
    unfold spotwelder.updatePlannedStop. destruct (negb brk); mild_solve.
  - unfold spotwelder.updateUnplannedStop.
    destruct (IsErrorResolved _ now); [|apply errorStep_refl].
    cbn. apply errorStep_resolved.
Qed.

(** ** Invariants of an update of the line *)

Lemma updateMachines_bufstep clk c w now brk :
  bufstep (store w) (store (updateMachines clk c w now brk)).
Proof.
  unfold updateMachines.
  assert (Hf : bufstep (store w)
           (store match formingMachine c with
                  | Some f =>
                      let '(fm, st) :=
                        forming.Update clk (former w f) (store w) now brk in
                      set_former (set_store w st) f fm
                  | None => w
                  end)).
  { destruct (formingMachine c) as [f|]; [|apply bufstep_refl].
    pose proof (forming_Update_bufstep clk (former w f) (store w) now brk) as H.
    destruct (forming.Update _ _ _ _ _) as [fm st]. exact H. }
  revert Hf. generalize (match formingMachine c with
                  | Some f =>
                      let '(fm, st) :=
                        forming.Update clk (former w f) (store w) now brk in
                      set_former (set_store w st) f fm
                  | None => w
                  end).
  intros w1 H1. cbv zeta.
  assert (Hp : bufstep (store w1)
           (store match pickerRobot c with
                  | Some p =>
                      let '(pr, st) :=
                        picker.Update clk (pickerAt w1 p) (store w1) now brk in
                      set_picker (set_store w1 st) p pr
                  | None => w1
                  end)).
  { destruct (pickerRobot c) as [p|]; [|apply bufstep_refl].
    pose proof (picker_Update_bufstep clk (pickerAt w1 p) (store w1) now brk)
      as H.
    destruct (picker.Update _ _ _ _ _) as [pr st]. exact H. }
  revert Hp. generalize (match pickerRobot c with
                  | Some p =>
                      let '(pr, st) :=
                        picker.Update clk (pickerAt w1 p) (store w1) now brk in
                      set_picker (set_store w1 st) p pr
                  | None => w1
                  end).
  intros w2 H2.
  eapply bufstep_trans; [exact H1|]. eapply bufstep_trans; [exact H2|].
  destruct (spotWelder c) as [s|]; [|apply bufstep_refl].
  pose proof (spotwelder_Update_bufstep clk (welder w2 s) (store w2) now brk)
    as H.
  destruct (spotwelder.Update _ _ _ _ _) as [sw st]. exact H.
Qed.

Lemma Update_world clk c w now brk :
  exists c', snd (Update clk c w now brk) = updateMachines clk c' w now brk.
Proof. unfold Update, coordinatePartFlow. cbv zeta. eexists. reflexivity. Qed.

(** One update of the line keeps every buffer of the store within its
    capacity, and changes neither the number of buffers nor any capacity:
    whatever the three machines do in the tick (eject, grip, release,
    load the next part), a store whose buffers hold at most [MaxCapacity]
    parts each is such a store afterwards. *)
Theorem line_update_keeps_buffers_within_capacity
    (clk : Clock) (c : ProductionLineCoordinator) (w : World) (now : Time)
    (isBreakTime : bool) :
  withinCapacity (store w) ->
  let w' := snd (Update clk c w now isBreakTime) in
  withinCapacity (store w') /\ sameCapacities (store w) (store w').
Proof.
  intros H w'. subst w'.
  destruct (Update_world clk c w now isBreakTime) as [c' ->].
  destruct (updateMachines_bufstep clk c' w now isBreakTime) as [H1 H2].
  split; [apply H2, H | exact H1].
Qed.

Lemma line_update_keeps_buffers_within_capacity_witness :
  let contents := fun st : Store =>
    map (fun pb => (MaxCapacity pb, map ID (Queue pb))) (buffers st) in
  let w' := snd (Update clock0 startedCoordinator busyWorld
                   (1000 * Second) false) in
  contents (store busyWorld)
  = [(5, ["PART-2026-01-12-0002"; "PART-2026-01-12-0003";
          "PART-2026-01-12-0005"; "PART-2026-01-12-0006"]);
     (3, ["PART-2026-01-11-0998"; "PART-2026-01-11-0999"]);
     (3, [])]%string
  /\ contents (store w')
     = [(5, ["PART-2026-01-12-0002"; "PART-2026-01-12-0003";
             "PART-2026-01-12-0005"; "PART-2026-01-12-0006";
             "PART-2026-01-12-0001"]);
        (3, ["PART-2026-01-11-0999"; "PART-2026-01-12-0004"]);
        (3, [])]%string
  /\ withinCapacity (store busyWorld)
  /\ withinCapacity (store w')
  /\ sameCapacities (store busyWorld) (store w').
Proof.
  assert (H : withinCapacity (store busyWorld)).
  { unfold withinCapacity. vm_compute. repeat constructor; discriminate. }
  destruct (line_update_keeps_buffers_within_capacity clock0
              startedCoordinator busyWorld (1000 * Second) false H)
    as [K1 K2].
  cbv zeta. split_and!;
    [vm_compute; reflexivity | vm_compute; reflexivity
     | exact H | exact K1 | exact K2].
Defined.

(** A machine is in [UnplannedStop] exactly when it carries an error, and
    each of the three [Update] functions keeps it so: an error is recorded
    only together with the transition to [UnplannedStop], and it is cleared
    only together with the transition out of it. *)
Theorem machine_updates_keep_error_and_state_consistent
    (clk : Clock) (st : Store) (now : Time) (isBreakTime : bool)
    (fm : forming.FormingMachine) (pr : picker.PickerRobot)
    (sw : spotwelder.SpotWelder) :
  (errorConsistent (forming.base fm) ->
   errorConsistent
     (forming.base (fst (forming.Update clk fm st now isBreakTime))))
  /\ (errorConsistent (picker.base pr) ->
      errorConsistent
        (picker.base (fst (picker.Update clk pr st now isBreakTime))))
  /\ (errorConsistent (spotwelder.base sw) ->
      errorConsistent
        (spotwelder.base (fst (spotwelder.Update clk sw st now isBreakTime)))).
Proof.
  split_and!; apply errorStep_consistent.
  - apply forming_Update_errorStep.
  - apply picker_Update_errorStep.
  - apply spotwelder_Update_errorStep.
Qed.

(** ** The state graph and breaks *)

Lemma reaches_refl ts bm : reaches ts bm bm.
Proof. left. reflexivity. Qed.

Lemma reaches_trans ts a b c : reaches ts a b -> reaches ts b c -> reaches ts a c.
Proof.
  unfold reaches. intros [H1|H1] [H2|H2]; auto.
  - left. congruence.
  - right. rewrite H2. exact H1.
Qed.

Lemma reaches_weaken ts ts' a b :
  (forall s, In s ts -> In s ts') -> reaches ts a b -> reaches ts' a b.
Proof. intros H [H1|H1]; [left; exact H1 | right; auto]. Qed.

(** Solves [reaches ts a b] when [b] is [a] after setters and at most
    one transition to a state of [ts]. *)
Ltac reaches_solve :=
  unfold reaches; cbn; rewrite ?TransitionTo_state; cbn; tauto.

Lemma forming_updateIdle_reaches clk fm st now :
  reaches [StateSetup] (forming.base fm)
          (forming.base (fst (forming.updateIdle clk fm st now))).
Proof.
  unfold forming.updateIdle. cbv zeta.
  destruct (_ || _); [|reaches_solve].
  destruct (CurrentOrder _) eqn:E.
  - reaches_solve.
  - destruct (StartNextOrder _ st now) as [[bm st'] ok]. reaches_solve.
Qed.

Lemma forming_ejectPart_state fm st now :
  state (forming.base (fst (forming.ejectPart fm st now)))
  = state (forming.base fm).
Proof.
  unfold forming.ejectPart.
  destruct (Bool _ _) as [isScrap ng].
  destruct isScrap; cbv zeta.
  - destruct (CurrentOrder _) eqn:E; cbn;
      match goal with
      | |- context [CompleteCycle ?bm ?st ?b] =>
          pose proof (proj1 (CompleteCycle_se bm st b)) as HC;
          destruct (CompleteCycle bm st b) as [bm' st']; cbn in *
      end; exact HC.
  - destruct (Push _ _) as [pb pushed].
    destruct pushed; cbn [negb].
    + destruct (CurrentOrder _) eqn:E; cbn;
      match goal with
      | |- context [CompleteCycle ?bm ?st ?b] =>
          pose proof (proj1 (CompleteCycle_se bm st b)) as HC;
          destruct (CompleteCycle bm st b) as [bm' st']; cbn in *
      end; exact HC.
    + match goal with
      | |- context [CompleteCycle ?bm ?st ?b] =>
          pose proof (proj1 (CompleteCycle_se bm st b)) as HC;
          destruct (CompleteCycle bm st b) as [bm' st']; cbn in *
      end; exact HC.
Qed.

Lemma forming_completeCycle_reaches clk fm st now :
  reaches [StateIdle] (forming.base fm)
          (forming.base (fst (forming.completeCycle clk fm st now))).
Proof.
  unfold forming.completeCycle. cbv zeta.
  destruct (IsOrderComplete _ st).
  - destruct (FinishOrder _ _) as [bm' st']. reaches_solve.
  - reaches_solve.
Qed.

(** [Running] without a break: the press stays [Running], fails or
    returns to [Idle]. *)
Lemma forming_updateRunning_reaches clk fm st now :
  reaches [StateUnplannedStop; StateIdle] (forming.base fm)
          (forming.base (fst (forming.updateRunning clk fm st now false))).
Proof.
  unfold forming.updateRunning.
  pose proof (forming_shouldTriggerError_base fm) as Hb.
  destruct (forming.shouldTriggerError fm) as [trigger fm1]. cbn [snd] in Hb.
  rewrite <- Hb.
  destruct trigger.
  { right. cbn [fst]. rewrite (proj1 (forming_triggerError_stops _ _ _)).
    left. reflexivity. }
  destruct (_ && _); [apply reaches_refl|].
  cbv zeta.
  destruct (forming.Phase (forming.formState fm1)); cbn [fst].
  - apply reaches_refl.
  - destruct (_ <=? _); reaches_solve.
  - destruct (_ <=? _); reaches_solve.
  - destruct (_ <=? _); reaches_solve.
  - destruct (_ <=? _); [|apply reaches_refl].
    pose proof (forming_ejectPart_state fm1 st now) as HE.
    destruct (forming.ejectPart fm1 st now) as [fm2 st2]. left. exact HE.
  - destruct (_ <=? _); [|reaches_solve].
    eapply reaches_trans;
      [|eapply reaches_weaken; [|apply forming_completeCycle_reaches]].
    + reaches_solve.
    + intros s; simpl; tauto.
Qed.

Lemma picker_completeCycle_reaches clk pr st now :
  reaches [StateIdle] (picker.base pr)
          (picker.base (fst (picker.completeCycle clk pr st now))).
Proof.
  unfold picker.completeCycle. cbv zeta.
  match goal with
  | |- context [CompleteCycle ?bm ?st ?b] =>
      pose proof (proj1 (CompleteCycle_se bm st b)) as HC;
      destruct (CompleteCycle bm st b) as [bm' st']; cbn [fst snd] in HC |- *
  end.
  cbn in HC.
  destruct (match picker.inputBuffer _ with Some _ => _ | None => _ end).
  - left. cbn. exact HC.
  - right. cbn. rewrite TransitionTo_state. left. reflexivity.
Qed.

Lemma picker_updateRunning_reaches clk pr st now brk :
  brk && String.eqb (picker.HeldPartID (picker.pickerState pr)) EmptyString
  = false ->
  reaches [StateUnplannedStop; StateIdle] (picker.base pr)
          (picker.base (fst (picker.updateRunning clk pr st now brk))).
Proof.
  intros Hbrk. unfold picker.updateRunning. rewrite Hbrk.
  pose proof (picker_shouldTriggerError_base pr st) as Hb.
  destruct (picker.shouldTriggerError pr st) as [trigger pr1]. cbn [snd] in Hb.
  rewrite <- Hb.
  destruct trigger.
  { right. cbn [fst]. rewrite (proj1 (picker_triggerError_stops _ _ _ _)).
    left. reflexivity. }
  cbv zeta.
  destruct (picker.Phase (picker.pickerState pr1)); cbn [fst].
  - apply reaches_refl.
  - unfold picker.updateMoveToPickup. cbv zeta.
    destruct (_ <=? _); reaches_solve.
  - unfold picker.updateApproachPickup. cbv zeta.
    destruct (_ <=? _); reaches_solve.
  - rewrite picker_updateGrip_base. apply reaches_refl.
  - unfold picker.updateRetractPickup. cbv zeta.
    destruct (_ <=? _); reaches_solve.
  - unfold picker.updateMoveToPlace. cbv zeta.
    destruct (_ <=? _); reaches_solve.
  - unfold picker.updateApproachPlace. cbv zeta.
    destruct (_ <=? _); reaches_solve.
  - rewrite picker_updateRelease_base. apply reaches_refl.
  - unfold picker.updateRetractPlace. cbv zeta.
    destruct (_ <=? _); [|reaches_solve].
    eapply reaches_trans;
      [|eapply reaches_weaken; [|apply picker_completeCycle_reaches]].
    + reaches_solve.
    + intros s; simpl; tauto.
Qed.

Lemma spotwelder_completeCycle_reaches clk sw st now :
  reaches [StateIdle] (spotwelder.base sw)
          (spotwelder.base (fst (spotwelder.completeCycle clk sw st now))).
Proof.
  unfold spotwelder.completeCycle. cbv zeta.
  destruct (Bool _ _) as [isScrap ng].
  destruct isScrap;
    match goal with
    | |- context [CompleteCycle ?bm ?st ?b] =>
        pose proof (proj1 (CompleteCycle_se bm st b)) as HC;
        destruct (CompleteCycle bm st b) as [bm' st']; cbn [fst snd] in HC |- *
    end; cbn in HC.
  all: destruct (0 <? Count _);
    [| right; cbn; rewrite TransitionTo_state; left; reflexivity].
  all: destruct (Pop _) as [pb [part|]]; left; cbn; exact HC.
Qed.

Lemma spotwelder_updateRunning_reaches clk sw st now brk :
  brk && spotwelder.SpotWelderPhase_eqb
           (spotwelder.Phase (spotwelder.welderState sw)) spotwelder.PhaseIdle
  = false ->
  reaches [StateUnplannedStop; StateIdle] (spotwelder.base sw)
          (spotwelder.base (fst (spotwelder.updateRunning clk sw st now brk))).
Proof.
  intros Hbrk. unfold spotwelder.updateRunning. rewrite Hbrk.
  pose proof (spotwelder_shouldTriggerError_base sw) as Hb.
  destruct (spotwelder.shouldTriggerError sw) as [trigger sw1].
  cbn [snd] in Hb. rewrite <- Hb.
  destruct trigger.
  { right. cbn [fst]. rewrite (proj1 (spotwelder_triggerError_stops _ _ _)).
    left. reflexivity. }
  cbv zeta.
  destruct (spotwelder.Phase (spotwelder.welderState sw1)); cbn [fst].
  - apply reaches_refl.
  - destruct (_ <=? _); reaches_solve.
  - destruct (_ <=? _); reaches_solve.
  - destruct (_ <=? _); reaches_solve.
  - rewrite spotwelder_updateWeldPhase_base. apply reaches_refl.
  - destruct (_ <=? _); reaches_solve.
  - destruct (_ <=? _); reaches_solve.
  - destruct (_ <=? _); [|reaches_solve].
    eapply reaches_weaken; [|apply spotwelder_completeCycle_reaches].
    intros s; simpl; tauto.
Qed.

Lemma reaches_allowed ts bm bm' :
  reaches ts bm bm' ->
  allowed (state bm) (state bm) = true ->
  (forall s, In s ts -> allowed (state bm) s = true) ->
  allowed (state bm) (state bm') = true.
Proof. intros [H|H] H1 H2; [rewrite H; exact H1 | apply H2, H]. Qed.

Ltac allowed_targets E :=
  rewrite E; intros s Hs; simpl in Hs;
  repeat (destruct Hs as [<-|Hs]; [reflexivity|]); destruct Hs.

Lemma forming_Update_allowed clk fm st now brk :
  allowed (State (forming.base fm))
          (State (forming.base (fst (forming.Update clk fm st now brk))))
  = true.
Proof.
  unfold forming.Update. cbv zeta. unfold State.
  destruct (state (forming.base fm)) eqn:E; cbn [fst]; rewrite <- E.
  - eapply reaches_allowed; [apply forming_updateIdle_reaches| |].
    + rewrite E; reflexivity.
    + allowed_targets E.
  - eapply (reaches_allowed [StateRunning]).
    + unfold forming.updateSetup. destruct (_ <=? _); reaches_solve.
    + rewrite E; reflexivity.
    + allowed_targets E.
  - destruct brk.
    + unfold forming.updateRunning. cbn. rewrite TransitionTo_state, E.
      reflexivity.
    + eapply reaches_allowed; [apply forming_updateRunning_reaches| |].
      * rewrite E; reflexivity.
      * allowed_targets E.
  - eapply (reaches_allowed [StateIdle]).
    + unfold forming.updatePlannedStop. destruct (negb brk); reaches_solve.
    + rewrite E; reflexivity.
    + allowed_targets E.
  - eapply (reaches_allowed [StateIdle]).
    + unfold forming.updateUnplannedStop.
      destruct (IsErrorResolved _ _); reaches_solve.
    + rewrite E; reflexivity.
    + allowed_targets E.
Qed.

Lemma picker_Update_allowed clk pr st now brk :
  allowed (State (picker.base pr))
          (State (picker.base (fst (picker.Update clk pr st now brk))))
  = true.
Proof.
  unfold picker.Update. cbv zeta. unfold State.
  destruct (state (picker.base pr)) eqn:E; cbn [fst]; rewrite <- E.
  - eapply (reaches_allowed [StateSetup]).
    + unfold picker.updateIdle. cbv zeta.
      destruct (picker.inputBuffer _); [|reaches_solve].
      destruct (0 <? _); reaches_solve.
    + rewrite E; reflexivity.
    + allowed_targets E.
  - eapply (reaches_allowed [StateRunning]).
    + unfold picker.updateSetup. destruct (_ <=? _); reaches_solve.
    + rewrite E; reflexivity.
    + allowed_targets E.
  - destruct (brk && String.eqb (picker.HeldPartID (picker.pickerState pr))
                               EmptyString) eqn:Hbrk.
    + unfold picker.updateRunning. rewrite Hbrk. cbn.
      rewrite TransitionTo_state, E. reflexivity.
    + eapply reaches_allowed; [apply picker_updateRunning_reaches, Hbrk| |].
      * rewrite E; reflexivity.
      * allowed_targets E.
  - eapply (reaches_allowed [StateIdle]).
    + unfold picker.updatePlannedStop. destruct (negb brk); reaches_solve.
    + rewrite E; reflexivity.
    + allowed_targets E.
  - eapply (reaches_allowed [StateIdle]).
    + unfold picker.updateUnplannedStop.
      destruct (IsErrorResolved _ _); reaches_solve.
    + rewrite E; reflexivity.
    + allowed_targets E.
Qed.

Lemma spotwelder_Update_allowed clk sw st now brk :
  let s := State (spotwelder.base sw) in
  let s' := State (spotwelder.base
                     (fst (spotwelder.Update clk sw st now brk))) in
  allowed s s' = true \/ (s = StateSetup /\ s' = StateIdle).
Proof.
  unfold spotwelder.Update. cbv zeta.
  assert (Hc : forall b : bool,
             spotwelder.base (if b then spotwelder.coolDown sw else sw)
             = spotwelder.base sw) by (intros [|]; reflexivity).
  match goal with
  | |- context [if ?b then spotwelder.coolDown sw else sw] =>
      specialize (Hc b);
      generalize dependent (if b then spotwelder.coolDown sw else sw)
  end.
  intros sw0 Hc. rewrite <- Hc. clear Hc sw.
  unfold State.
  destruct (state (spotwelder.base sw0)) eqn:E; cbn [fst]; rewrite <- E.
  - left. eapply (reaches_allowed [StateSetup]).
    + unfold spotwelder.updateIdle. cbv zeta. destruct (0 <? _); reaches_solve.
    + rewrite E; reflexivity.
    + allowed_targets E.
  - unfold spotwelder.updateSetup. destruct (_ <=? _).
    + cbv zeta. destruct (Pop _) as [pb [part|]]; cbn;
        rewrite TransitionTo_state, E; [left; reflexivity | right; auto].
    + cbn. left. rewrite E. reflexivity.
  - left.
    destruct (brk && spotwelder.SpotWelderPhase_eqb
                       (spotwelder.Phase (spotwelder.welderState sw0))
                       spotwelder.PhaseIdle) eqn:Hbrk.
    + unfold spotwelder.updateRunning. rewrite Hbrk. cbn.
      rewrite TransitionTo_state, E. reflexivity.
    + eapply reaches_allowed;
        [apply spotwelder_updateRunning_reaches, Hbrk| |].
      * rewrite E; reflexivity.
      * allowed_targets E.
  - left. eapply (reaches_allowed [StateIdle]).
    + unfold spotwelder.updatePlannedStop. destruct (negb brk); reaches_solve.
    + rewrite E; reflexivity.
    + allowed_targets E.
  - left. eapply (reaches_allowed [StateIdle]).
    + unfold spotwelder.updateUnplannedStop.
      destruct (IsErrorResolved _ _); reaches_solve.
    + rewrite E; reflexivity.
    + allowed_targets E.
Qed.

(** One update moves a machine along an arrow of the state graph or leaves
    its state alone: [Idle] to [Setup]; [Setup] to [Running]; [Running] to
    [PlannedStop], [UnplannedStop] or [Idle]; either stop to [Idle].  The
    welder has one arrow more, from [Setup] back to [Idle], which it takes
    when its input buffer is empty at the end of the setup.  So no update
    takes a machine from [Idle] or from a stop straight to [Running], from
    [Setup] into a stop, or from one stop into the other. *)
Theorem machine_states_follow_the_state_graph
    (clk : Clock) (st : Store) (now : Time) (isBreakTime : bool)
    (fm : forming.FormingMachine) (pr : picker.PickerRobot)
    (sw : spotwelder.SpotWelder) :
  allowed (State (forming.base fm))
    (State (forming.base (fst (forming.Update clk fm st now isBreakTime))))
  = true
  /\ allowed (State (picker.base pr))
       (State (picker.base (fst (picker.Update clk pr st now isBreakTime))))
     = true
  /\ (let s := State (spotwelder.base sw) in
      let s' := State (spotwelder.base
                         (fst (spotwelder.Update clk sw st now isBreakTime))) in
      allowed s s' = true \/ (s = StateSetup /\ s' = StateIdle)).
Proof.
  split_and!.
  - apply forming_Update_allowed.
  - apply picker_Update_allowed.
  - apply spotwelder_Update_allowed.
Qed.

Lemma reaches_not (ts : list MachineState) (s : MachineState) bm bm' :
  reaches ts bm bm' -> state bm <> s -> ~ In s ts -> state bm' <> s.
Proof. intros [H|H] H1 H2; [congruence | intros <-; auto]. Qed.

(** A break reaches the three machines differently.  The running press
    goes to [PlannedStop] in the same update, whatever its phase, and its
    phase becomes [Idle]; the store is not touched.  The running picker
    does so only with an empty hand: while it holds a part the update does
    not take it to [PlannedStop].  The running welder only stops in phase
    [Idle]: within a cycle a break never takes it to [PlannedStop]. *)
Theorem break_stops_press_but_not_a_loaded_picker_or_a_working_welder
    (clk : Clock) (st : Store) (now : Time)
    (fm : forming.FormingMachine) (pr : picker.PickerRobot)
    (sw : spotwelder.SpotWelder) :
  (State (forming.base fm) = StateRunning ->
   let r := forming.Update clk fm st now true in
   State (forming.base (fst r)) = StatePlannedStop
   /\ forming.Phase (forming.formState (fst r)) = forming.PhaseIdle
   /\ snd r = st)
  /\ (State (picker.base pr) = StateRunning ->
      picker.HeldPartID (picker.pickerState pr) = EmptyString ->
      let r := picker.Update clk pr st now true in
      State (picker.base (fst r)) = StatePlannedStop /\ snd r = st)
  /\ (State (picker.base pr) = StateRunning ->
      picker.HeldPartID (picker.pickerState pr) <> EmptyString ->
      State (picker.base (fst (picker.Update clk pr st now true)))
      <> StatePlannedStop)
  /\ (State (spotwelder.base sw) = StateRunning ->
      spotwelder.Phase (spotwelder.welderState sw) <> spotwelder.PhaseIdle ->
      State (spotwelder.base (fst (spotwelder.Update clk sw st now true)))
      <> StatePlannedStop).
Proof.
  unfold State. split_and!.
  - intros E. unfold forming.Update, State. rewrite E.
    unfold forming.updateRunning. cbn. rewrite TransitionTo_state. auto.
  - intros E Hh. unfold picker.Update, State. rewrite E.
    unfold picker.updateRunning. rewrite Hh. cbn.
    rewrite TransitionTo_state. auto.
  - intros E Hh. unfold picker.Update, State. rewrite E. cbv zeta.
    eapply reaches_not.
    + apply picker_updateRunning_reaches.
      apply String.eqb_neq in Hh. rewrite Hh. reflexivity.
    + rewrite E. discriminate.
    + simpl. intros [H|[H|[]]]; discriminate.
  - intros E Hp. unfold spotwelder.Update. cbv zeta.
    assert (Hc : forall b : bool,
               spotwelder.base (if b then spotwelder.coolDown sw else sw)
               = spotwelder.base sw
               /\ spotwelder.Phase
                    (spotwelder.welderState
                       (if b then spotwelder.coolDown sw else sw))
                  = spotwelder.Phase (spotwelder.welderState sw))
      by (intros [|]; split; reflexivity).
    match goal with
    | |- context [if ?b then spotwelder.coolDown sw else sw] =>
        specialize (Hc b);
        generalize dependent (if b then spotwelder.coolDown sw else sw)
    end.
    intros sw0 [Hc1 Hc2]. rewrite <- Hc1 in E. rewrite <- Hc2 in Hp.
    unfold State. rewrite E.
    eapply reaches_not.
    + apply spotwelder_updateRunning_reaches.
      destruct (spotwelder.Phase (spotwelder.welderState sw0));
        try reflexivity. congruence.
    + rewrite E. discriminate.
    + simpl. intros [H|[H|[]]]; discriminate.
Qed.

(** ** Parts taken from the buffers *)

(** The end of the welder's setup.  Once the configured setup time (the
    static one) has elapsed in [Setup], the update pops the head of the
    input buffer: the welder is then [Running] in phase [Load] on that
    part, now [BEING_WELDED] and located at the welder, with no welds
    counted and the cycle started at [now]; the buffer keeps the other
    parts in order.  With an empty buffer the welder is back in [Idle] and
    the store is unchanged. *)
Theorem welder_setup_takes_head_part_or_returns_to_idle
    (clk : Clock) (sw : spotwelder.SpotWelder) (st : Store) (now : Time)
    (isBreakTime : bool) :
  State (spotwelder.base sw) = StateSetup ->
  SetupTime (Config (spotwelder.base sw))
  <= ElapsedInState (wall clk) (spotwelder.base sw) ->
  let inp := spotwelder.GetInputBuffer sw in
  let r := spotwelder.Update clk sw st now isBreakTime in
  let ws := spotwelder.welderState (fst r) in
  match Queue (buffer st inp) with
  | [] => State (spotwelder.base (fst r)) = StateIdle /\ snd r = st
  | part :: rest =>
      State (spotwelder.base (fst r)) = StateRunning
      /\ spotwelder.Phase ws = spotwelder.PhaseLoad
      /\ spotwelder.CurrentPartID ws = ID part
      /\ spotwelder.CurrentPart ws
         = Some (part_moved part PartStatusBeingWelded (spotwelder.name sw))
      /\ spotwelder.WeldsInCurrentPart ws = 0
      /\ CycleStartedAt (spotwelder.base (fst r)) = now
      /\ snd r = set_buffer st inp
                   (mkPartBuffer (MaxCapacity (buffer st inp)) rest)
  end.
Proof.
  intros E Hs inp r ws. subst inp r ws.
  unfold spotwelder.Update. cbv zeta.
  assert (Hc : forall b : bool,
             spotwelder.base (if b then spotwelder.coolDown sw else sw)
             = spotwelder.base sw
             /\ spotwelder.GetInputBuffer
                  (if b then spotwelder.coolDown sw else sw)
                = spotwelder.GetInputBuffer sw
             /\ spotwelder.name (if b then spotwelder.coolDown sw else sw)
                = spotwelder.name sw)
    by (intros [|]; split_and!; reflexivity).
  match goal with
  | |- context [if ?b then spotwelder.coolDown sw else sw] =>
      specialize (Hc b);
      generalize dependent (if b then spotwelder.coolDown sw else sw)
  end.
  intros sw0 (Hc1 & Hc2 & Hc3). rewrite <- Hc1 in *. rewrite <- Hc2, <- Hc3.
  clear Hc1 Hc2 Hc3 sw.
  rewrite E. unfold spotwelder.updateSetup.
  apply Z.leb_le in Hs. rewrite Hs. cbv zeta.
  unfold spotwelder.GetInputBuffer, Pop.
  destruct (Queue (buffer st (spotwelder.InputBuffer
                                (spotwelder.welderState sw0)))) as [|part rest].
  - cbn. rewrite TransitionTo_state. auto.
  - cbn. rewrite TransitionTo_state. split_and!; reflexivity.
Qed.

Lemma welder_setup_takes_head_part_or_returns_to_idle_witness :
  let r := spotwelder.Update clock0 settingUpWelder storeWelderFull
             (1000 * Second) false in
  State (spotwelder.base (fst r)) = StateRunning
  /\ spotwelder.CurrentPartID (spotwelder.welderState (fst r)) = ID partA
  /\ Queue (buffer (snd r) (spotwelder.GetInputBuffer settingUpWelder))
     = [partB; partC].
Proof.
  assert (Hstate : State (spotwelder.base settingUpWelder) = StateSetup)
    by (vm_compute; reflexivity).
  assert (Hsetup : SetupTime (Config (spotwelder.base settingUpWelder))
                   <= ElapsedInState (wall clock0)
                        (spotwelder.base settingUpWelder))
    by (vm_compute; congruence).
  pose proof (welder_setup_takes_head_part_or_returns_to_idle clock0
                settingUpWelder storeWelderFull (1000 * Second) false
                Hstate Hsetup) as H.
  cbv zeta in H.
  replace (Queue (buffer storeWelderFull
                    (spotwelder.GetInputBuffer settingUpWelder)))
    with [partA; partB; partC] in H by (vm_compute; reflexivity).
  destruct H as (H1 & _ & H3 & _ & _ & _ & H7).
  cbv zeta. split_and!; [exact H1 | exact H3 | rewrite H7; vm_compute; reflexivity].
Defined.

(** The end of the picker's [Grip] phase.  The gripper is closed and the
    phase is [RetractPickup] in every case.  With a part waiting, the
    picker holds the head of its input buffer, now [IN_TRANSIT] and located
    at the picker, and the buffer keeps the other parts in order.  With an
    empty buffer, or without an input buffer, the store is unchanged and
    the picker goes on with what it held before. *)
Theorem picker_grip_takes_head_part_or_closes_on_nothing
    (clk : Clock) (pr : picker.PickerRobot) (st : Store)
    (elapsed phaseStart phaseEnd : Duration) (now : Time) :
  phaseEnd <= elapsed ->
  let r := picker.updateGrip clk pr st elapsed phaseStart phaseEnd now in
  let ps := picker.pickerState (fst r) in
  picker.Phase ps = picker.PhaseRetractPickup
  /\ picker.Gripper ps = picker.GripperClosed
  /\ match picker.inputBuffer pr with
     | Some inp =>
         match Queue (buffer st inp) with
         | part :: rest =>
             picker.HeldPartID ps = ID part
             /\ picker.HeldPart ps
                = Some (part_moved part PartStatusInTransit (picker.name pr))
             /\ snd r = set_buffer st inp
                          (mkPartBuffer (MaxCapacity (buffer st inp)) rest)
         | [] =>
             picker.HeldPartID ps = picker.HeldPartID (picker.pickerState pr)
             /\ picker.HeldPart ps = picker.HeldPart (picker.pickerState pr)
             /\ snd r = st
         end
     | None =>
         picker.HeldPartID ps = picker.HeldPartID (picker.pickerState pr)
         /\ picker.HeldPart ps = picker.HeldPart (picker.pickerState pr)
         /\ snd r = st
     end.
Proof.
  intros Hs r ps. subst r ps. unfold picker.updateGrip. cbv zeta.
  apply Z.leb_le in Hs. rewrite Hs.
  destruct (picker.inputBuffer pr) as [inp|] eqn:Ei; cbn; rewrite Ei.
  - unfold Pop. destruct (Queue (buffer st inp)) as [|part rest]; cbn;
      split_and!; reflexivity.
  - split_and!; reflexivity.
Qed.

Lemma picker_grip_takes_head_part_or_closes_on_nothing_witness :
  let r := picker.updateGrip clock0 movingPicker storeFormingFull
             (8 * Second) (6 * Second) (7 * Second) (1000 * Second) in
  picker.HeldPartID (picker.pickerState (fst r)) = ID partA
  /\ Count (buffer (snd r) (forming.GetOutputBuffer ejectingFormer)) = 4.
Proof.
  pose proof (picker_grip_takes_head_part_or_closes_on_nothing clock0
                movingPicker storeFormingFull (8 * Second) (6 * Second)
                (7 * Second) (1000 * Second) ltac:(vm_compute; congruence))
    as H.
  cbv zeta in H. destruct H as (_ & _ & H).
  replace (picker.inputBuffer movingPicker) with (Some 0%nat) in H
    by (vm_compute; reflexivity).
  replace (Queue (buffer storeFormingFull 0))
    with [partA; partB; partC; partD; partNamed "PART-2026-01-12-0005"] in H
    by (vm_compute; reflexivity).
  destruct H as (H1 & _ & H3).
  cbv zeta. split; [exact H1 | rewrite H3; vm_compute; reflexivity].
Defined.

(** ** Failures and counters *)

(** The press fails only in the phases [Form] and [Hold], the welder only
    in [Weld]: in every other phase an update of the running machine
    leaves its error as it is and does not take it to [UnplannedStop],
    whatever the error rate and the generator. *)
Theorem press_and_welder_fail_only_while_forming_or_welding
    (clk : Clock) (st : Store) (now : Time) (isBreakTime : bool)
    (fm : forming.FormingMachine) (sw : spotwelder.SpotWelder) :
  (State (forming.base fm) = StateRunning ->
   forming.Phase (forming.formState fm) <> forming.PhaseForm ->
   forming.Phase (forming.formState fm) <> forming.PhaseHold ->
   let fm' := fst (forming.Update clk fm st now isBreakTime) in
   CurrentError (forming.base fm') = CurrentError (forming.base fm)
   /\ State (forming.base fm') <> StateUnplannedStop)
  /\ (State (spotwelder.base sw) = StateRunning ->
      spotwelder.Phase (spotwelder.welderState sw) <> spotwelder.PhaseWeld ->
      let sw' := fst (spotwelder.Update clk sw st now isBreakTime) in
      CurrentError (spotwelder.base sw') = CurrentError (spotwelder.base sw)
      /\ State (spotwelder.base sw') <> StateUnplannedStop).
Proof.
  unfold State. split.
  - intros E Hf Hh.
    assert (Hm : mild (forming.base fm)
                   (forming.base (fst (forming.Update clk fm st now
                                         isBreakTime)))).
    { unfold forming.Update, State. rewrite E. cbv zeta.
      destruct isBreakTime.
      - unfold forming.updateRunning. mild_solve.
      - apply (forming_updateRunning_quiet clk fm fm).
        unfold forming.shouldTriggerError.
        destruct (forming.Phase (forming.formState fm));
          try reflexivity; congruence. }
    destruct Hm as [H1 H2]. split; [exact H1|]. apply H2. rewrite E.
    discriminate.
  - intros E Hw.
    unfold spotwelder.Update. cbv zeta.
    assert (Hc : forall b : bool,
               spotwelder.base (if b then spotwelder.coolDown sw else sw)
               = spotwelder.base sw
               /\ spotwelder.Phase
                    (spotwelder.welderState
                       (if b then spotwelder.coolDown sw else sw))
                  = spotwelder.Phase (spotwelder.welderState sw))
      by (intros [|]; split; reflexivity).
    match goal with
    | |- context [if ?b then spotwelder.coolDown sw else sw] =>
        specialize (Hc b);
        generalize dependent (if b then spotwelder.coolDown sw else sw)
    end.
    intros sw0 [Hc1 Hc2]. rewrite <- Hc1 in *. rewrite <- Hc2 in Hw.
    unfold State. rewrite E.
    assert (Hm : mild (spotwelder.base sw0)
                   (spotwelder.base
                      (fst (spotwelder.updateRunning clk sw0 st now
                              isBreakTime)))).
    { apply (spotwelder_updateRunning_quiet clk sw0 sw0).
      unfold spotwelder.shouldTriggerError.
      destruct (spotwelder.Phase (spotwelder.welderState sw0));
        try reflexivity; congruence. }
    destruct Hm as [H1 H2]. split; [exact H1|]. apply H2. rewrite E.
    discriminate.
Qed.

Lemma TransitionTo_counters wall bm s :
  GoodParts (TransitionTo wall bm s) = GoodParts bm
  /\ ScrapParts (TransitionTo wall bm s) = ScrapParts bm.
Proof.
  unfold TransitionTo. destruct (MachineState_eqb (state bm) s); [auto|].
  unfold fire. destruct (OnStateChange _); auto.
Qed.

Lemma CompleteCycle_counters bm st b :
  GoodParts (fst (CompleteCycle bm st b))
  = (if b then GoodParts bm else incr (GoodParts bm))
  /\ ScrapParts (fst (CompleteCycle bm st b))
     = (if b then incr (ScrapParts bm) else ScrapParts bm).
Proof.
  unfold CompleteCycle, fire.
  destruct b; simpl; destruct (CurrentOrder bm); simpl;
    destruct (OnCycleComplete _); simpl; auto.
Qed.

(** The picker and the welder count each finished cycle twice in the part
    counters: [completeCycle] raises the counter itself and then calls
    [CompleteCycle], which raises it again.  A picker cycle adds two good
    parts; a welder cycle adds two to [GoodParts], or two to [ScrapParts]
    when the quality roll fails, and nothing to the other counter.  The
    cycle counter advances by one. *)
Theorem picker_and_welder_count_every_cycle_twice
    (clk : Clock) (st : Store) (now : Time)
    (pr : picker.PickerRobot) (sw : spotwelder.SpotWelder) :
  (let pr' := fst (picker.completeCycle clk pr st now) in
   GoodParts (picker.base pr') = incr (incr (GoodParts (picker.base pr)))
   /\ ScrapParts (picker.base pr') = ScrapParts (picker.base pr)
   /\ picker.GetCycleCount pr' = incr (picker.GetCycleCount pr))
  /\ (let sw' := fst (spotwelder.completeCycle clk sw st now) in
      let scrapped :=
        fst (Bool (spotwelder.noise sw)
                  (ScrapRate (Config (spotwelder.base sw)))) in
      spotwelder.GetCycleCount sw' = incr (spotwelder.GetCycleCount sw)
      /\ if scrapped
         then ScrapParts (spotwelder.base sw')
              = incr (incr (ScrapParts (spotwelder.base sw)))
              /\ GoodParts (spotwelder.base sw')
                 = GoodParts (spotwelder.base sw)
         else GoodParts (spotwelder.base sw')
              = incr (incr (GoodParts (spotwelder.base sw)))
              /\ ScrapParts (spotwelder.base sw')
                 = ScrapParts (spotwelder.base sw)).
Proof.
  split.
  - unfold picker.completeCycle. cbv zeta.
    match goal with
    | |- context [CompleteCycle ?bm ?st ?b] =>
        pose proof (CompleteCycle_counters bm st b) as [HG HS];
        destruct (CompleteCycle bm st b) as [bm' st']
    end.
    cbn in HG, HS.
    destruct (match picker.inputBuffer _ with Some _ => _ | None => _ end);
      cbn; rewrite ?(proj1 (TransitionTo_counters _ _ _)),
             ?(proj2 (TransitionTo_counters _ _ _)); auto.
  - unfold spotwelder.completeCycle. cbv zeta.
    destruct (Bool _ _) as [isScrap ng]. cbn [fst].
    destruct isScrap;
      match goal with
      | |- context [CompleteCycle ?bm ?st ?b] =>
          pose proof (CompleteCycle_counters bm st b) as [HG HS];
          destruct (CompleteCycle bm st b) as [bm' st']
      end; cbn in HG, HS.
    all: destruct (0 <? Count _).
    all: try (destruct (Pop _) as [pb [part|]]).
    all: cbn; rewrite ?(proj1 (TransitionTo_counters _ _ _)),
             ?(proj2 (TransitionTo_counters _ _ _)); auto.
Qed.

Lemma wrap64_small (z : Z) : minInt64 <= z <= maxInt64 -> wrap64 z = z.
Proof.
  unfold wrap64, minInt64, maxInt64. intros H.
  rewrite Z.mod_small by lia. lia.
Qed.

Lemma UniformInt_0_5 (ng : NoiseGenerator) :
  0 <= fst (UniformInt ng 0 5) <= 5.
Proof.
  unfold UniformInt, Intn. cbn [fst].
  replace (add (sub 5 0) 1) with 6 by reflexivity.
  pose proof (Z.mod_pos_bound (intns ng (nextInt ng)) 6 ltac:(lia)) as H.
  unfold add. rewrite wrap64_small; unfold minInt64, maxInt64; lia.
Qed.

Lemma TriggerError_counters wall bm c m d :
  GoodParts (TriggerError wall bm c m d) = GoodParts bm
  /\ ScrapParts (TriggerError wall bm c m d) = ScrapParts bm.
Proof.
  unfold TriggerError. cbv zeta. unfold fire at 1.
  destruct (OnError _); cbn; rewrite ?(proj1 (TransitionTo_counters _ _ _)),
    ?(proj2 (TransitionTo_counters _ _ _)); auto.
Qed.

Lemma picker_triggerError_spec
    (clk : Clock) (pr : picker.PickerRobot) (st : Store) (now : Time) :
  let i := fst (UniformInt (picker.noise pr) 0 5) in
  let ps := picker.pickerState pr in
  let pr' := picker.triggerError clk pr st now in
  let ps' := picker.pickerState pr' in
  State (picker.base pr') = StateUnplannedStop
  /\ picker.Phase ps' = picker.PhaseIdle
  /\ (exists e, CurrentError (picker.base pr') = Some e
                /\ Code e = nth (Z.to_nat i) picker.AllErrorCodes EmptyString
                /\ OccurredAt e = wall clk)
  /\ (i = 3 -> picker.HeldPartID ps <> EmptyString ->
      picker.HeldPart ps' = None
      /\ picker.HeldPartID ps' = EmptyString
      /\ picker.Gripper ps' = picker.GripperOpen
      /\ ScrapParts (picker.base pr') = incr (ScrapParts (picker.base pr)))
  /\ (i <> 3 \/ picker.HeldPartID ps = EmptyString ->
      picker.HeldPart ps' = picker.HeldPart ps
      /\ picker.HeldPartID ps' = picker.HeldPartID ps
      /\ ScrapParts (picker.base pr') = ScrapParts (picker.base pr)).
Proof.
  intros i ps pr' ps'. subst ps' pr' ps.
  pose proof (UniformInt_0_5 (picker.noise pr)) as Hi. fold i in Hi.
  unfold picker.triggerError. cbv zeta.
  replace (sub (len picker.AllErrorCodes) 1) with 5 by reflexivity.
  fold i.
  destruct (UniformInt (picker.noise pr) 0 5) as [i0 ng] eqn:EU.
  cbn [fst] in i. subst i.
  destruct (picker.GetErrorInfo _) as [[message minDur] maxDur].
  destruct (Uniform _ _ _) as [d ng'].
  assert (Hcode : String.eqb (nth (Z.to_nat i0) picker.AllErrorCodes
                                 picker.ErrorNone) picker.ErrorPartDropped
                  = (i0 =? 3)).
  { assert (i0 = 0 \/ i0 = 1 \/ i0 = 2 \/ i0 = 3 \/ i0 = 4 \/ i0 = 5)
      as [->|[->|[->|[->|[->| ->]]]]] by lia; reflexivity. }
  rewrite Hcode. cbn [picker.pickerState picker.with_noise].
  destruct (i0 =? 3) eqn:E3;
    destruct (String.eqb (picker.HeldPartID (picker.pickerState pr))
                         EmptyString) eqn:Eh; cbn [andb negb].
  all: cbn; rewrite TriggerError_state, TriggerError_CurrentError;
    rewrite ?(proj2 (TriggerError_counters _ _ _ _ _)).
  all: apply Z.eqb_eq in E3 || apply Z.eqb_neq in E3.
  all: apply String.eqb_eq in Eh || apply String.eqb_neq in Eh.
  all: split_and!; try reflexivity; try (eexists; split_and!; reflexivity).
  all: try (intros; split_and!; reflexivity).
  all: try (intros; congruence).
  all: try (intros [?|?]; congruence).
Qed.

Lemma spotwelder_triggerError_spec
    (clk : Clock) (sw : spotwelder.SpotWelder) (now : Time) :
  let i := fst (UniformInt (spotwelder.noise sw) 0 5) in
  let ws := spotwelder.welderState sw in
  let hot := (spotwelder.MaxElectrodeTemp (spotwelder.welderConfig sw)
              <? spotwelder.ElectrodeTemp ws)%float in
  let sw' := spotwelder.triggerError clk sw now in
  let ws' := spotwelder.welderState sw' in
  let code := if hot then spotwelder.ErrorOverheat
              else nth (Z.to_nat i) spotwelder.AllErrorCodes EmptyString in
  State (spotwelder.base sw') = StateUnplannedStop
  /\ spotwelder.Phase ws' = spotwelder.PhaseIdle
  /\ (exists e, CurrentError (spotwelder.base sw') = Some e
                /\ Code e = code /\ OccurredAt e = wall clk)
  /\ (hot = false -> i = 5 -> spotwelder.CurrentPartID ws <> EmptyString ->
      spotwelder.CurrentPart ws' = None
      /\ spotwelder.CurrentPartID ws' = EmptyString
      /\ ScrapParts (spotwelder.base sw')
         = incr (ScrapParts (spotwelder.base sw)))
  /\ (hot = true \/ i <> 5 \/ spotwelder.CurrentPartID ws = EmptyString ->
      spotwelder.CurrentPart ws' = spotwelder.CurrentPart ws
      /\ spotwelder.CurrentPartID ws' = spotwelder.CurrentPartID ws
      /\ ScrapParts (spotwelder.base sw') = ScrapParts (spotwelder.base sw)).
Proof.
  intros i ws hot sw' ws' code. subst code ws' sw'.
  pose proof (UniformInt_0_5 (spotwelder.noise sw)) as Hi. fold i in Hi.
  unfold spotwelder.triggerError. cbv zeta.
  replace (sub (len spotwelder.AllErrorCodes) 1) with 5 by reflexivity.
  fold i.
  destruct (UniformInt (spotwelder.noise sw) 0 5) as [i0 ng] eqn:EU.
  cbn [fst] in i. subst i.
  cbn [spotwelder.welderState spotwelder.welderConfig spotwelder.with_noise].
  fold ws. fold hot.
  assert (Hcode : String.eqb (nth (Z.to_nat i0) spotwelder.AllErrorCodes
                                 spotwelder.ErrorNone)
                             spotwelder.ErrorQualityReject
                  = (i0 =? 5)).
  { assert (i0 = 0 \/ i0 = 1 \/ i0 = 2 \/ i0 = 3 \/ i0 = 4 \/ i0 = 5)
      as [->|[->|[->|[->|[->| ->]]]]] by lia; reflexivity. }
  destruct hot eqn:Ehot.
  - destruct (spotwelder.GetErrorInfo _) as [[message minDur] maxDur].
    destruct (Uniform _ _ _) as [d ng'].
    replace (String.eqb spotwelder.ErrorOverheat spotwelder.ErrorQualityReject)
      with false by reflexivity.
    cbn [andb]. cbn.
    rewrite TriggerError_state, TriggerError_CurrentError,
      (proj2 (TriggerError_counters _ _ _ _ _)).
    split_and!; try reflexivity; try (eexists; split_and!; reflexivity).
    + intros; congruence.
    + intros; split_and!; reflexivity.
  - destruct (spotwelder.GetErrorInfo _) as [[message minDur] maxDur].
    destruct (Uniform _ _ _) as [d ng'].
    rewrite Hcode.
    destruct (i0 =? 5) eqn:E5;
      destruct (String.eqb (spotwelder.CurrentPartID ws) EmptyString) eqn:Eh;
      cbn [andb negb].
    all: cbn; rewrite TriggerError_state, TriggerError_CurrentError;
      rewrite ?(proj2 (TriggerError_counters _ _ _ _ _)).
    all: apply Z.eqb_eq in E5 || apply Z.eqb_neq in E5.
    all: apply String.eqb_eq in Eh || apply String.eqb_neq in Eh.
    all: split_and!; try reflexivity; try (eexists; split_and!; reflexivity).
    all: try (intros; split_and!; reflexivity).
    all: try (intros; congruence).
    all: try (intros [?|[?|?]]; congruence).
Qed.

(** What an error does to the part in hand.  [triggerError] always ends in
    [UnplannedStop] with phase [Idle] and an error that occurred at the
    wall clock.  The picker's error code is the drawn one; it loses the
    part it holds (counted as scrap, gripper open) exactly when the code is
    [P004] (index 3) and it holds a part, and keeps hand and scrap counter
    as they are otherwise.  The welder's code is [S004] whenever the
    electrode is hotter than [MaxElectrodeTemp], whatever was drawn, and
    the drawn code otherwise; it lets the part go as scrap exactly when the
    electrode is not too hot, the drawn code is [S006] (index 5) and there
    is a part, and keeps part and scrap counter otherwise. *)
Theorem machine_error_scraps_the_part_in_hand_only_for_one_code
    (clk : Clock) (st : Store) (now : Time)
    (pr : picker.PickerRobot) (sw : spotwelder.SpotWelder) :
  (let i := fst (UniformInt (picker.noise pr) 0 5) in
   let ps := picker.pickerState pr in
   let pr' := picker.triggerError clk pr st now in
   let ps' := picker.pickerState pr' in
   State (picker.base pr') = StateUnplannedStop
   /\ picker.Phase ps' = picker.PhaseIdle
   /\ (exists e, CurrentError (picker.base pr') = Some e
                 /\ Code e = nth (Z.to_nat i) picker.AllErrorCodes EmptyString
                 /\ OccurredAt e = wall clk)
   /\ (i = 3 -> picker.HeldPartID ps <> EmptyString ->
       picker.HeldPart ps' = None
       /\ picker.HeldPartID ps' = EmptyString
       /\ picker.Gripper ps' = picker.GripperOpen
       /\ ScrapParts (picker.base pr') = incr (ScrapParts (picker.base pr)))
   /\ (i <> 3 \/ picker.HeldPartID ps = EmptyString ->
       picker.HeldPart ps' = picker.HeldPart ps
       /\ picker.HeldPartID ps' = picker.HeldPartID ps
       /\ ScrapParts (picker.base pr') = ScrapParts (picker.base pr)))
  /\ (let i := fst (UniformInt (spotwelder.noise sw) 0 5) in
      let ws := spotwelder.welderState sw in
      let hot := (spotwelder.MaxElectrodeTemp (spotwelder.welderConfig sw)
                  <? spotwelder.ElectrodeTemp ws)%float in
      let sw' := spotwelder.triggerError clk sw now in
      let ws' := spotwelder.welderState sw' in
      let code := if hot then spotwelder.ErrorOverheat
                  else nth (Z.to_nat i) spotwelder.AllErrorCodes EmptyString in
      State (spotwelder.base sw') = StateUnplannedStop
      /\ spotwelder.Phase ws' = spotwelder.PhaseIdle
      /\ (exists e, CurrentError (spotwelder.base sw') = Some e
                    /\ Code e = code /\ OccurredAt e = wall clk)
      /\ (hot = false -> i = 5 -> spotwelder.CurrentPartID ws <> EmptyString ->
          spotwelder.CurrentPart ws' = None
          /\ spotwelder.CurrentPartID ws' = EmptyString
          /\ ScrapParts (spotwelder.base sw')
             = incr (ScrapParts (spotwelder.base sw)))
      /\ (hot = true \/ i <> 5 \/ spotwelder.CurrentPartID ws = EmptyString ->
          spotwelder.CurrentPart ws' = spotwelder.CurrentPart ws
          /\ spotwelder.CurrentPartID ws' = spotwelder.CurrentPartID ws
          /\ ScrapParts (spotwelder.base sw') = ScrapParts (spotwelder.base sw))).
Proof.
  split.
  - apply picker_triggerError_spec.
  - apply spotwelder_triggerError_spec.
Qed.

(** [Start] resets the phase of a machine to [Idle] but not its state.
    For a machine that is [Running] this is a state that no update
    outside a break leaves: the update of the started machine returns the
    machine and the store unchanged, at every time, for the press, the
    picker and the welder alike. *)
Theorem restart_leaves_running_machines_idle_in_their_cycle
    (clk : Clock) (st : Store) (now : Time)
    (fm : forming.FormingMachine) (pr : picker.PickerRobot)
    (sw : spotwelder.SpotWelder) :
  (State (forming.base fm) = StateRunning ->
   forming.Update clk (forming.Start fm) st now false
   = (forming.Start fm, st))
  /\ (State (picker.base pr) = StateRunning ->
      picker.Update clk (picker.Start pr) st now false
      = (picker.Start pr, st))
  /\ (State (spotwelder.base sw) = StateRunning ->
      spotwelder.Update clk (spotwelder.Start sw) st now false
      = (spotwelder.Start sw, st)).
Proof.
  unfold State. split_and!; intros E.
  - unfold forming.Update, State. cbn [forming.Start forming.base
      forming.with_CurrentRamPosition forming.with_CycleCount
      forming.with_Phase forming.with_formState forming.formState].
    rewrite E. unfold forming.updateRunning, forming.shouldTriggerError.
    cbn. rewrite andb_false_r. reflexivity.
  - unfold picker.Update, State.
    replace (state (picker.base (picker.Start pr))) with (state (picker.base pr))
      by reflexivity.
    rewrite E. unfold picker.updateRunning, picker.shouldTriggerError.
    cbn. reflexivity.
  - unfold spotwelder.Update, State.
    replace (spotwelder.Phase (spotwelder.welderState (spotwelder.Start sw)))
      with spotwelder.PhaseIdle by reflexivity.
    cbn [spotwelder.SpotWelderPhase_eqb negb].
    replace (spotwelder.coolDown (spotwelder.Start sw))
      with (spotwelder.Start sw) by reflexivity.
    replace (state (spotwelder.base (spotwelder.Start sw)))
      with (state (spotwelder.base sw)) by reflexivity.
    rewrite E. unfold spotwelder.updateRunning, spotwelder.shouldTriggerError.
    cbn. reflexivity.
Qed.

(** ** The end of a stop *)

Lemma planned_stop_ends wall bm brk :
  State bm = StatePlannedStop ->
  State (if negb brk then TransitionTo wall bm StateIdle else bm)
  = (if brk then StatePlannedStop else StateIdle)
  /\ CurrentError (if negb brk then TransitionTo wall bm StateIdle else bm)
     = CurrentError bm.
Proof.
  intros E. destruct brk; cbn [negb]; [auto|].
  unfold State. rewrite TransitionTo_state, TransitionTo_CurrentError. auto.
Qed.

Lemma unplanned_stop_ends wall bm now :
  let bm' := if IsErrorResolved bm now
             then TransitionTo wall (ClearError bm) StateIdle else bm in
  match CurrentError bm with
  | Some err =>
      if ExpectedEnd err <? now
      then State bm' = StateIdle /\ CurrentError bm' = None
      else bm' = bm
  | None => bm' = bm
  end.
Proof.
  unfold IsErrorResolved, After. destruct (CurrentError bm) as [err|] eqn:E;
    [|reflexivity].
  destruct (ExpectedEnd err <? now); [|reflexivity].
  unfold State. rewrite TransitionTo_state, TransitionTo_CurrentError. auto.
Qed.

(** How stops end, for each of the three machines.  A machine in
    [PlannedStop] stays there while the break lasts and is [Idle] after the
    first update outside it.  A machine in [UnplannedStop] becomes [Idle],
    with the error cleared, at the first update strictly after the
    expected end of its error; at the expected end itself, and before, the
    update leaves the machine's base as it is.  Without a recorded error
    the machine never leaves [UnplannedStop]. *)
Theorem stops_end_with_the_break_or_strictly_after_the_expected_end
    (clk : Clock) (st : Store) (now : Time) (isBreakTime : bool)
    (fm : forming.FormingMachine) (pr : picker.PickerRobot)
    (sw : spotwelder.SpotWelder) :
  stopEnds (forming.base fm)
    (forming.base (fst (forming.Update clk fm st now isBreakTime)))
    now isBreakTime
  /\ stopEnds (picker.base pr)
       (picker.base (fst (picker.Update clk pr st now isBreakTime)))
       now isBreakTime
  /\ stopEnds (spotwelder.base sw)
       (spotwelder.base (fst (spotwelder.Update clk sw st now isBreakTime)))
       now isBreakTime.
Proof.
  split_and!.
  - split; intros E; unfold forming.Update; rewrite E; cbn [fst].
    + unfold forming.updatePlannedStop.
      pose proof (planned_stop_ends (wall clk) (forming.base fm) isBreakTime E)
        as H.
      destruct (negb isBreakTime); exact H.
    + unfold forming.updateUnplannedStop.
      pose proof (unplanned_stop_ends (wall clk) (forming.base fm) now) as H.
      cbv zeta in H. destruct (IsErrorResolved _ _); exact H.
  - split; intros E; unfold picker.Update; rewrite E; cbn [fst].
    + unfold picker.updatePlannedStop.
      pose proof (planned_stop_ends (wall clk) (picker.base pr) isBreakTime E)
        as H.
      destruct (negb isBreakTime); exact H.
    + unfold picker.updateUnplannedStop.
      pose proof (unplanned_stop_ends (wall clk) (picker.base pr) now) as H.
      cbv zeta in H. destruct (IsErrorResolved _ _); exact H.
  - unfold spotwelder.Update. cbv zeta.
    assert (Hc : forall b : bool,
               spotwelder.base (if b then spotwelder.coolDown sw else sw)
               = spotwelder.base sw) by (intros [|]; reflexivity).
    match goal with
    | |- context [if ?b then spotwelder.coolDown sw else sw] =>
        specialize (Hc b);
        generalize dependent (if b then spotwelder.coolDown sw else sw)
    end.
    intros sw0 Hc. rewrite <- Hc. clear Hc sw.
    split; intros E; rewrite E; cbn [fst].
    + unfold spotwelder.updatePlannedStop.
      pose proof (planned_stop_ends (wall clk) (spotwelder.base sw0)
                    isBreakTime E) as H.
      destruct (negb isBreakTime); exact H.
    + unfold spotwelder.updateUnplannedStop.
      pose proof (unplanned_stop_ends (wall clk) (spotwelder.base sw0) now)
        as H.
      cbv zeta in H. destruct (IsErrorResolved _ _); exact H.
Qed.

(** ** Orders of the press *)

Lemma order_set_order_ne (st : Store) (o p : nat) (x : ProductionOrder) :
  p <> o -> order (set_order st o x) p = order st p.
Proof.
  intros H. unfold order, set_order, Heap.deref, Heap.assign. simpl.
  apply list_lookup_total_insert_ne. auto.
Qed.

Lemma TransitionTo_keeps_orders wall bm s :
  CurrentOrder (TransitionTo wall bm s) = CurrentOrder bm
  /\ OrderQueue (TransitionTo wall bm s) = OrderQueue bm.
Proof.
  unfold TransitionTo. destruct (MachineState_eqb (state bm) s); [auto|].
  unfold fire. destruct (OnStateChange _); auto.
Qed.

(** The idle press takes its orders in the order of their arrival.  With
    no current order and an empty queue it stays [Idle] and the store is
    unchanged.  With no current order and a queue it goes to [Setup] on the
    head of the queue: that order becomes the current one, is marked
    [IN_PROGRESS] with [StartedAt = now], the rest of the queue is kept
    and no other order is touched.  With a current order it goes to
    [Setup] on that order and leaves the queue and the store alone. *)
Theorem idle_press_starts_the_oldest_queued_order
    (clk : Clock) (fm : forming.FormingMachine) (st : Store) (now : Time)
    (isBreakTime : bool) :
  State (forming.base fm) = StateIdle ->
  let r := forming.Update clk fm st now isBreakTime in
  let bm' := forming.base (fst r) in
  match CurrentOrder (forming.base fm), OrderQueue (forming.base fm) with
  | None, [] =>
      State bm' = StateIdle /\ CurrentOrder bm' = None /\ snd r = st
  | None, o :: rest =>
      State bm' = StateSetup
      /\ CurrentOrder bm' = Some o
      /\ OrderQueue bm' = rest
      /\ ((o < length (orders st))%nat ->
          order (snd r) o
          = order_with_StartedAt
              (order_with_Status (order st o) OrderStatusInProgress) now)
      /\ (forall p, p <> o -> order (snd r) p = order st p)
  | Some o, queue =>
      State bm' = StateSetup
      /\ CurrentOrder bm' = Some o
      /\ OrderQueue bm' = queue
      /\ snd r = st
  end.
Proof.
  intros E r bm'. subst bm' r. unfold forming.Update. rewrite E.
  unfold forming.updateIdle. cbv zeta.
  cbn [forming.base forming.with_CurrentRamPosition forming.with_Phase
       forming.with_formState].
  destruct (CurrentOrder (forming.base fm)) as [o|] eqn:Eo.
  - cbn. unfold State. rewrite TransitionTo_state.
    pose proof (TransitionTo_keeps_orders (wall clk) (forming.base fm)
                  StateSetup) as [H1 H2].
    rewrite H1, H2, Eo. auto.
  - unfold StartNextOrder.
    destruct (OrderQueue (forming.base fm)) as [|o rest] eqn:Eq.
    + change (0 <? len (@nil nat)) with false. cbn. unfold State in *.
      rewrite E, Eo. auto.
    + replace (0 <? len (o :: rest)) with true
        by (symmetry; apply Z.ltb_lt; unfold len; simpl; lia).
      cbn. unfold State. rewrite TransitionTo_state.
      match goal with
      | |- context [TransitionTo ?w ?bm ?s] =>
          pose proof (TransitionTo_keeps_orders w bm s) as [H1 H2]
      end.
      rewrite H1, H2. cbn.
      split_and!; try reflexivity.
      * intros Ho. rewrite order_set_order;
          [|rewrite orders_set_order; exact Ho].
        rewrite order_set_order by exact Ho. reflexivity.
      * intros p Hp. rewrite !order_set_order_ne by exact Hp. reflexivity.
Qed.

Lemma idle_press_starts_the_oldest_queued_order_witness :
  let r := forming.Update clock0 queuedFormer storeWithOrder
             (1000 * Second) false in
  State (forming.base (fst r)) = StateSetup
  /\ CurrentOrder (forming.base (fst r)) = Some 0%nat
  /\ Status (order (snd r) 0) = OrderStatusInProgress.
Proof.
  pose proof (idle_press_starts_the_oldest_queued_order clock0 queuedFormer
                storeWithOrder (1000 * Second) false
                ltac:(vm_compute; reflexivity)) as H.
  cbv zeta in H.
  replace (CurrentOrder (forming.base queuedFormer)) with (@None nat) in H
    by (vm_compute; reflexivity).
  replace (OrderQueue (forming.base queuedFormer)) with [0%nat] in H
    by (vm_compute; reflexivity).
  destruct H as (H1 & H2 & _ & H4 & _).
  cbv zeta. split_and!; [exact H1 | exact H2 |].
  rewrite H4 by (vm_compute; lia). reflexivity.
Defined.

(** The end of a press cycle.  The cycle counter advances by one.  When
    the good and scrap parts of the current order add up to its quantity or
    more, the order is marked [COMPLETED], the press has no current order
    and is [Idle] in phase [Idle], and no other order is touched.
    Otherwise, and always without a current order, the press stays in its
    state and starts the next cycle at [now] in phase [Load] with the next
    part number; the store is unchanged. *)
Theorem press_finishes_order_when_good_and_scrap_reach_quantity
    (clk : Clock) (fm : forming.FormingMachine) (st : Store) (now : Time) :
  let r := forming.completeCycle clk fm st now in
  let bm' := forming.base (fst r) in
  let fs' := forming.formState (fst r) in
  forming.CycleCount fs' = incr (forming.CycleCount (forming.formState fm))
  /\ match CurrentOrder (forming.base fm) with
     | Some o =>
         if Quantity (order st o)
            <=? add (QuantityCompleted (order st o))
                    (QuantityScrap (order st o))
         then State bm' = StateIdle
              /\ forming.Phase fs' = forming.PhaseIdle
              /\ CurrentOrder bm' = None
              /\ ((o < length (orders st))%nat ->
                  order (snd r) o
                  = order_with_Status (order st o) OrderStatusCompleted)
              /\ (forall p, p <> o -> order (snd r) p = order st p)
         else State bm' = State (forming.base fm)
              /\ forming.Phase fs' = forming.PhaseLoad
              /\ CurrentOrder bm' = Some o
              /\ CycleStartedAt bm' = now
              /\ forming.partCounter (fst r) = incr (forming.partCounter fm)
              /\ snd r = st
     | None =>
         State bm' = State (forming.base fm)
         /\ forming.Phase fs' = forming.PhaseLoad
         /\ CurrentOrder bm' = None
         /\ CycleStartedAt bm' = now
         /\ forming.partCounter (fst r) = incr (forming.partCounter fm)
         /\ snd r = st
     end.
Proof.
  intros r bm' fs'. subst fs' bm' r.
  unfold forming.completeCycle, IsOrderComplete, FinishOrder. cbv zeta.
  cbn [forming.base forming.with_CycleCount forming.with_formState
       forming.formState].
  destruct (CurrentOrder (forming.base fm)) as [o|] eqn:Eo.
  - destruct (Quantity (order st o) <=? _) eqn:Eq.
    + cbn. unfold State. rewrite TransitionTo_state.
      match goal with
      | |- context [TransitionTo ?w ?bm ?s] =>
          pose proof (TransitionTo_keeps_orders w bm s) as [H1 H2]
      end.
      rewrite H1. unfold fire. destruct (OnOrderComplete _); cbn.
      all: split_and!; try reflexivity.
      all: try (intros Ho; apply order_set_order; exact Ho).
      all: intros p Hp; apply order_set_order_ne; exact Hp.
    + cbn. rewrite Eo. split_and!; reflexivity.
  - cbn. rewrite Eo. split_and!; reflexivity.
Qed.

(** ** The coordinator's books *)

Lemma updateLineState_keeps (c : ProductionLineCoordinator) (w : World) :
  let c' := updateLineState c w in
  formingMachine c' = formingMachine c /\ pickerRobot c' = pickerRobot c
  /\ spotWelder c' = spotWelder c /\ config c' = config c
  /\ startTime c' = startTime c /\ lastUpdate c' = lastUpdate c
  /\ uptime c' = uptime c /\ downtime c' = downtime c
  /\ totalPartsCompleted c' = totalPartsCompleted c
  /\ totalPartsScrap c' = totalPartsScrap c
  /\ totalPartsStarted c' = totalPartsStarted c
  /\ formingCompleted c' = formingCompleted c
  /\ pickingCompleted c' = pickingCompleted c
  /\ weldingCompleted c' = weldingCompleted c
  /\ currentOrder c' = currentOrder c.
Proof.
  unfold updateLineState. cbv zeta.
  destruct (if welderStopped c w then _ else _);
    [|destruct (String.eqb _ _)]; cbn; split_and!; reflexivity.
Qed.

Lemma updateCounters_spec (c : ProductionLineCoordinator) (w : World) :
  let c' := updateCounters c w in
  match spotWelder c with
  | Some s =>
      totalPartsCompleted c' = GoodParts (spotwelder.base (welder w s))
      /\ totalPartsScrap c' = ScrapParts (spotwelder.base (welder w s))
      /\ weldingCompleted c' = GoodParts (spotwelder.base (welder w s))
  | None =>
      totalPartsCompleted c' = totalPartsCompleted c
      /\ totalPartsScrap c' = totalPartsScrap c
      /\ weldingCompleted c' = weldingCompleted c
  end
  /\ match pickerRobot c with
     | Some p => pickingCompleted c' = GoodParts (picker.base (pickerAt w p))
     | None => pickingCompleted c' = pickingCompleted c
     end
  /\ match formingMachine c with
     | Some f =>
         formingCompleted c' = GoodParts (forming.base (former w f))
         /\ totalPartsStarted c' = GoodParts (forming.base (former w f))
     | None =>
         formingCompleted c' = formingCompleted c
         /\ totalPartsStarted c' = totalPartsStarted c
     end
  /\ formingMachine c' = formingMachine c /\ pickerRobot c' = pickerRobot c
  /\ spotWelder c' = spotWelder c /\ config c' = config c
  /\ uptime c' = uptime c /\ downtime c' = downtime c
  /\ startTime c' = startTime c /\ lastUpdate c' = lastUpdate c.
Proof.
  unfold updateCounters, GetCounters.
  destruct c as [cfg f p s ls stt lu tc ts tst fc pc wc up dn co lec lem ae].
  cbn. destruct s, p, f; cbn; split_and!; reflexivity.
Qed.

Lemma updateErrorTracking_spec (c : ProductionLineCoordinator) (w : World) :
  let c' := updateErrorTracking c w in
  activeErrors c'
  = match formingMachine c with
    | Some f => errorCount (CurrentError (forming.base (former w f)))
    | None => 0
    end
    + match pickerRobot c with
      | Some p => errorCount (CurrentError (picker.base (pickerAt w p)))
      | None => 0
      end
    + match spotWelder c with
      | Some s => errorCount (CurrentError (spotwelder.base (welder w s)))
      | None => 0
      end
  /\ totalPartsCompleted c' = totalPartsCompleted c
  /\ totalPartsScrap c' = totalPartsScrap c
  /\ totalPartsStarted c' = totalPartsStarted c
  /\ formingCompleted c' = formingCompleted c
  /\ pickingCompleted c' = pickingCompleted c
  /\ weldingCompleted c' = weldingCompleted c
  /\ uptime c' = uptime c /\ downtime c' = downtime c
  /\ startTime c' = startTime c /\ lastUpdate c' = lastUpdate c.
Proof.
  unfold updateErrorTracking.
  destruct c as [cfg f p s ls stt lu tc ts tst fc pc wc up dn co lec lem ae].
  cbn. destruct f, p, s; cbn;
    repeat match goal with
           | |- context [CurrentError ?bm] => destruct (CurrentError bm); cbn
           end;
    split_and!; reflexivity.
Qed.

(** The coordinator of [Update] when the machines are updated: the line
    state is set and the elapsed time is booked. *)
Lemma Update_unfold clk c w now brk :
  exists c3,
    Update clk c w now brk
    = (updateErrorTracking (updateCounters c3 (updateMachines clk c3 w now brk))
         (updateMachines clk c3 w now brk),
       updateMachines clk c3 w now brk)
    /\ formingMachine c3 = formingMachine c
    /\ pickerRobot c3 = pickerRobot c
    /\ spotWelder c3 = spotWelder c
    /\ totalPartsCompleted c3 = totalPartsCompleted c
    /\ totalPartsScrap c3 = totalPartsScrap c
    /\ totalPartsStarted c3 = totalPartsStarted c
    /\ formingCompleted c3 = formingCompleted c
    /\ pickingCompleted c3 = pickingCompleted c
    /\ weldingCompleted c3 = weldingCompleted c
    /\ lineState c3
       = lineState (updateLineState
                      (with_times c (startTime c) now (uptime c) (downtime c))
                      w)
    /\ startTime c3 = startTime c
    /\ lastUpdate c3 = now
    /\ uptime c3
       = (if String.eqb (lineState c3) LineStateRunning
          then add (uptime c) (Sub now (lastUpdate c)) else uptime c)
    /\ downtime c3
       = (if String.eqb (lineState c3) LineStateRunning then downtime c
          else if String.eqb (lineState c3) LineStateError
                  || String.eqb (lineState c3) LineStateStopped
          then add (downtime c) (Sub now (lastUpdate c)) else downtime c).
Proof.
  unfold Update, coordinatePartFlow. cbv zeta.
  eexists. split; [reflexivity|].
  pose proof (updateLineState_keeps
                (with_times c (startTime c) now (uptime c) (downtime c)) w)
    as K. cbv zeta in K.
  destruct K as (K1&K2&K3&K4&K5&K6&K7&K8&K9&K10&K11&K12&K13&K14&K15).
  set (c2 := updateLineState _ w) in *.
  destruct (String.eqb (lineState c2) LineStateRunning) eqn:E1;
    [|destruct (String.eqb (lineState c2) LineStateError
                || String.eqb (lineState c2) LineStateStopped) eqn:E2];
    cbn; rewrite ?E1, ?E2; cbn;
    rewrite ?K1, ?K2, ?K3, ?K5, ?K6, ?K7, ?K8, ?K9, ?K10, ?K11, ?K12, ?K13,
      ?K14; split_and!; reflexivity.
Qed.

(** After an update of the line the coordinator's counters are those of
    the machines as the same update left them: completed parts and welded
    parts are the welder's good parts, scrap is the welder's scrap alone
    (the scrap of the press and of the picker is in no line counter),
    picked parts are the picker's good parts, formed and started parts
    the press's good parts; a machine that is not set leaves its counters
    as they were.  The number of active errors is the number of machines
    that carry an error after the update. *)
Theorem line_counters_mirror_the_machines_after_update
    (clk : Clock) (c : ProductionLineCoordinator) (w : World) (now : Time)
    (isBreakTime : bool) :
  let c' := fst (Update clk c w now isBreakTime) in
  let w' := snd (Update clk c w now isBreakTime) in
  match spotWelder c with
  | Some s =>
      totalPartsCompleted c' = GoodParts (spotwelder.base (welder w' s))
      /\ totalPartsScrap c' = ScrapParts (spotwelder.base (welder w' s))
      /\ weldingCompleted c' = GoodParts (spotwelder.base (welder w' s))
  | None =>
      totalPartsCompleted c' = totalPartsCompleted c
      /\ totalPartsScrap c' = totalPartsScrap c
      /\ weldingCompleted c' = weldingCompleted c
  end
  /\ match pickerRobot c with
     | Some p =>
         pickingCompleted c' = GoodParts (picker.base (pickerAt w' p))
     | None => pickingCompleted c' = pickingCompleted c
     end
  /\ match formingMachine c with
     | Some f =>
         formingCompleted c' = GoodParts (forming.base (former w' f))
         /\ totalPartsStarted c' = GoodParts (forming.base (former w' f))
     | None =>
         formingCompleted c' = formingCompleted c
         /\ totalPartsStarted c' = totalPartsStarted c
     end
  /\ activeErrors c'
     = match formingMachine c with
       | Some f => errorCount (CurrentError (forming.base (former w' f)))
       | None => 0
       end
       + match pickerRobot c with
         | Some p => errorCount (CurrentError (picker.base (pickerAt w' p)))
         | None => 0
         end
       + match spotWelder c with
         | Some s =>
             errorCount (CurrentError (spotwelder.base (welder w' s)))
         | None => 0
         end.
Proof.
  destruct (Update_unfold clk c w now isBreakTime)
    as (c3 & -> & Hf & Hp & Hs & H1 & H2 & H3 & H4 & H5 & H6 & _).
  cbn [fst snd].
  set (w' := updateMachines clk c3 w now isBreakTime).
  pose proof (updateCounters_spec c3 w') as C. cbv zeta in C.
  destruct C as (Cs & Cp & Cf & Kf & Kp & Ks & _).
  pose proof (updateErrorTracking_spec (updateCounters c3 w') w') as T.
  cbv zeta in T.
  destruct T as (Ta & T1 & T2 & T3 & T4 & T5 & T6 & _).
  rewrite Kf, Kp, Ks in Ta. rewrite Hf, Hp, Hs in *.
  rewrite T1, T2, T3, T4, T5, T6, Ta.
  rewrite <- H1, <- H2, <- H3, <- H4, <- H5, <- H6.
  split_and!; try assumption. reflexivity.
Qed.

(** Each update of the line books the time since the previous update to
    one account, chosen by the line state that the update reports: to the
    uptime when it is [Running], to the downtime when it is [Error] or
    [Stopped], to neither in any other state ([Setup]).  The update
    records [now] as the time of the last update and keeps the start
    time. *)
Theorem line_books_elapsed_time_to_one_account
    (clk : Clock) (c : ProductionLineCoordinator) (w : World) (now : Time)
    (isBreakTime : bool) :
  let c' := fst (Update clk c w now isBreakTime) in
  let elapsed := Sub now (lastUpdate c) in
  lastUpdate c' = now
  /\ startTime c' = startTime c
  /\ (lineState c' = LineStateRunning ->
      uptime c' = add (uptime c) elapsed /\ downtime c' = downtime c)
  /\ (lineState c' = LineStateError \/ lineState c' = LineStateStopped ->
      uptime c' = uptime c /\ downtime c' = add (downtime c) elapsed)
  /\ (lineState c' <> LineStateRunning -> lineState c' <> LineStateError ->
      lineState c' <> LineStateStopped ->
      uptime c' = uptime c /\ downtime c' = downtime c).
Proof.
  destruct (Update_unfold clk c w now isBreakTime)
    as (c3 & -> & _ & _ & _ & _ & _ & _ & _ & _ & _ & Hl & Hst & Hlu & Hu & Hd).
  cbn [fst].
  set (w' := updateMachines clk c3 w now isBreakTime).
  pose proof (updateCounters_spec c3 w') as C. cbv zeta in C.
  destruct C as (_ & _ & _ & _ & _ & _ & _ & Cu & Cd & Cst & Clu).
  pose proof (updateErrorTracking_spec (updateCounters c3 w') w') as T.
  cbv zeta in T.
  destruct T as (_ & _ & _ & _ & _ & _ & _ & Tu & Td & Tst & Tlu).
  rewrite updateErrorTracking_lineState, updateCounters_lineState.
  rewrite Tu, Td, Tst, Tlu, Cu, Cd, Cst, Clu, Hu, Hd, Hst, Hlu.
  split_and!; try reflexivity.
  - intros E. rewrite E. cbn. auto.
  - intros [E|E]; rewrite E; cbn; auto.
  - intros E1 E2 E3.
    apply String.eqb_neq in E1, E2, E3. rewrite E1, E2, E3. cbn. auto.
Qed.

Lemma insert_lookup_total_id {A : Type} `{!Inhabited A} (l : list A) (p : nat) :
  <[p := l !!! p]> l = l.
Proof.
  destruct (decide (p < length l)%nat) as [Hp|Hp].
  - destruct (lookup_lt_is_Some_2 _ _ Hp) as [x Hx].
    rewrite (list_lookup_total_correct _ _ _ Hx). apply list_insert_id, Hx.
  - apply list_insert_ge. lia.
Qed.

(** [Stop] sets the line state to [Stopped] and nothing else: the world of
    machines and buffers is the same after it.  [Start] sets the line
    state to [Running] and the start and last-update times to the wall
    clock; it keeps the booked uptime and downtime and the store, and
    replaces each machine by its own [Start], which resets the phase and
    the cycle counter but leaves the base machine (state, counters,
    orders, error) and the part in hand as they are. *)
Theorem stop_leaves_the_machines_and_start_resets_only_their_phase
    (clk : Clock) (c : ProductionLineCoordinator) (w : World) :
  (lineState (fst (Stop c w)) = LineStateStopped /\ snd (Stop c w) = w)
  /\ (let c' := fst (Start clk c w) in
      let w' := snd (Start clk c w) in
      lineState c' = LineStateRunning
      /\ startTime c' = wall clk /\ lastUpdate c' = wall clk
      /\ uptime c' = uptime c /\ downtime c' = downtime c
      /\ store w' = store w
      /\ (forall f, formingMachine c = Some f ->
          (f < length (formers w))%nat ->
          former w' f = forming.Start (former w f)
          /\ forming.base (former w' f) = forming.base (former w f))
      /\ (forall p, pickerRobot c = Some p ->
          (p < length (pickers w))%nat ->
          pickerAt w' p = picker.Start (pickerAt w p)
          /\ picker.base (pickerAt w' p) = picker.base (pickerAt w p)
          /\ picker.HeldPart (picker.pickerState (pickerAt w' p))
             = picker.HeldPart (picker.pickerState (pickerAt w p)))
      /\ (forall s, spotWelder c = Some s ->
          (s < length (welders w))%nat ->
          welder w' s = spotwelder.Start (welder w s)
          /\ spotwelder.base (welder w' s) = spotwelder.base (welder w s)
          /\ spotwelder.CurrentPart (spotwelder.welderState (welder w' s))
             = spotwelder.CurrentPart (spotwelder.welderState (welder w s)))).
Proof.
  split.
  - unfold Stop, forming.Stop, picker.Stop, spotwelder.Stop.
    destruct c as [cfg f p s ls stt lu tc ts tst fc pc wc up dn co lec lem ae].
    destruct w as [st fs ps ws]. cbn.
    split; [reflexivity|].
    unfold set_former, set_picker, set_welder, former, pickerAt, welder,
      Heap.assign, Heap.deref.
    destruct f, p, s; cbn; rewrite ?insert_lookup_total_id; reflexivity.
  - unfold Start.
    destruct c as [cfg f p s ls stt lu tc ts tst fc pc wc up dn co lec lem ae].
    destruct w as [st fs ps ws]. cbn.
    split_and!; try reflexivity.
    + destruct f, p, s; reflexivity.
    + intros f0 [= ->] Hf.
      pose proof (list_lookup_total_insert_eq fs f0 (forming.Start (fs !!! f0)) Hf)
        as E.
      unfold set_former, set_picker, set_welder, former, pickerAt, welder,
        Heap.assign, Heap.deref.
      destruct p, s; cbn; rewrite E; split; reflexivity.
    + intros p0 [= ->] Hp.
      pose proof (list_lookup_total_insert_eq ps p0 (picker.Start (ps !!! p0)) Hp)
        as E.
      unfold set_former, set_picker, set_welder, former, pickerAt, welder,
        Heap.assign, Heap.deref.
      destruct f, s; cbn; rewrite E; split_and!; reflexivity.
    + intros s0 [= ->] Hs.
      pose proof (list_lookup_total_insert_eq ws s0
                    (spotwelder.Start (ws !!! s0)) Hs) as E.
      unfold set_former, set_picker, set_welder, former, pickerAt, welder,
        Heap.assign, Heap.deref.
      destruct f, p; cbn; rewrite E; split_and!; reflexivity.
Qed.

(** ** The configuration endpoint, continued *)

Lemma SetAt_keeps (st : Store) (p : nat) set (v : float) :
  buffers (fst (SetAt st p set v)) = buffers st
  /\ orders (fst (SetAt st p set v)) = orders st
  /\ length (runtimes (fst (SetAt st p set v))) = length (runtimes st).
Proof.
  unfold SetAt. destruct (set (runtime st p) v) as [r [e|]]; cbn;
    split_and!; try reflexivity.
  unfold Heap.assign. apply length_insert.
Qed.

Lemma sameShape_refl st : sameShape st st.
Proof. unfold sameShape. auto. Qed.

Lemma sameShape_SetAt st0 st p set v :
  sameShape st0 st -> sameShape st0 (fst (SetAt st p set v)).
Proof.
  unfold sameShape. intros (H1 & H2 & H3).
  destruct (SetAt_keeps st p set v) as (K1 & K2 & K3).
  rewrite K1, K2, K3. auto.
Qed.

Lemma handleConfigUpdate_sameShape h st body :
  sameShape st (snd (api.handleConfigUpdate h st body)).
Proof.
  unfold api.handleConfigUpdate.
  destruct (api.runner h) as [plr|]; [|apply sameShape_refl].
  destruct body as [req|]; [|apply sameShape_refl].
  cbv zeta.
  assert (S1 : sameShape st
                 (fst match api.CycleTimeScale req with
                      | Some v => SetAt st (line.GetRuntimeConfig plr)
                                    config.SetCycleTimeScale v
                      | None => (st, None)
                      end)).
  { destruct (api.CycleTimeScale req);
      [apply sameShape_SetAt|]; apply sameShape_refl. }
  destruct (match api.CycleTimeScale req with Some _ => _ | None => _ end)
    as [st1 [e|]]; [exact S1|]. cbn [fst] in S1.
  assert (S2 : sameShape st
                 (fst match api.ScrapRate req with
                      | Some v => SetAt st1 (line.GetRuntimeConfig plr)
                                    config.SetScrapRate v
                      | None => (st1, None)
                      end)).
  { destruct (api.ScrapRate req); [apply sameShape_SetAt|]; exact S1. }
  destruct (match api.ScrapRate req with Some _ => _ | None => _ end)
    as [st2 [e|]]; [exact S2|]. cbn [fst] in S2.
  assert (S3 : sameShape st
                 (fst match api.ErrorRate req with
                      | Some v => SetAt st2 (line.GetRuntimeConfig plr)
                                    config.SetErrorRate v
                      | None => (st2, None)
                      end)).
  { destruct (api.ErrorRate req); [apply sameShape_SetAt|]; exact S2. }
  destruct (match api.ErrorRate req with Some _ => _ | None => _ end)
    as [st3 [e|]]; exact S3.
Qed.

(** What passes a pair of finite bounds is finite. *)
Lemma within_finite (lo hi v : float) :
  is_finite lo = true -> is_finite hi = true ->
  (lo <=? v)%float = true -> (v <=? hi)%float = true -> is_finite v = true.
Proof.
  unfold is_finite, is_nan, is_infinity.
  rewrite !FloatAxioms.eqb_spec, !FloatAxioms.abs_spec, !FloatAxioms.leb_spec.
  replace (Prim2SF infinity) with (S754_infinity false)
    by (vm_compute; reflexivity).
  destruct (Prim2SF v) as [sv| sv| |sv mv ev].
  - reflexivity.
  - destruct sv.
    + destruct (Prim2SF lo) as [sl| [|]| |sl ml el]; cbn; intros;
        try discriminate; destruct sl; discriminate.
    + destruct (Prim2SF hi) as [sh| [|]| |sh mh eh]; cbn; intros;
        try discriminate; destruct sh; discriminate.
  - destruct (Prim2SF lo) as [sl| sl| |sl ml el]; cbn; intros; discriminate.
  - intros _ _ _ _. cbn. rewrite Z.compare_refl.
    change (Pos.compare_cont Eq mv mv) with (Pos.compare mv mv).
    rewrite Pos.compare_refl. destruct sv; reflexivity.
Qed.

(** The answer of [writeJSON] to the snapshot of a configuration. *)
Lemma writeJSON_snapshot (rc : config.RuntimeConfig) :
  api.writeJSON (api.snapshotResponse rc)
  = if finiteRates rc then api.JSON (api.snapshotResponse rc)
    else api.Error "Failed to encode response" 500.
Proof. reflexivity. Qed.

(** What the configuration endpoint refuses, and what it never touches.
    [OPTIONS] is answered with status 200 and any method other than
    [GET], [POST] and [OPTIONS] with 405; [GET] never changes the store.
    Without a line runner [GET] and [POST] answer 501 and change nothing.
    With one, [GET] answers with the snapshot of the stored configuration
    and status 200 when the three stored rates are finite numbers, and
    with status 500 (Failed to encode response) when one of them is NaN
    or infinite; a [POST] whose body does not decode answers 400 and
    changes nothing.  No request changes a buffer or an order, or the
    number of runtime configurations. *)
Theorem config_endpoint_refusals_leave_the_store_alone
    (h : api.Handler) (st : Store) (body : option api.ConfigUpdateRequest)
    (method : api.Method) :
  api.HandleConfig h st api.MethodOptions body = (api.Status 200, st)
  /\ api.HandleConfig h st api.MethodOther body
     = (api.Error "Method not allowed" 405, st)
  /\ snd (api.HandleConfig h st api.MethodGet body) = st
  /\ (api.runner h = None ->
      (method = api.MethodGet \/ method = api.MethodPost) ->
      api.statusCode (fst (api.HandleConfig h st method body)) = 501
      /\ snd (api.HandleConfig h st method body) = st)
  /\ (forall plr, api.runner h = Some plr ->
      let rc := runtime st (line.GetRuntimeConfig plr) in
      let answer := fst (api.HandleConfig h st api.MethodGet body) in
      answer = (if finiteRates rc then api.JSON (api.snapshotResponse rc)
                else api.Error "Failed to encode response" 500)
      /\ api.statusCode answer = (if finiteRates rc then 200 else 500)
      /\ api.HandleConfig h st api.MethodPost None
         = (api.Error "Invalid JSON: " 400, st))
  /\ sameShape st (snd (api.HandleConfig h st method body)).
Proof.
  split_and!; try reflexivity.
  - intros Hr [->| ->]; cbn; unfold api.handleConfigGet,
      api.handleConfigUpdate; rewrite Hr; auto.
  - intros plr Hr rc answer. subst answer. cbn [api.HandleConfig fst].
    unfold api.handleConfigGet, api.handleConfigUpdate. rewrite Hr.
    fold rc. rewrite writeJSON_snapshot.
    destruct (finiteRates rc); split_and!; reflexivity.
  - destruct method; cbn [api.HandleConfig snd]; try apply sameShape_refl.
    apply handleConfigUpdate_sameShape.
Qed.

(** The line started with a NaN scrap rate in its environment: [GET]
    answers 500, and so does a [POST] that sets the other two rates, after
    storing them. *)
Example config_endpoint_answers_500_for_a_stored_NaN :
  let rc := match lineNaN with
            | Some (plr, _) => line.GetRuntimeConfig plr
            | None => 0%nat
            end in
  let post := api.HandleConfig handlerNaN (store worldNaN) api.MethodPost
                (Some (api.mkConfigUpdateRequest (Some 2.0%float) None
                         (Some 0.1%float))) in
  api.runner handlerNaN <> None
  /\ fst (api.HandleConfig handlerNaN (store worldNaN) api.MethodGet None)
     = api.Error "Failed to encode response" 500
  /\ fst post = api.Error "Failed to encode response" 500
  /\ config.GetCycleTimeScale (runtime (snd post) rc) = 2.0%float
  /\ config.GetErrorRate (runtime (snd post) rc) = 0.1%float.
Proof. vm_compute. split_and!; try reflexivity. discriminate. Qed.

Lemma apply_field (st : Store) (p : nat)
    (set : config.RuntimeConfig -> float
           -> config.RuntimeConfig * option config.error)
    (upd : config.RuntimeConfig -> float -> config.RuntimeConfig)
    (lo hi : float) (field : option float) :
  (forall rc v, (lo <=? v)%float = true -> (v <=? hi)%float = true ->
                set rc v = (upd rc v, None)) ->
  (p < length (runtimes st))%nat ->
  absentOrWithin lo hi field ->
  exists st',
    match field with
    | Some v => SetAt st p set v
    | None => (st, None)
    end = (st', None)
    /\ runtime st' p = match field with
                       | Some v => upd (runtime st p) v
                       | None => runtime st p
                       end
    /\ (p < length (runtimes st'))%nat.
Proof.
  intros Hset Hp Hf. destruct field as [v|]; cbn in Hf.
  - destruct Hf as [Hlo Hhi].
    exists (set_runtime st p (upd (runtime st p) v)).
    rewrite (SetAt_accepts _ _ _ _ _ (Hset (runtime st p) v Hlo Hhi)).
    rewrite runtime_set_runtime by exact Hp.
    rewrite runtimes_set_runtime. auto.
  - exists st. auto.
Qed.

(** A stored rate stays finite when a field of a request that is absent
    or within finite bounds is put in its place. *)
Lemma default_within_finite (lo hi old : float) (field : option float) :
  is_finite lo = true -> is_finite hi = true ->
  absentOrWithin lo hi field ->
  is_finite old = true -> is_finite (default old field) = true.
Proof.
  intros Hlo Hhi Hf Hold. destruct field as [v|]; [|exact Hold].
  destruct Hf as [H1 H2]. exact (within_finite lo hi v Hlo Hhi H1 H2).
Qed.

(** A [POST] whose present fields are all within their ranges stores each
    present field and leaves each absent one, and the base cycle time, as
    they were.  It answers with the snapshot of the configuration it
    stored when the three stored rates are finite numbers, which they are
    when they were so before the request, and with status 500 (Failed to
    encode response) when an absent field has left a NaN or an infinite
    rate in place; a [GET] after it returns the same answer and leaves the
    store alone. *)
Theorem config_update_stores_present_fields_and_get_reads_them_back
    (h : api.Handler) (plr : line.ProductionLineRunner) (st : Store)
    (req : api.ConfigUpdateRequest) :
  api.runner h = Some plr ->
  (line.GetRuntimeConfig plr < length (runtimes st))%nat ->
  absentOrWithin 0.1 10.0 (api.CycleTimeScale req) ->
  absentOrWithin 0.0 0.5 (api.ScrapRate req) ->
  absentOrWithin 0.0 0.2 (api.ErrorRate req) ->
  let rc := line.GetRuntimeConfig plr in
  let old := runtime st rc in
  let r := api.HandleConfig h st api.MethodPost (Some req) in
  let new := runtime (snd r) rc in
  config.GetCycleTimeScale new
  = default (config.GetCycleTimeScale old) (api.CycleTimeScale req)
  /\ config.GetScrapRate new
     = default (config.GetScrapRate old) (api.ScrapRate req)
  /\ config.GetErrorRate new
     = default (config.GetErrorRate old) (api.ErrorRate req)
  /\ config.GetBaseCycleTime new = config.GetBaseCycleTime old
  /\ fst r = (if finiteRates new then api.JSON (api.snapshotResponse new)
              else api.Error "Failed to encode response" 500)
  /\ (finiteRates old = true ->
      finiteRates new = true
      /\ fst r = api.JSON (api.snapshotResponse new))
  /\ api.HandleConfig h (snd r) api.MethodGet None = (fst r, snd r).
Proof.
  intros Hrunner Hvalid H1 H2 H3 rc old r new.
  assert (Hnew : config.GetCycleTimeScale new
                 = default (config.GetCycleTimeScale old)
                     (api.CycleTimeScale req)
                 /\ config.GetScrapRate new
                    = default (config.GetScrapRate old) (api.ScrapRate req)
                 /\ config.GetErrorRate new
                    = default (config.GetErrorRate old) (api.ErrorRate req)
                 /\ config.GetBaseCycleTime new = config.GetBaseCycleTime old
                 /\ fst r = api.writeJSON (api.snapshotResponse new)
                 /\ api.HandleConfig h (snd r) api.MethodGet None
                    = (fst r, snd r)).
  { subst new r old.
    cbn [api.HandleConfig]. unfold api.handleConfigUpdate, api.handleConfigGet.
    rewrite Hrunner. cbv zeta. fold rc.
    destruct (apply_field st rc config.SetCycleTimeScale
                (fun rc v => config.mkRuntimeConfig v (config.scrapRate rc)
                               (config.errorRate rc) (config.baseCycleTime rc)
                               (config.baseSetupTime rc))
                0.1 10.0 _ SetCycleTimeScale_accepts Hvalid H1)
      as (st1 & -> & R1 & V1).
    destruct (apply_field st1 rc config.SetScrapRate
                (fun rc v => config.mkRuntimeConfig (config.cycleTimeScale rc) v
                               (config.errorRate rc) (config.baseCycleTime rc)
                               (config.baseSetupTime rc))
                0.0 0.5 _ SetScrapRate_accepts V1 H2)
      as (st2 & -> & R2 & V2).
    destruct (apply_field st2 rc config.SetErrorRate
                (fun rc v => config.mkRuntimeConfig (config.cycleTimeScale rc)
                               (config.scrapRate rc) v (config.baseCycleTime rc)
                               (config.baseSetupTime rc))
                0.0 0.2 _ SetErrorRate_accepts V2 H3)
      as (st3 & -> & R3 & V3).
    cbn [fst snd]. rewrite R3, R2, R1.
    unfold config.GetCycleTimeScale, config.GetScrapRate, config.GetErrorRate,
      config.GetBaseCycleTime.
    destruct (api.CycleTimeScale req), (api.ScrapRate req), (api.ErrorRate req);
      cbn; split_and!; reflexivity. }
  destruct Hnew as (N1 & N2 & N3 & N4 & N5 & N6).
  rewrite writeJSON_snapshot in N5.
  split_and!; try assumption.
  intros Hold.
  assert (Hfin : finiteRates new = true).
  { unfold finiteRates in *.
    unfold config.GetCycleTimeScale, config.GetScrapRate,
      config.GetErrorRate in N1, N2, N3.
    rewrite N1, N2, N3.
    apply andb_true_iff in Hold as [Hold Hc].
    apply andb_true_iff in Hold as [Ha Hb].
    rewrite (default_within_finite 0.1 10.0 _ _ eq_refl eq_refl H1 Ha),
      (default_within_finite 0.0 0.5 _ _ eq_refl eq_refl H2 Hb),
      (default_within_finite 0.0 0.2 _ _ eq_refl eq_refl H3 Hc).
    reflexivity. }
  split; [exact Hfin|]. rewrite N5, Hfin. reflexivity.
Qed.

Lemma config_update_stores_present_fields_and_get_reads_them_back_witness :
  let r := api.HandleConfig handler0 (store world0) api.MethodPost
             (Some (api.mkConfigUpdateRequest (Some 2.0%float) None
                      (Some 0.1%float))) in
  let new := runtime (snd r) (line.GetRuntimeConfig runner0) in
  config.GetCycleTimeScale new = 2.0%float
  /\ config.GetScrapRate new = 0%float
  /\ config.GetErrorRate new = 0.1%float
  /\ fst r = api.JSON (api.snapshotResponse new)
  /\ api.HandleConfig handler0 (snd r) api.MethodGet None = (fst r, snd r).
Proof.
  assert (Hvalid : (line.GetRuntimeConfig runner0
                    < length (runtimes (store world0)))%nat)
    by (vm_compute; lia).
  destruct (config_update_stores_present_fields_and_get_reads_them_back
              handler0 runner0 (store world0)
              (api.mkConfigUpdateRequest (Some 2.0%float) None
                 (Some 0.1%float))
              eq_refl Hvalid (conj eq_refl eq_refl) I (conj eq_refl eq_refl))
    as (H1 & H2 & H3 & _ & _ & H5 & H6).
  cbv zeta. split_and!; [exact H1 | exact H2 | exact H3 | | exact H6].
  apply H5. vm_compute. reflexivity.
Defined.

(** ** Helpers for generated values *)

Lemma SFcompare_refl (x : spec_float) :
  x <> S754_nan -> SFcompare x x = Some Eq.
Proof.
  destruct x as [s| s| |s m e]; simpl; try congruence; intros _.
  - destruct s; reflexivity.
  - destruct s; rewrite Z.compare_refl;
      change (Pos.compare_cont Eq m m) with (Pos.compare m m);
      rewrite Pos.compare_refl; reflexivity.
Qed.

(** Values that compare are not NaN, and a value that is not NaN is at
    most itself. *)
Lemma float_leb_ordered (x y : float) :
  (x <=? y)%float = true ->
  (x =? x)%float = true /\ (y =? y)%float = true.
Proof.
  rewrite FloatAxioms.leb_spec, !FloatAxioms.eqb_spec.
  unfold SFleb, SFeqb.
  destruct (Prim2SF x) as [sx| sx| |sx mx ex] eqn:Ex;
    destruct (Prim2SF y) as [sy| sy| |sy my ey] eqn:Ey;
    intros H; try (simpl in H; congruence);
    split; rewrite SFcompare_refl; congruence.
Qed.

Lemma float_leb_refl (x : float) :
  (x =? x)%float = true -> (x <=? x)%float = true.
Proof.
  rewrite FloatAxioms.leb_spec, FloatAxioms.eqb_spec.
  unfold SFleb, SFeqb. destruct (SFcompare _ _) as [[]|]; congruence.
Qed.

Lemma float_not_ltb_leb (x y : float) :
  (x =? x)%float = true -> (y =? y)%float = true ->
  (y <? x)%float = false -> (x <=? y)%float = true.
Proof.
  intros Hx Hy H. destruct (x <=? y)%float eqn:E; [reflexivity|].
  rewrite (float_total x y Hx Hy E) in H. discriminate.
Qed.

(** [Clamp] and [ClampPositive].  For bounds [lo <= hi] and a value that
    is not NaN the result of [Clamp] lies within the bounds; a value
    within the bounds is returned as it is.  A NaN passes through both
    functions unchanged, since it compares with nothing.  For a value that
    is not NaN the result of [ClampPositive] is at least 0. *)
Theorem Clamp_keeps_values_within_bounds_and_passes_NaN
    (value lo hi : float) :
  ((lo <=? hi)%float = true -> (value =? value)%float = true ->
   (lo <=? Clamp value lo hi)%float = true
   /\ (Clamp value lo hi <=? hi)%float = true)
  /\ ((lo <=? value)%float = true -> (value <=? hi)%float = true ->
      Clamp value lo hi = value)
  /\ ((value =? value)%float = false -> Clamp value lo hi = value)
  /\ ((value =? value)%float = true ->
      (0 <=? ClampPositive value)%float = true)
  /\ ((value =? value)%float = false -> ClampPositive value = value).
Proof.
  unfold Clamp, ClampPositive. split_and!.
  - intros Hb Hv. destruct (float_leb_ordered lo hi Hb) as [Hlo Hhi].
    destruct (value <? lo)%float eqn:E1.
    + split; [apply float_leb_refl, Hlo | exact Hb].
    + destruct (hi <? value)%float eqn:E2.
      * split; [exact Hb | apply float_leb_refl, Hhi].
      * split; apply float_not_ltb_leb; assumption.
  - intros H1 H2.
    rewrite (float_leb_not_ltb _ _ H1), (float_leb_not_ltb _ _ H2).
    reflexivity.
  - intros Hn.
    assert (N : forall z : float, (value <? z)%float = false
                                  /\ (z <? value)%float = false).
    { intros z. split.
      - destruct (value <? z)%float eqn:E; [|reflexivity].
        assert (L : (value <=? z)%float = true).
        { revert E. rewrite FloatAxioms.ltb_spec, FloatAxioms.leb_spec.
          unfold SFltb, SFleb. destruct (SFcompare _ _) as [[]|]; congruence. }
        destruct (float_leb_ordered _ _ L). congruence.
      - destruct (z <? value)%float eqn:E; [|reflexivity].
        assert (L : (z <=? value)%float = true).
        { revert E. rewrite FloatAxioms.ltb_spec, FloatAxioms.leb_spec.
          unfold SFltb, SFleb. destruct (SFcompare _ _) as [[]|]; congruence. }
        destruct (float_leb_ordered _ _ L). congruence. }
    rewrite (proj1 (N lo)), (proj2 (N hi)). reflexivity.
  - intros Hv. destruct (value <? 0)%float eqn:E.
    + reflexivity.
    + apply float_not_ltb_leb; [reflexivity | exact Hv | exact E].
  - intros Hn. destruct (value <? 0)%float eqn:E; [|reflexivity].
    assert (L : (value <=? 0)%float = true).
    { revert E. rewrite FloatAxioms.ltb_spec, FloatAxioms.leb_spec.
      unfold SFltb, SFleb. destruct (SFcompare _ _) as [[]|]; congruence. }
    destruct (float_leb_ordered _ _ L). congruence.
Qed.

(** [UniformInt(min, max)] returns a value in [[min, max]], for bounds
    [min <= max] whose width [max - min + 1] fits the integers; it
    consumes one integer draw and no float draw. *)
Theorem UniformInt_stays_within_its_bounds
    (ng : NoiseGenerator) (min max : Z) :
  minInt64 <= min -> min <= max -> max <= maxInt64 ->
  max - min < maxInt64 ->
  min <= fst (UniformInt ng min max) <= max
  /\ nextInt (snd (UniformInt ng min max)) = S (nextInt ng)
  /\ nextFloat (snd (UniformInt ng min max)) = nextFloat ng.
Proof.
  intros H1 H2 H3 H4. unfold UniformInt, Intn. cbn [fst snd nextInt nextFloat].
  unfold add, sub, minInt64, maxInt64 in *.
  rewrite (wrap64_small (max - min))
    by (unfold minInt64, maxInt64; lia).
  rewrite (wrap64_small (max - min + 1))
    by (unfold minInt64, maxInt64; lia).
  pose proof (Z.mod_pos_bound (intns ng (nextInt ng)) (max - min + 1)
                ltac:(lia)) as Hm.
  rewrite wrap64_small by (unfold minInt64, maxInt64; lia).
  split_and!; [lia | lia | reflexivity | reflexivity].
Qed.

Lemma UniformInt_stays_within_its_bounds_witness :
  fst (UniformInt tape7 10 12) = 11
  /\ 10 <= fst (UniformInt tape7 10 12) <= 12.
Proof.
  split; [vm_compute; reflexivity|].
  refine (proj1 (UniformInt_stays_within_its_bounds tape7 10 12 _ _ _ _));
    vm_compute; congruence.
Defined.

Lemma selectFrom_range (weights : list float) (i : Z) (c r : float) (j : Z) :
  selectFrom weights i c r = Some j -> i <= j < i + len weights.
Proof.
  revert i c. induction weights as [|w rest IH]; intros i c; simpl.
  - discriminate.
  - destruct (r <=? c + w)%float.
    + intros [= <-]. unfold len. simpl. lia.
    + intros H. apply IH in H. unfold len in *. simpl. lia.
Qed.

(** [SelectWeighted] returns an index of its slice of weights, whatever
    the weights and the draw are (negative, NaN or all zero included), and
    [-1] for the empty slice; it consumes one float draw. *)
Theorem SelectWeighted_returns_an_index_of_its_weights
    (ng : NoiseGenerator) (weights : list float) :
  let i := fst (SelectWeighted ng weights) in
  (weights = [] -> i = -1)
  /\ (weights <> [] -> len weights <= maxInt64 -> 0 <= i < len weights)
  /\ nextFloat (snd (SelectWeighted ng weights)) = S (nextFloat ng).
Proof.
  unfold SelectWeighted, Float64. cbv zeta.
  destruct (selectFrom weights 0 0 _) as [j|] eqn:E; cbn [fst snd nextFloat].
  - apply selectFrom_range in E. split_and!.
    + intros ->. unfold len in E. simpl in E. lia.
    + intros _ _. lia.
    + reflexivity.
  - split_and!.
    + intros ->. reflexivity.
    + intros Hne Hmax. unfold sub.
      assert (0 < len weights).
      { destruct weights; [congruence|]. unfold len. simpl. lia. }
      rewrite wrap64_small; unfold minInt64, maxInt64 in *; lia.
    + reflexivity.
Qed.

(** ** The metrics collector *)

Lemma addCycleTime_length (times : list Duration) (t : Duration) :
  (length times <= 100)%nat ->
  (length (metrics.addCycleTime times t) <= 100)%nat
  /\ metrics.addCycleTime times t
     = drop (length (times ++ [t]) - 100) (times ++ [t]).
Proof.
  intros H. unfold metrics.addCycleTime. cbv zeta.
  assert (L : length (times ++ [t]) = S (length times))
    by (rewrite length_app; simpl; lia).
  unfold len. rewrite L.
  destruct (100 <? Z.of_nat (S (length times))) eqn:E.
  - apply Z.ltb_lt in E. assert (Hl : length times = 100%nat) by lia.
    rewrite Hl. change (101 - 100)%nat with 1%nat.
    destruct times as [|x rest]; [simpl in Hl; lia|].
    simpl. rewrite drop_0, length_app. simpl in *. split; [lia|reflexivity].
  - apply Z.ltb_ge in E.
    replace (S (length times) - 100)%nat with 0%nat by lia.
    rewrite drop_0, L. split; [lia|reflexivity].
Qed.

(** The cycle-time window.  Adding samples one by one to a window of at
    most 100 samples leaves the most recent 100 of all samples, oldest
    first; the window never holds more than 100. *)
Theorem cycle_time_window_keeps_the_latest_hundred_samples
    (times samples : list Duration) :
  (length times <= 100)%nat ->
  let all := times ++ samples in
  fold_left metrics.addCycleTime samples times
  = drop (length all - 100) all
  /\ (length (fold_left metrics.addCycleTime samples times) <= 100)%nat.
Proof.
  revert times. induction samples as [|t rest IH]; intros times H all.
  - subst all. simpl. rewrite app_nil_r.
    replace (length times - 100)%nat with 0%nat by lia.
    rewrite drop_0. auto.
  - subst all. simpl.
    destruct (addCycleTime_length times t H) as [Hl He].
    destruct (IH _ Hl) as [IH1 IH2]. split; [|exact IH2].
    rewrite IH1, He.
    assert (Ha : times ++ t :: rest = (times ++ [t]) ++ rest)
      by (rewrite <- app_assoc; reflexivity).
    rewrite Ha.
    set (k := (length (times ++ [t]) - 100)%nat).
    assert (Hk : (k <= length (times ++ [t]))%nat) by (subst k; lia).
    rewrite <- (drop_app_le (times ++ [t]) rest k Hk).
    rewrite drop_drop. f_equal.
    rewrite !length_app, length_drop, !length_app. subst k.
    rewrite length_app in *. simpl in *. lia.
Qed.

Lemma cycle_time_window_keeps_the_latest_hundred_samples_witness :
  fold_left metrics.addCycleTime [4; 5] (repeat 0 99 ++ [3])
  = repeat 0 97 ++ [3; 4; 5].
Proof.
  destruct (cycle_time_window_keeps_the_latest_hundred_samples
              (repeat 0 99 ++ [3]) [4; 5]) as [H _].
  - vm_compute. lia.
  - rewrite H. vm_compute. reflexivity.
Defined.

Lemma fold_add_bounds (times : list Duration) (lo hi acc : Z) :
  Forall (fun t => lo <= t <= hi) times ->
  0 <= lo -> 0 <= acc -> acc + hi * len times <= maxInt64 ->
  acc + lo * len times <= fold_left add times acc <= acc + hi * len times.
Proof.
  revert acc. induction times as [|t rest IH]; intros acc HF Hlo Hacc Hmax.
  - unfold len in *. simpl in *. lia.
  - apply Forall_cons in HF as [Ht HF]. simpl.
    assert (Hlen : len (t :: rest) = 1 + len rest)
      by (unfold len; simpl; lia).
    rewrite Hlen in *.
    assert (0 <= len rest) by (unfold len; lia).
    assert (Ha : add acc t = acc + t).
    { unfold add. apply wrap64_small. unfold minInt64, maxInt64 in *. nia. }
    rewrite Ha.
    specialize (IH (acc + t) HF Hlo ltac:(lia) ltac:(nia)). nia.
Qed.

(** The average of no samples is 0.  The average of samples that all lie
    in [[lo, hi]], with [0 <= lo] and a sum that fits the integers, lies in
    [[lo, hi]] as well (it is the sum divided by the count, rounded
    down). *)
Theorem average_cycle_time_lies_between_the_samples
    (times : list Duration) (lo hi : Z) :
  metrics.averageCycleTime [] = 0
  /\ (times <> [] -> Forall (fun t => lo <= t <= hi) times ->
      0 <= lo -> hi * len times <= maxInt64 ->
      lo <= metrics.averageCycleTime times <= hi).
Proof.
  split; [reflexivity|]. intros Hne HF Hlo Hmax.
  unfold metrics.averageCycleTime.
  assert (Hn : 0 < len times).
  { destruct times; [congruence|]. unfold len. simpl. lia. }
  replace (len times =? 0) with false by (symmetry; apply Z.eqb_neq; lia).
  cbv zeta.
  pose proof (fold_add_bounds times lo hi 0 HF Hlo ltac:(lia) ltac:(lia)) as HS.
  set (total := fold_left add times 0) in *.
  unfold quo. rewrite Z.quot_div_nonneg by lia.
  assert (lo <= total / len times <= hi).
  { split.
    - apply Z.div_le_lower_bound; lia.
    - apply Z.div_le_upper_bound; lia. }
  apply Forall_inv in HF as Hh || idtac.
  rewrite wrap64_small; [lia|].
  assert (hi <= maxInt64) by nia.
  unfold minInt64, maxInt64 in *. lia.
Qed.

Lemma average_cycle_time_lies_between_the_samples_witness :
  metrics.averageCycleTime [30 * Second; 31 * Second; 33 * Second]
  = 31333333333
  /\ 30 * Second
     <= metrics.averageCycleTime [30 * Second; 31 * Second; 33 * Second]
     <= 33 * Second.
Proof.
  split; [vm_compute; reflexivity|].
  apply (proj2 (average_cycle_time_lies_between_the_samples
                  [30 * Second; 31 * Second; 33 * Second]
                  (30 * Second) (33 * Second))).
  - discriminate.
  - repeat constructor; vm_compute; congruence.
  - vm_compute; congruence.
  - vm_compute; congruence.
Defined.

(** The bottleneck is the first machine, in the order press, picker,
    welder, whose average cycle time is the longest of the three; with
    all three averages 0 (no samples yet) it is the empty name. *)
Theorem bottleneck_is_the_first_machine_with_the_longest_average
    (m : metrics.MetricsCollector) :
  let formingAvg := metrics.averageCycleTime (metrics.formingCycleTimes m) in
  let pickerAvg := metrics.averageCycleTime (metrics.pickerCycleTimes m) in
  let welderAvg := metrics.averageCycleTime (metrics.welderCycleTimes m) in
  let longest := Z.max formingAvg (Z.max pickerAvg welderAvg) in
  (formingAvg = 0 /\ pickerAvg = 0 /\ welderAvg = 0 ->
   metrics.GetBottleneck m = EmptyString)
  /\ (~ (formingAvg = 0 /\ pickerAvg = 0 /\ welderAvg = 0) ->
      (formingAvg = longest ->
       metrics.GetBottleneck m = FormingMachineName (metrics.config m))
      /\ (formingAvg < longest -> pickerAvg = longest ->
          metrics.GetBottleneck m = PickerRobotName (metrics.config m))
      /\ (formingAvg < longest -> pickerAvg < longest ->
          metrics.GetBottleneck m = SpotWelderName (metrics.config m))).
Proof.
  intros fa pa wa longest. unfold metrics.GetBottleneck. cbv zeta.
  fold fa pa wa. subst longest. split.
  - intros (-> & -> & ->). reflexivity.
  - intros Hnz.
    assert (E : (fa =? 0) && (pa =? 0) && (wa =? 0) = false).
    { destruct (fa =? 0) eqn:E1, (pa =? 0) eqn:E2, (wa =? 0) eqn:E3;
        try reflexivity.
      apply Z.eqb_eq in E1, E2, E3. tauto. }
    rewrite E.
    destruct (fa <? pa) eqn:E1; [apply Z.ltb_lt in E1 | apply Z.ltb_ge in E1].
    + destruct (pa <? wa) eqn:E2;
        [apply Z.ltb_lt in E2 | apply Z.ltb_ge in E2];
        split_and!; intros; try reflexivity; lia.
    + destruct (fa <? wa) eqn:E2;
        [apply Z.ltb_lt in E2 | apply Z.ltb_ge in E2];
        split_and!; intros; try reflexivity; lia.
Qed.

(** The metrics collector's [Update].  With a theoretical cycle time of 0
    it panics (integer division by zero).  Otherwise it records [now],
    keeps the start time, and books the time since its previous update to
    the running time when every machine that is set is [Running], to the
    stopped time otherwise; the theoretical output is the time since the
    start divided by the theoretical cycle time; and the actual output,
    the good parts and the total parts are the welder's good parts and its
    good plus scrap parts, or stay as they were without a welder. *)
Theorem metrics_update_books_time_and_panics_without_a_cycle_time
    (m : metrics.MetricsCollector) (w : World)
    (forming picker welder : option nat) (now : Time) :
  let elapsed := Sub now (metrics.lastUpdate m) in
  let allRunning :=
    absentOrRunning
      (option_map (fun f => State (forming.base (former w f))) forming)
    && absentOrRunning
         (option_map (fun p => State (picker.base (pickerAt w p))) picker)
    && absentOrRunning
         (option_map (fun s => State (spotwelder.base (coordinator.welder w s)))
                     welder) in
  (TheoreticalCycleTime (metrics.config m) = 0 ->
   metrics.Update m w forming picker welder now = None)
  /\ (TheoreticalCycleTime (metrics.config m) <> 0 ->
      exists m',
        metrics.Update m w forming picker welder now = Some m'
        /\ metrics.lastUpdate m' = now
        /\ metrics.startTime m' = metrics.startTime m
        /\ metrics.totalRunning m'
           = (if allRunning then add (metrics.totalRunning m) elapsed
              else metrics.totalRunning m)
        /\ metrics.totalStopped m'
           = (if allRunning then metrics.totalStopped m
              else add (metrics.totalStopped m) elapsed)
        /\ metrics.theoreticalOutput m'
           = quo (Sub now (metrics.startTime m))
                 (TheoreticalCycleTime (metrics.config m))
        /\ match welder with
           | Some s =>
               let bm := spotwelder.base (coordinator.welder w s) in
               metrics.actualOutput m' = GoodParts bm
               /\ metrics.goodParts m' = GoodParts bm
               /\ metrics.totalParts m' = add (GoodParts bm) (ScrapParts bm)
           | None =>
               metrics.actualOutput m' = metrics.actualOutput m
               /\ metrics.goodParts m' = metrics.goodParts m
               /\ metrics.totalParts m' = metrics.totalParts m
           end).
Proof.
  intros elapsed allRunning. subst allRunning elapsed.
  unfold metrics.Update. cbv zeta.
  destruct (match forming with Some _ => _ | None => _ end)
    as [[[fM fT] fC] fL].
  destruct (match picker with Some _ => _ | None => _ end)
    as [[[pM pT] pC] pL].
  destruct (match welder with
            | Some s =>
                let '(good, scrap) :=
                  GetCounters (spotwelder.base (coordinator.welder w s)) in
                metrics.track _ _ _ _ _ _ _ _ _ _ _
            | None => _
            end) as [[[wM wT] wC] wL].
  split.
  - intros ->. destruct welder; reflexivity.
  - intros Hnz. apply Z.eqb_neq in Hnz.
    destruct welder as [s|]; cbn [GetCounters]; rewrite Hnz;
      eexists; (split; [reflexivity|]); cbn;
      destruct forming, picker; cbn;
      repeat match goal with
             | |- context [MachineState_eqb ?a ?b] =>
                 destruct (MachineState_eqb a b); cbn
             end;
      split_and!; reflexivity.
Qed.

(** Edges of [CalculateOEE].  The performance is never above 100.  The
    quality is 100 while no parts are counted; the performance is 0 while
    the theoretical output is 0; the availability is 0 while no time is
    booked; and with all three the OEE is 0. *)
Theorem OEE_performance_is_capped_and_quality_is_full_without_parts
    (m : metrics.MetricsCollector) :
  let r := metrics.CalculateOEE m in
  (100 <? metrics.Performance r)%float = false
  /\ (metrics.totalParts m <= 0 -> metrics.Quality r = 100%float)
  /\ (metrics.theoreticalOutput m <= 0 -> metrics.Performance r = 0%float)
  /\ (add (metrics.totalRunning m) (metrics.totalStopped m) <= 0 ->
      metrics.Availability r = 0%float)
  /\ (add (metrics.totalRunning m) (metrics.totalStopped m) <= 0 ->
      metrics.theoreticalOutput m <= 0 -> metrics.totalParts m <= 0 ->
      metrics.OEE r = 0%float).
Proof.
  unfold metrics.CalculateOEE. cbv zeta.
  cbn [metrics.Performance metrics.Quality metrics.Availability metrics.OEE].
  split_and!.
  - destruct (0 <? metrics.theoreticalOutput m); [|reflexivity].
    destruct (100 <? float64 _ / _ * 100)%float eqn:E; [reflexivity | exact E].
  - intros H. apply Z.ltb_ge in H. rewrite H. reflexivity.
  - intros H. apply Z.ltb_ge in H. rewrite H. reflexivity.
  - intros H. apply Z.ltb_ge in H. rewrite H. reflexivity.
  - intros H1 H2 H3. apply Z.ltb_ge in H1, H2, H3. rewrite H1, H2, H3.
    reflexivity.
Qed.

(** ** The order generator *)

Lemma line_Intn_Some (rng : NoiseGenerator) (n : Z) :
  0 < n ->
  line.Intn rng n = Some (core.Intn rng n)
  /\ 0 <= fst (core.Intn rng n) < n.
Proof.
  intros H. unfold line.Intn.
  replace (n <=? 0) with false by (symmetry; apply Z.leb_gt; lia).
  split; [reflexivity|]. unfold core.Intn. cbn [fst].
  apply Z.mod_pos_bound. exact H.
Qed.

Lemma nth_In_Z {A : Type} (l : list A) (d : A) (i : Z) :
  0 <= i < len l -> In (nth (Z.to_nat i) l d) l.
Proof. intros H. apply nth_In. unfold len in H. lia. Qed.

Lemma GenerateOrder_spec
    (clk : Clock) (year : Z) (og : line.OrderGenerator) (st : Store) :
  let lo := line.OrderMinQty (line.cfg og) in
  let hi := line.OrderMaxQty (line.cfg og) in
  (add (sub hi lo) 1 <= 0 -> line.GenerateOrder clk year og st = None)
  /\ (minInt64 <= lo -> lo <= hi -> hi <= maxInt64 -> hi - lo < maxInt64 ->
      0 <= line.orderNumber og < maxInt64 ->
      exists o og' st',
        line.GenerateOrder clk year og st = Some (o, og', st')
        /\ o = length (orders st)
        /\ orders st' = orders st ++ [order st' o]
        /\ buffers st' = buffers st
        /\ line.orderNumber og' = line.orderNumber og + 1
        /\ line.cfg og' = line.cfg og
        /\ OrderID (order st' o)
           = String.append "LN-"
               (String.append (itoa year)
                  (String.append "-" (pad5 (line.orderNumber og + 1))))
        /\ lo <= Quantity (order st' o) <= hi
        /\ QuantityCompleted (order st' o) = 0
        /\ QuantityScrap (order st' o) = 0
        /\ Status (order st' o) = OrderStatusQueued
        /\ 1 <= Priority (order st' o) <= 4
        /\ wall clk + 8 * Hour <= DueDate (order st' o) <= wall clk + 47 * Hour
        /\ In (PartNumber (order st' o))
              (map line.PartNumber line.LineParts)
        /\ In (Customer (order st' o)) line.LineCustomers).
Proof.
  intros lo hi. unfold line.GenerateOrder.
  destruct (line_Intn_Some (line.rng og) (len line.LineParts) ltac:(reflexivity))
    as [E1 B1].
  rewrite E1. destruct (core.Intn (line.rng og) _) as [i rng1]. cbn [fst] in B1.
  cbv zeta.
  destruct (line_Intn_Some rng1 (len line.LineCustomers) ltac:(reflexivity))
    as [E2 B2].
  rewrite E2. destruct (core.Intn rng1 _) as [j rng2]. cbn [fst] in B2.
  fold lo hi. split.
  - intros Hbad. unfold line.Intn.
    apply Z.leb_le in Hbad. rewrite Hbad. reflexivity.
  - intros H1 H2 H3 H4 H5.
    assert (Hn : add (sub hi lo) 1 = hi - lo + 1).
    { unfold add, sub. rewrite (wrap64_small (hi - lo))
        by (unfold minInt64, maxInt64 in *; lia).
      apply wrap64_small. unfold minInt64, maxInt64 in *. lia. }
    rewrite Hn.
    destruct (line_Intn_Some rng2 (hi - lo + 1) ltac:(lia)) as [E3 B3].
    rewrite E3. destruct (core.Intn rng2 _) as [q rng3]. cbn [fst] in B3.
    destruct (line_Intn_Some rng3 40 ltac:(lia)) as [E4 B4].
    rewrite E4. destruct (core.Intn rng3 _) as [hh rng4]. cbn [fst] in B4.
    destruct (line_Intn_Some rng4 4 ltac:(lia)) as [E5 B5].
    rewrite E5. destruct (core.Intn rng4 _) as [p rng5]. cbn [fst] in B5.
    unfold alloc_order, Heap.alloc.
    eexists _, _, _. split; [reflexivity|].
    cbn [line.orderNumber line.cfg orders buffers].
    assert (Ho : forall x : ProductionOrder,
               order (mkStore (buffers st) (orders st ++ [x]) (runtimes st))
                     (length (orders st)) = x).
    { intros x. unfold order, Heap.deref. cbn.
      apply list_lookup_total_middle. reflexivity. }
    rewrite Ho.
    cbn [OrderID Quantity QuantityCompleted QuantityScrap Status Priority
         DueDate PartNumber Customer].
    assert (Hq : add lo q = lo + q).
    { apply wrap64_small. unfold minInt64, maxInt64 in *. lia. }
    assert (Hp : add 1 p = 1 + p).
    { apply wrap64_small. unfold minInt64, maxInt64. lia. }
    assert (Hh : mul (add 8 hh) Hour = (8 + hh) * Hour).
    { unfold mul, add. rewrite (wrap64_small (8 + hh))
        by (unfold minInt64, maxInt64; lia).
      apply wrap64_small. unfold minInt64, maxInt64, Hour, Minute, Second. lia. }
    assert (Hi : incr (line.orderNumber og) = line.orderNumber og + 1).
    { unfold incr, add. apply wrap64_small.
      unfold minInt64, maxInt64 in *. lia. }
    rewrite Hq, Hp, Hh, Hi. unfold Add, Hour, Minute, Second.
    split_and!; try reflexivity; try lia.
    + apply in_map, nth_In_Z, B1.
    + apply nth_In_Z, B2.
Qed.

(** [GenerateOrder].  When the configured quantity range is empty
    ([OrderMaxQty - OrderMinQty + 1 <= 0]) it panics.  For a range
    [OrderMinQty <= OrderMaxQty] it allocates one new order and touches
    nothing else: the order has the next order number in its identifier, a
    quantity within the range, nothing completed or scrapped, status
    [QUEUED], a priority from 1 to 4, a due date 8 to 47 hours after the
    wall clock, and a part number and a customer of the two tables. *)
Theorem generated_order_is_queued_and_within_the_configured_range
    (clk : Clock) (year : Z) (og : line.OrderGenerator) (st : Store) :
  let lo := line.OrderMinQty (line.cfg og) in
  let hi := line.OrderMaxQty (line.cfg og) in
  (add (sub hi lo) 1 <= 0 -> line.GenerateOrder clk year og st = None)
  /\ (minInt64 <= lo -> lo <= hi -> hi <= maxInt64 -> hi - lo < maxInt64 ->
      0 <= line.orderNumber og < maxInt64 ->
      exists o og' st',
        line.GenerateOrder clk year og st = Some (o, og', st')
        /\ o = length (orders st)
        /\ orders st' = orders st ++ [order st' o]
        /\ buffers st' = buffers st
        /\ line.orderNumber og' = line.orderNumber og + 1
        /\ OrderID (order st' o)
           = String.append "LN-"
               (String.append (itoa year)
                  (String.append "-" (pad5 (line.orderNumber og + 1))))
        /\ lo <= Quantity (order st' o) <= hi
        /\ QuantityCompleted (order st' o) = 0
        /\ QuantityScrap (order st' o) = 0
        /\ Status (order st' o) = OrderStatusQueued
        /\ 1 <= Priority (order st' o) <= 4
        /\ wall clk + 8 * Hour <= DueDate (order st' o) <= wall clk + 47 * Hour
        /\ In (PartNumber (order st' o))
              (map line.PartNumber line.LineParts)
        /\ In (Customer (order st' o)) line.LineCustomers).
Proof.
  intros lo hi.
  destruct (GenerateOrder_spec clk year og st) as [Hbad Hok].
  split; [exact Hbad|].
  intros H1 H2 H3 H4 H5.
  destruct (Hok H1 H2 H3 H4 H5)
    as (o & og' & st' & E & K1 & K2 & K3 & K4 & _ & K5).
  exists o, og', st'. tauto.
Qed.

Lemma generated_order_is_queued_and_within_the_configured_range_witness :
  exists o og' st',
    line.GenerateOrder clock0 2026 orderGenerator0 (store world0)
    = Some (o, og', st')
    /\ OrderID (order st' o) = "LN-2026-01001"%string
    /\ 50 <= Quantity (order st' o) <= 500.
Proof.
  destruct (proj2 (generated_order_is_queued_and_within_the_configured_range
                     clock0 2026 orderGenerator0 (store world0)))
    as (o & og' & st' & E & _ & _ & _ & _ & Hid & Hq & _);
    try (vm_compute; congruence).
  { vm_compute. split; congruence. }
  exists o, og', st'. split; [exact E | split; [exact Hid | exact Hq]].
Defined.

Lemma generateOrders_spec (clk : Clock) (year : Z) (n : nat) :
  forall (og : line.OrderGenerator) (st : Store),
  let lo := line.OrderMinQty (line.cfg og) in
  let hi := line.OrderMaxQty (line.cfg og) in
  minInt64 <= lo -> lo <= hi -> hi <= maxInt64 -> hi - lo < maxInt64 ->
  0 <= line.orderNumber og -> line.orderNumber og + Z.of_nat n <= maxInt64 ->
  exists og' st' news,
    line.generateOrders clk year n og st
    = Some (seq (length (orders st)) n, og', st')
    /\ orders st' = orders st ++ news
    /\ length news = n
    /\ buffers st' = buffers st
    /\ line.orderNumber og' = line.orderNumber og + Z.of_nat n
    /\ line.cfg og' = line.cfg og
    /\ Forall (fun x => lo <= Quantity x <= hi
                        /\ Status x = OrderStatusQueued
                        /\ QuantityCompleted x = 0 /\ QuantityScrap x = 0)
              news.
Proof.
  induction n as [|n IH]; intros og st lo hi H1 H2 H3 H4 H5 H6.
  - exists og, st, []. simpl. rewrite app_nil_r.
    split_and!; try reflexivity; [lia | constructor].
  - simpl.
    destruct (GenerateOrder_spec clk year og st) as [_ Hok].
    destruct (Hok H1 H2 H3 H4 ltac:(lia))
      as (o & og1 & st1 & E & Ko & Ks & Kb & Kn & Kc & _ & Kq & Kqc & Kqs
          & Kst & _).
    rewrite E.
    assert (Hlen : length (orders st1) = S (length (orders st)))
      by (rewrite Ks, length_app; simpl; lia).
    specialize (IH og1 st1). cbv zeta in IH. rewrite Kc in IH.
    destruct (IH H1 H2 H3 H4 ltac:(lia) ltac:(lia))
      as (og' & st' & news & E' & Ks' & Kl' & Kb' & Kn' & Kc' & KF).
    rewrite E'. rewrite Hlen, Ko.
    exists og', st', (order st1 o :: news).
    split_and!.
    + reflexivity.
    + rewrite Ks', Ks, <- app_assoc. reflexivity.
    + simpl. lia.
    + congruence.
    + lia.
    + congruence.
    + constructor; [|exact KF]. fold lo hi. auto.
Qed.

(** [GenerateInitialQueue(count)] panics for a negative count.
    Otherwise it returns the addresses of exactly [count] new orders, in
    the order of their creation, appended to the orders of the store; the
    order number has advanced by [count]; every new order is queued, with
    a quantity within the configured range and nothing completed or
    scrapped. *)
Theorem initial_queue_holds_count_fresh_orders_numbered_in_sequence
    (clk : Clock) (year : Z) (og : line.OrderGenerator) (st : Store)
    (count : Z) :
  let lo := line.OrderMinQty (line.cfg og) in
  let hi := line.OrderMaxQty (line.cfg og) in
  (count < 0 -> line.GenerateInitialQueue clk year og st count = None)
  /\ (0 <= count ->
      minInt64 <= lo -> lo <= hi -> hi <= maxInt64 -> hi - lo < maxInt64 ->
      0 <= line.orderNumber og -> line.orderNumber og + count <= maxInt64 ->
      exists og' st' news,
        line.GenerateInitialQueue clk year og st count
        = Some (seq (length (orders st)) (Z.to_nat count), og', st')
        /\ orders st' = orders st ++ news
        /\ len news = count
        /\ buffers st' = buffers st
        /\ line.orderNumber og' = line.orderNumber og + count
        /\ Forall (fun x => lo <= Quantity x <= hi
                            /\ Status x = OrderStatusQueued
                            /\ QuantityCompleted x = 0
                            /\ QuantityScrap x = 0)
                  news).
Proof.
  intros lo hi. unfold line.GenerateInitialQueue. split.
  - intros H. apply Z.ltb_lt in H. rewrite H. reflexivity.
  - intros H0 H1 H2 H3 H4 H5 H6.
    replace (count <? 0) with false by (symmetry; apply Z.ltb_ge; lia).
    destruct (generateOrders_spec clk year (Z.to_nat count) og st
                H1 H2 H3 H4 H5 ltac:(lia))
      as (og' & st' & news & E & Ks & Kl & Kb & Kn & _ & KF).
    exists og', st', news. unfold len.
    split_and!; try assumption; lia.
Qed.

Lemma initial_queue_holds_count_fresh_orders_numbered_in_sequence_witness :
  exists og' st',
    line.GenerateInitialQueue clock0 2026 orderGenerator0 (store world0) 3
    = Some ([0; 1; 2]%nat, og', st')
    /\ line.orderNumber og' = 1003.
Proof.
  destruct (proj2 (initial_queue_holds_count_fresh_orders_numbered_in_sequence
                     clock0 2026 orderGenerator0 (store world0) 3))
    as (og' & st' & news & E & _ & _ & _ & Hn & _);
    try (vm_compute; congruence).
  exists og', st'. split; [exact E | exact Hn].
Defined.
